(** * Jira export normalisation pipeline ([main_jira.py])

    A shallow embedding of the two variants of the exporter,
    [src/main_jira.py] and [src/jira_exports_dashboard/main_jira.py],
    together with the part of pandas and of Python's [re] they rely on.

    Modelling conventions.
    - Text is a [string] of 8-bit characters, the UTF-8 bytes of the Python
      text: a byte below 128 is an ASCII character.  The only non-ASCII
      text the program itself brings in is the glyph that
      [preprocess_columns] strips, three bytes, and the fixed words of the
      log message.  Python's [str.lower] and the classes [\d], [\s] and
      [\w] know all of Unicode; the model has their restrictions to ASCII,
      and a statement whose truth depends on them assumes the text in
      question to be ASCII ([PyStr.is_ascii], [Jira.plain_header]).
    - pandas is the 2.x series: a column that holds text has dtype object, a
      column created by [reindex] is float64, and [.str] is refused on
      anything that is not text.  The columns of a sheet without any column
      are a [RangeIndex], on which [.str] is refused as well.
    - A numeric value (int64 or float64 in pandas) is an exact integer of
      [Z].  [pd.to_numeric] raises on a number above [2^64 - 1], in the
      model as in the code.  Below that the code computes in int64, which
      wraps around, or in float64, which rounds above [2^53]; the model does
      not follow either and is exact.  The two agree on a column in which
      every number read has at most 14 digits, since every value and every
      total is then below [2^53]; the statements about values are made for
      such columns ([Scanner.tame]).
    - [NaN] is a cell of its own.
    - A Python exception is the [Raise] branch of [result].
    - The file system is reduced to the two files a run writes; the sheets
      that [pd.read_excel] reads are given with their paths, in the order
      [get_excel_filepaths] found them. *)

From Stdlib Require Import List String Ascii Bool Arith ZArith NArith Lia.
From Stdlib Require Import QArith Qround.
From Stdlib Require Import DecimalString DecimalN DecimalPos DecimalFacts.
From Stdlib Require Import Permutation.
Import ListNotations.

Local Close Scope Q_scope.
Local Open Scope string_scope.
Local Open Scope nat_scope.

(* ------------------------------------------------------------------ *)
(** ** Exceptions *)

Inductive exn : Type :=
| KeyError
| AttributeError
| ValueError.

Inductive result (A : Type) : Type :=
| Ok (a : A)
| Raise (e : exn).

Arguments Ok {A} a.
Arguments Raise {A} e.

Definition bind {A B : Type} (m : result A) (f : A -> result B) : result B :=
  match m with
  | Ok a => f a
  | Raise e => Raise e
  end.

Notation "x <- m ;; k" := (bind m (fun x => k))
  (at level 61, m at next level, right associativity).

(* ------------------------------------------------------------------ *)
(** ** Python strings *)

Module PyStr.

Definition code (c : ascii) : nat := nat_of_ascii c.

(** The character classes of ASCII text; [is_digit] is [\d] there. *)
Definition is_upper (c : ascii) : bool := (65 <=? code c) && (code c <=? 90).
Definition is_lower (c : ascii) : bool := (97 <=? code c) && (code c <=? 122).
Definition is_digit (c : ascii) : bool := (48 <=? code c) && (code c <=? 57).

(** [\s] on ASCII text: the ASCII characters for which [str.isspace]
    holds. *)
Definition is_space (c : ascii) : bool :=
  ((9 <=? code c) && (code c <=? 13))
  || ((28 <=? code c) && (code c <=? 31))
  || (code c =? 32).

(** [\w] on ASCII text: letters, digits and the underscore. *)
Definition is_word (c : ascii) : bool :=
  is_upper c || is_lower c || is_digit c || (code c =? 95).

Definition lower_char (c : ascii) : ascii :=
  if is_upper c then ascii_of_nat (code c + 32) else c.

(** [s.lower()] on ASCII text *)
Fixpoint lower (s : string) : string :=
  match s with
  | EmptyString => EmptyString
  | String c s' => String (lower_char c) (lower s')
  end.

(** [s.startswith(p)] *)
Fixpoint startswith (p s : string) : bool :=
  match p, s with
  | EmptyString, _ => true
  | String a p', String b s' => Ascii.eqb a b && startswith p' s'
  | String _ _, EmptyString => false
  end.

(** [p in s] for a non-empty [p] *)
Fixpoint contains (p s : string) : bool :=
  startswith p s ||
  match s with
  | EmptyString => false
  | String _ s' => contains p s'
  end.

(** The formatting glyph U+229E, as its UTF-8 bytes E2 8A 9E. *)
Definition glyph0 : ascii := ascii_of_nat 226.
Definition glyph1 : ascii := ascii_of_nat 138.
Definition glyph2 : ascii := ascii_of_nat 158.
Definition glyph : string :=
  String glyph0 (String glyph1 (String glyph2 EmptyString)).

(** [s.replace(glyph, "")]: every occurrence is removed, scanning from the
    left. *)
Fixpoint strip_glyph (s : string) : string :=
  match s with
  | EmptyString => EmptyString
  | String a s1 =>
      match s1 with
      | String b (String c rest) =>
          if Ascii.eqb a glyph0 && Ascii.eqb b glyph1 && Ascii.eqb c glyph2
          then strip_glyph rest
          else String a (strip_glyph s1)
      | _ => String a (strip_glyph s1)
      end
  end.

(** [str(n)] for a non-negative integer *)
Definition str_of_N (n : N) : string :=
  NilZero.string_of_uint (N.to_uint n).

(** [x in xs] for strings *)
Definition mem (x : string) (xs : list string) : bool :=
  existsb (String.eqb x) xs.

(** Text all of whose characters are ASCII.  On such text [is_digit],
    [is_space], [is_word] and [lower] are Python's [\d], [\s], [\w] and
    [str.lower]; on other text Python's are wider (a no-break space is
    white space, an Arabic-Indic digit a digit, a Cyrillic letter a word
    character, and the Kelvin sign has the lower case [k]). *)
Fixpoint is_ascii (s : string) : bool :=
  match s with
  | EmptyString => true
  | String c s' => (code c <? 128) && is_ascii s'
  end.

End PyStr.

(* ------------------------------------------------------------------ *)
(** ** Python's [re]: a backtracking matcher

    The fragment of the pattern language the two patterns of the program use:
    character classes, greedy bounded or unbounded repetition of a class,
    sequencing, the greedy optional non-capturing group [(?:r)?] and
    capturing groups.  Matching is by backtracking, as in CPython: a greedy
    repetition tries the longest run first and gives characters back one at a
    time, an optional group is tried before it is skipped. *)

Module Re.

Inductive regex : Type :=
| Eps
| Cls (p : ascii -> bool)
| Rep (p : ascii -> bool) (lo : nat) (hi : option nat)
| Seq (r1 r2 : regex)
| Opt (r : regex)
| Grp (i : nat) (r : regex).

(** The groups captured so far, most recent first. *)
Definition groups : Type := list (nat * string).

Fixpoint group (i : nat) (g : groups) : option string :=
  match g with
  | [] => None
  | (j, s) :: g' => if Nat.eqb i j then Some s else group i g'
  end.

Definition may_take (hi : option nat) : bool :=
  match hi with
  | None => true
  | Some h => 0 <? h
  end.

(** Greedy [p{lo,hi}] followed by the continuation [k]. *)
Fixpoint rep_bt {R : Type} (p : ascii -> bool) (lo : nat) (hi : option nat)
         (s : string) (k : string -> option R) : option R :=
  match s with
  | String c s' =>
      if p c && may_take hi then
        match rep_bt p (Nat.pred lo) (option_map Nat.pred hi) s' k with
        | Some r => Some r
        | None => if lo =? 0 then k s else None
        end
      else if lo =? 0 then k s else None
  | EmptyString => if lo =? 0 then k s else None
  end.

(** The text consumed between the positions [s] and its suffix [s']. *)
Definition consumed (s s' : string) : string :=
  substring 0 (String.length s - String.length s') s.

Fixpoint bt {R : Type} (r : regex) (s : string) (g : groups)
         (k : string -> groups -> option R) : option R :=
  match r with
  | Eps => k s g
  | Cls p =>
      match s with
      | String c s' => if p c then k s' g else None
      | EmptyString => None
      end
  | Rep p lo hi => rep_bt p lo hi s (fun s' => k s' g)
  | Seq r1 r2 => bt r1 s g (fun s' g' => bt r2 s' g' k)
  | Opt r1 =>
      match bt r1 s g k with
      | Some x => Some x
      | None => k s g
      end
  | Grp i r1 => bt r1 s g (fun s' g' => k s' ((i, consumed s s') :: g'))
  end.

(** [re.match]: a match that starts at the first character. *)
Definition match_here (r : regex) (s : string) : option groups :=
  bt r s [] (fun _ g => Some g).

(** [re.search]: the leftmost position at which the pattern matches. *)
Fixpoint search (r : regex) (s : string) : option groups :=
  match match_here r s with
  | Some g => Some g
  | None =>
      match s with
      | String _ s' => search r s'
      | EmptyString => None
      end
  end.

Definition lit (c : ascii) : regex := Cls (Ascii.eqb c).
Definition one_of (a b : ascii) : regex :=
  Cls (fun c => Ascii.eqb c a || Ascii.eqb c b).
Definition plus (p : ascii -> bool) : regex := Rep p 1 None.
Definition star (p : ascii -> bool) : regex := Rep p 0 None.
Definition times (p : ascii -> bool) (n : nat) : regex := Rep p n (Some n).

Fixpoint seq (rs : list regex) : regex :=
  match rs with
  | [] => Eps
  | [r] => r
  | r :: rs' => Seq r (seq rs')
  end.

End Re.

(* ------------------------------------------------------------------ *)
(** ** pandas: cells, Series and DataFrames *)

Module Pandas.

Inductive cell : Type :=
| CStr (s : string)
| CNum (z : Z)
| NaN.

(** The program only asks whether a column's dtype is ["object"]. *)
Inductive dtype : Type :=
| Object
| Float64.

Record Series : Type := mkSeries {
  dtype_of : dtype;
  values : list cell
}.

(** A frame read by [pd.read_excel] has the index [RangeIndex(nrows)]; its
    columns are kept in order, and labels may repeat. *)
Record DataFrame : Type := mkFrame {
  nrows : nat;
  columns : list (string * Series)
}.

Definition is_str (c : cell) : bool :=
  match c with CStr _ => true | _ => false end.

Definition is_nan (c : cell) : bool :=
  match c with NaN => true | _ => false end.

(** A cell that is not text, or whose text is ASCII. *)
Definition ascii_cell (c : cell) : bool :=
  match c with CStr t => PyStr.is_ascii t | _ => true end.

Definition dtype_eqb (a b : dtype) : bool :=
  match a, b with
  | Object, Object | Float64, Float64 => true
  | _, _ => false
  end.

(** [df.columns] *)
Definition labels (df : DataFrame) : list string := map fst (columns df).

(** [df.columns = new]: the labels are replaced position by position. *)
Definition set_labels (df : DataFrame) (new : list string) : DataFrame :=
  mkFrame (nrows df) (combine new (map snd (columns df))).

Fixpoint select {A : Type} (xs : list A) (mask : list bool) : list A :=
  match xs, mask with
  | x :: xs', b :: mask' => if b then x :: select xs' mask' else select xs' mask'
  | _, _ => []
  end.

(** [df.loc[:, mask]] *)
Definition loc_columns (df : DataFrame) (mask : list bool) : DataFrame :=
  mkFrame (nrows df) (select (columns df) mask).

Fixpoint assoc (key : string) (m : list (string * string)) : option string :=
  match m with
  | [] => None
  | (k, v) :: m' => if String.eqb key k then Some v else assoc key m'
  end.

(** [mapper[key] = value] on a dict kept as an association list *)
Definition dict_set (m : list (string * string)) (key value : string)
  : list (string * string) :=
  (key, value) :: m.

(** [df.rename(columns=mapper)] *)
Definition rename (df : DataFrame) (mapper : list (string * string))
  : DataFrame :=
  mkFrame (nrows df)
    (map (fun c => (match assoc (fst c) mapper with
                    | Some l => l
                    | None => fst c
                    end, snd c)) (columns df)).

Fixpoint has_dup (xs : list string) : bool :=
  match xs with
  | [] => false
  | x :: xs' => PyStr.mem x xs' || has_dup xs'
  end.

Fixpoint lookup (key : string) (cols : list (string * Series))
  : option Series :=
  match cols with
  | [] => None
  | (k, s) :: cols' => if String.eqb key k then Some s else lookup key cols'
  end.

Fixpoint labels_eqb (xs ys : list string) : bool :=
  match xs, ys with
  | [], [] => true
  | x :: xs', y :: ys' => String.eqb x y && labels_eqb xs' ys'
  | _, _ => false
  end.

(** A column that [reindex] creates: float64, [NaN] in every row. *)
Definition nan_series (n : nat) : Series := mkSeries Float64 (repeat NaN n).

(** [df.reindex(columns=target)]: a frame whose labels already equal
    [target] is returned as it is; otherwise duplicate labels raise
    [ValueError: cannot reindex on an axis with duplicate labels], and
    a label of [target] that [df] lacks becomes a [NaN] column. *)
Definition reindex (df : DataFrame) (target : list string)
  : result DataFrame :=
  if labels_eqb (labels df) target then Ok df
  else if has_dup (labels df) then Raise ValueError
  else Ok (mkFrame (nrows df)
             (map (fun t => (t, match lookup t (columns df) with
                                | Some s => s
                                | None => nan_series (nrows df)
                                end)) target)).

(** [df[col]] used as a Series: no such label raises [KeyError]; a label
    that occurs twice selects a DataFrame, on which the attribute that the
    program reads next ([dtype], [str]) raises [AttributeError]. *)
Definition getitem (df : DataFrame) (col : string) : result Series :=
  match filter (fun c => String.eqb col (fst c)) (columns df) with
  | [] => Raise KeyError
  | [c] => Ok (snd c)
  | _ => Raise AttributeError
  end.

(** Whether [s.str] is available: the dtype is object and the values, [NaN]
    apart, are inferred as strings or as a mix that contains strings; an
    object column without any value counts as empty and is accepted. *)
Definition can_str (s : Series) : bool :=
  match dtype_of s with
  | Object => forallb is_nan (values s) || existsb is_str (values s)
  | Float64 => false
  end.

(** [s.str]: [AttributeError: Can only use .str accessor with string
    values!] *)
Definition str (s : Series) : result (list cell) :=
  if can_str s then Ok (values s) else Raise AttributeError.

Definition cell_of_group (o : option string) : cell :=
  match o with
  | Some t => CStr t
  | None => NaN
  end.

(** One row of [s.str.extract(pattern)]: the groups [1..n] of the first
    match found by [re.search]; [NaN] for a group that took no part in the
    match, for a string without a match and for a value that is not a
    string. *)
Definition extract_row (r : Re.regex) (n : nat) (c : cell)
  : list (option string) :=
  match c with
  | CStr t =>
      match Re.search r t with
      | Some g => map (fun i => Re.group i g) (seq 1 n)
      | None => repeat None n
      end
  | _ => repeat None n
  end.

(** [df[col] = s] for a label that occurs at most once *)
Fixpoint set_column (cols : list (string * Series)) (col : string)
         (s : Series) : list (string * Series) :=
  match cols with
  | [] => [(col, s)]
  | (k, v) :: cols' =>
      if String.eqb col k then (k, s) :: cols'
      else (k, v) :: set_column cols' col s
  end.

Definition setitem (df : DataFrame) (col : string) (s : Series)
  : DataFrame :=
  mkFrame (nrows df) (set_column (columns df) col s).

(** [df.drop(col, axis=1)]: [KeyError] when the label is absent; every
    column that carries the label goes. *)
Definition drop (df : DataFrame) (col : string) : result DataFrame :=
  if PyStr.mem col (labels df)
  then Ok (mkFrame (nrows df)
             (filter (fun c => negb (String.eqb col (fst c))) (columns df)))
  else Raise KeyError.

(** [pd.concat([a, b], axis=1)] of two frames over the same index *)
Definition concat_columns (a b : DataFrame) : DataFrame :=
  mkFrame (nrows a) (columns a ++ columns b).

(** [df.insert(loc=0, column=col, value=v)] with a scalar string:
    [ValueError] when the label exists already. *)
Definition insert0 (df : DataFrame) (col : string) (v : string)
  : result DataFrame :=
  if PyStr.mem col (labels df) then Raise ValueError
  else Ok (mkFrame (nrows df)
             ((col, mkSeries Object (repeat (CStr v) (nrows df)))
                :: columns df)).

Definition join_dtype (a b : dtype) : dtype :=
  match a, b with
  | Float64, Float64 => Float64
  | _, _ => Object
  end.

(** The rows of [df] under the label [l], [NaN] where [df] has no such
    column. *)
Definition column_or_nan (df : DataFrame) (l : string) : Series :=
  match lookup l (columns df) with
  | Some s => s
  | None => nan_series (nrows df)
  end.

Definition stack (l : string) (dfs : list DataFrame) : Series :=
  mkSeries
    (fold_right join_dtype Float64
       (map (fun df => dtype_of (column_or_nan df l)) dfs))
    (flat_map (fun df => values (column_or_nan df l)) dfs).

Fixpoint union_labels (seen : list string) (ls : list string) : list string :=
  match ls with
  | [] => seen
  | l :: ls' =>
      if PyStr.mem l seen then union_labels seen ls'
      else union_labels (seen ++ [l]) ls'
  end.

(** [pd.concat(dfs, ignore_index=True)]: [ValueError: No objects to
    concatenate] on an empty list; frames with unique labels are stacked
    in the order given, over the union of their labels in order of first
    appearance.  A frame with a repeated label never reaches this call in
    the program, where every frame carries the nine distinct labels of the
    output; pandas stacks such frames when all of them agree and raises
    otherwise, and the model raises in both cases. *)
Definition concat (dfs : list DataFrame) : result DataFrame :=
  match dfs with
  | [] => Raise ValueError
  | _ =>
      if existsb (fun df => has_dup (labels df)) dfs then Raise ValueError
      else
        let ls := fold_left union_labels (map labels dfs) [] in
        Ok (mkFrame (list_sum (map nrows dfs))
              (map (fun l => (l, stack l dfs)) ls))
  end.

End Pandas.

(* ------------------------------------------------------------------ *)
(** ** [src/main_jira.py] *)

Module Jira.
Import Pandas.

(** A [pathlib.Path] of a spreadsheet: the name of its directory, and its
    file name split into stem and suffix. *)
Record Path : Type := mkPath {
  parent_name : string;
  stem : string;
  suffix : string
}.

(** [path.name] *)
Definition name (p : Path) : string := (stem p ++ suffix p)%string.

Definition COLUMNS_TEMPLATE : list string :=
  ["Date/Period"; "Lead Time"; "Cycle Time"; "Blocked Time";
   "Time to Market"; "Analysis Time"].

Definition COLUMNS_TEMPLATE_LOWER : list string :=
  map PyStr.lower COLUMNS_TEMPLATE.

Definition newline : string := String (ascii_of_nat 10) EmptyString.

(** The text that [preprocess_columns] logs for a template column the
    file lacks. *)
Definition missing_column_message (col file : string) : string :=
  ("Колонка '" ++ col ++ "' не существует в файле '" ++ file ++ "'"
     ++ newline)%string.

(** The inner loop over [COLUMNS_TEMPLATE], left at the first [c2] whose
    lower-cased text is that of [c1]. *)
Fixpoint first_same_lower (c1 : string) (template : list string)
  : option string :=
  match template with
  | [] => None
  | c2 :: template' =>
      if String.eqb (PyStr.lower c1) (PyStr.lower c2) then Some c2
      else first_same_lower c1 template'
  end.

Definition col_rename_mapper (cols : list string) : list (string * string) :=
  fold_left
    (fun mapper c1 =>
       if PyStr.mem c1 COLUMNS_TEMPLATE then mapper
       else match first_same_lower c1 COLUMNS_TEMPLATE with
            | Some c2 => dict_set mapper c1 c2
            | None => mapper
            end)
    cols [].

(** [df.columns.str] on a sheet as [pd.read_excel] returns it: the
    columns of a sheet without any column are a [RangeIndex], on which the
    accessor is refused with [AttributeError: Can only use .str accessor
    with string values]. *)
Definition columns_str (df : DataFrame) : result (list string) :=
  match labels df with
  | [] => Raise AttributeError
  | cols => Ok cols
  end.

(** The columns that [df.loc[:, mask]] keeps, after the glyph is gone from
    the labels. *)
Definition masked_columns (df : DataFrame) : DataFrame :=
  let df := set_labels df (map PyStr.strip_glyph (labels df)) in
  let mask :=
    map (fun c => PyStr.mem (PyStr.lower c) COLUMNS_TEMPLATE_LOWER)
        (labels df) in
  loc_columns df mask.

(** The first three statements of [preprocess_columns]: they raise at
    [df.columns.str] on a sheet without columns. *)
Definition kept_columns (df : DataFrame) : result DataFrame :=
  _ <- columns_str df;;
  Ok (masked_columns df).

(** The lines passed to [logging.info], in order.  The frame is the one
    the mask has left, whose columns are an object index also when none is
    left, so that [df.columns.str] is available. *)
Definition missing_column_logs (df : DataFrame) (excel_filepath : Path)
  : list string :=
  flat_map
    (fun col =>
       if negb (PyStr.mem (PyStr.lower col) (map PyStr.lower (labels df)))
       then [missing_column_message col (name excel_filepath)]
       else [])
    COLUMNS_TEMPLATE.

(** [preprocess_columns(df, excel_filepath)]: the lines it logs, which are
    written before [reindex] can raise, and its outcome.  Nothing is logged
    when the first statement raises. *)
Definition preprocess_columns (df : DataFrame) (excel_filepath : Path)
  : list string * result DataFrame :=
  match kept_columns df with
  | Raise e => ([], Raise e)
  | Ok df =>
      let logs := missing_column_logs df excel_filepath in
      let df := rename df (col_rename_mapper (labels df)) in
      (logs, reindex df COLUMNS_TEMPLATE)
  end.

(** A header that is ASCII once the glyph is gone from it. *)
Definition plain_header (l : string) : bool :=
  PyStr.is_ascii (PyStr.strip_glyph l).

Definition plain_headers (df : DataFrame) : bool :=
  forallb plain_header (labels df).

(* ---------------- split_date_col ---------------- *)

Definition date_part : Re.regex :=
  Re.seq [Re.Rep PyStr.is_digit 1 (Some 2); Re.lit "/";
          Re.times PyStr.is_word 3; Re.lit "/"; Re.times PyStr.is_digit 2].

(** [(\d{1,2}/\w{3}/\d{2})\s+-\s+(\d{1,2}/\w{3}/\d{2})\s+\([Ww][Ee]{2}[Kk]\s+#(\d+)\)] *)
Definition date_pattern : Re.regex :=
  Re.seq [Re.Grp 1 date_part; Re.plus PyStr.is_space; Re.lit "-";
          Re.plus PyStr.is_space; Re.Grp 2 date_part;
          Re.plus PyStr.is_space; Re.lit "("; Re.one_of "W" "w";
          Re.times (fun c => Ascii.eqb c "E" || Ascii.eqb c "e") 2;
          Re.one_of "K" "k"; Re.plus PyStr.is_space; Re.lit "#";
          Re.Grp 3 (Re.plus PyStr.is_digit); Re.lit ")"].

Definition group_column (rows : list (list (option string))) (i : nat)
  : Series :=
  mkSeries Object (map (fun row => cell_of_group (nth i row None)) rows).

(** [s.str.extract(pattern)] for a pattern with three unnamed groups: a
    frame with one column per group.  Its integer labels 0, 1, 2 are
    written as decimal text. *)
Definition str_extract3 (r : Re.regex) (n : nat) (vals : list cell)
  : DataFrame :=
  let rows := map (extract_row r 3) vals in
  mkFrame n [("0", group_column rows 0); ("1", group_column rows 1);
             ("2", group_column rows 2)].

Definition split_date_col (df : DataFrame) : result DataFrame :=
  s <- getitem df "Date/Period";;
  vals <- str s;;
  let df_ :=
    rename (str_extract3 date_pattern (nrows df) vals)
      [("0", "Period Start"); ("1", "Period End"); ("2", "Week Number")] in
  df <- drop df "Date/Period";;
  Ok (concat_columns df_ df).

(* ---------------- convert_time_cols ---------------- *)

(** A numeric value of [df_dhm]; [None] is [NaN]. *)
Definition num : Type := option Z.

(** A row of the frame [df_dhm] with the columns [Days], [Hours] and
    [Minutes]. *)
Record dhm (A : Type) : Type := mkDhm {
  Days : A;
  Hours : A;
  Minutes : A
}.
Arguments mkDhm {A}.
Arguments Days {A}.
Arguments Hours {A}.
Arguments Minutes {A}.

Definition unit_part (i : nat) (c : ascii) : Re.regex :=
  Re.Opt (Re.seq [Re.Grp i (Re.plus PyStr.is_digit); Re.lit c;
                  Re.star PyStr.is_space]).

(** The pattern of [convert_time_cols], written here with blanks between
    its parts:
    [(?: (?P<Days>\d+) d \s* )? (?: (?P<Hours>\d+) h \s* )? (?: (?P<Minutes>\d+) m \s* )?] *)
Definition regex_pattern : Re.regex :=
  Re.seq [unit_part 1 "d"; unit_part 2 "h"; unit_part 3 "m"].

(** A row of [df[col].str.extract(regex_pattern, expand=True)] *)
Definition extract_dhm (c : cell) : dhm (option string) :=
  let row := extract_row regex_pattern 3 c in
  mkDhm (nth 0 row None) (nth 1 row None) (nth 2 row None).

Definition UINT64_MAX : Z := 18446744073709551615.

(** [pd.to_numeric] on a value of an extracted column: [NaN] stays, decimal
    text is read, a number above [2^64 - 1] raises [ValueError: Integer out
    of range], and so does anything that is not a number. *)
Definition to_numeric (v : option string) : result num :=
  match v with
  | None => Ok None
  | Some t =>
      match NilZero.uint_of_string t with
      | Some u =>
          let z := Z.of_N (N.of_uint u) in
          if (z <=? UINT64_MAX)%Z then Ok (Some z) else Raise ValueError
      | None => Raise ValueError
      end
  end.

Definition to_numeric_row (r : dhm (option string)) : result (dhm num) :=
  d <- to_numeric (Days r);;
  h <- to_numeric (Hours r);;
  m <- to_numeric (Minutes r);;
  Ok (mkDhm d h m).

Fixpoint mapM {A B : Type} (f : A -> result B) (xs : list A)
  : result (list B) :=
  match xs with
  | [] => Ok []
  | x :: xs' => y <- f x;; ys <- mapM f xs';; Ok (y :: ys)
  end.

Definition notna (v : num) : bool :=
  match v with Some _ => true | None => false end.

Definition fillna (v : num) (d : Z) : num :=
  match v with Some z => Some z | None => Some d end.

Definition process_nans (row : dhm num) : dhm num :=
  if notna (Days row) || notna (Hours row) || notna (Minutes row)
  then mkDhm (fillna (Days row) 0) (fillna (Hours row) 0)
             (fillna (Minutes row) 0)
  else row.

Definition num_add (a b : num) : num :=
  match a, b with
  | Some x, Some y => Some (x + y)%Z
  | _, _ => None
  end.

Definition num_mul (a : num) (k : Z) : num := option_map (fun x => (x * k)%Z) a.

(** [np.ceil(a / k)] *)
Definition num_ceil_div (a : num) (k : Z) : num :=
  option_map (fun x => Qceiling (inject_Z x / inject_Z k)) a.

(** [df_dhm["Days"] * 24 + df_dhm["Hours"] + np.ceil(df_dhm["Minutes"] / 60)]
    in exact integers: the value the code computes when the three numbers
    have at most 14 digits (see the conventions above). *)
Definition total_hours (row : dhm num) : num :=
  num_add (num_add (num_mul (Days row) 24) (Hours row))
          (num_ceil_div (Minutes row) 60).

Definition cell_of_num (v : num) : cell :=
  match v with
  | Some z => CNum z
  | None => NaN
  end.

(** The four statements of the loop body applied to one object column.
    The total is float64 because of the division; on a column without rows
    nothing is computed and the total is an empty object column. *)
Definition convert_column (s : Series) : result Series :=
  vals <- str s;;
  let df_dhm := map extract_dhm vals in
  df_dhm <- mapM to_numeric_row df_dhm;;
  let df_dhm := map process_nans df_dhm in
  Ok (mkSeries (match vals with [] => Object | _ :: _ => Float64 end)
        (map (fun row => cell_of_num (total_hours row)) df_dhm)).

Fixpoint convert_time_cols (df : DataFrame) (columns_to_process : list string)
  : result DataFrame :=
  match columns_to_process with
  | [] => Ok df
  | col :: rest =>
      s <- getitem df col;;
      if negb (dtype_eqb (dtype_of s) Object) then convert_time_cols df rest
      else
        total <- convert_column s;;
        convert_time_cols (setitem df col total) rest
  end.

(** What the statements of the loop body make of the row of one cell. *)
Definition convert_cell (c : cell) : result cell :=
  row <- to_numeric_row (extract_dhm c);;
  Ok (cell_of_num (total_hours (process_nans row))).

(* ---------------- main ---------------- *)

(** [[col for col in COLUMNS_TEMPLATE if "time" in col.lower()]] *)
Definition time_columns : list string :=
  filter (fun col => PyStr.contains "time" (PyStr.lower col)) COLUMNS_TEMPLATE.

(** The body of the loop of [main] after [pd.read_excel]: the lines it
    logs and the frame it appends to [transformed_dfs]. *)
Definition transform (filepath : Path) (df : DataFrame)
  : list string * result DataFrame :=
  let (logs, r) := preprocess_columns df filepath in
  (logs,
   df <- r;;
   df <- convert_time_cols df time_columns;;
   df <- split_date_col df;;
   insert0 df "Department Name" (stem filepath)).

(** The files of a run: [None] for a file that does not exist. *)
Record Outputs : Type := mkOutputs {
  csv_file : option DataFrame;
  log_file : option string
}.

(** A record written by the handler of [logging.basicConfig]. *)
Definition log_record (msg : string) : string :=
  ("INFO:root:" ++ msg ++ newline)%string.

(** The loop of [main] over the discovered files, each paired with the
    sheet [pd.read_excel] reads from it: the text logged so far and
    [transformed_dfs]. *)
Fixpoint loop (files : list (Path * DataFrame)) (log : string)
  : string * result (list DataFrame) :=
  match files with
  | [] => (log, Ok [])
  | (filepath, sheet) :: rest =>
      let (lines, r) := transform filepath sheet in
      let log := (log ++ String.concat "" (map log_record lines))%string in
      match r with
      | Raise e => (log, Raise e)
      | Ok df =>
          let (log, rs) := loop rest log in
          (log, dfs <- rs;; Ok (df :: dfs))
      end
  end.

(** [main()]: [logging.basicConfig(filename=OUTPUT_LOGS_PATH)] opens the
    log file before any file is read, so the file exists after every run;
    the CSV is written once all frames are concatenated. *)
Definition main (files : list (Path * DataFrame)) : Outputs * result unit :=
  let (log, r) := loop files "" in
  match dfs <- r;; concat dfs with
  | Ok final_df => (mkOutputs (Some final_df) (Some log), Ok tt)
  | Raise e => (mkOutputs None (Some log), Raise e)
  end.

End Jira.

(* ------------------------------------------------------------------ *)
(** ** A direct reading of the duration pattern

    What the backtracking matcher computes on [regex_pattern], written as
    the deterministic scanner it amounts to: each unit takes the longest run
    of digits, wants its letter next, and then skips white space. *)

Module Scanner.

(** The longest prefix of [s] in the class [p], and what follows it. *)
Fixpoint span (p : ascii -> bool) (s : string) : string * string :=
  match s with
  | EmptyString => (EmptyString, EmptyString)
  | String c s' =>
      if p c then let (a, b) := span p s' in (String c a, b)
      else (EmptyString, s)
  end.

Definition take_unit (c : ascii) (s : string) : option string * string :=
  match span PyStr.is_digit s with
  | (String d ds, String x rest) =>
      if Ascii.eqb c x then (Some (String d ds), snd (span PyStr.is_space rest))
      else (None, s)
  | _ => (None, s)
  end.

Definition scan_dhm (s : string) : Jira.dhm (option string) :=
  let (d, s1) := take_unit "d" s in
  let (h, s2) := take_unit "h" s1 in
  let (m, _) := take_unit "m" s2 in
  Jira.mkDhm d h m.

Fixpoint all_in (p : ascii -> bool) (s : string) : bool :=
  match s with
  | EmptyString => true
  | String c s' => p c && all_in p s'
  end.

Definition is_some {A : Type} (o : option A) : bool :=
  match o with Some _ => true | None => false end.

(** The number a group stands for, 0 for a group that did not match. *)
Definition value_or_zero (v : option string) : Z :=
  match Jira.to_numeric v with
  | Ok (Some z) => z
  | _ => 0%Z
  end.

(** days x 24 + hours + ceil(minutes / 60), the ceiling of the quotient
    of integers written with the floor division of [Z]. *)
Definition hours_of (d h m : Z) : Z := (d * 24 + h + (m + 59) / 60)%Z.

(** The cell that the specification asks for, given the three groups of a
    row: a missing value when no group matched, and otherwise the total
    hours with every unmatched group read as 0. *)
Definition spec_total_hours (g : Jira.dhm (option string)) : Pandas.cell :=
  if is_some (Jira.Days g) || is_some (Jira.Hours g) || is_some (Jira.Minutes g)
  then Pandas.CNum (hours_of (value_or_zero (Jira.Days g))
                             (value_or_zero (Jira.Hours g))
                             (value_or_zero (Jira.Minutes g)))
  else Pandas.NaN.

(** The row of [df_dhm] that belongs to a cell, once it is numeric. *)
Definition numeric_row (c : Pandas.cell) : Jira.dhm Jira.num :=
  match Jira.to_numeric_row (Jira.extract_dhm c) with
  | Ok row => row
  | Raise _ => Jira.mkDhm None None None
  end.

(** The value that the conversion leaves in the place of a cell. *)
Definition cell_hours (c : Pandas.cell) : Pandas.cell :=
  Jira.cell_of_num (Jira.total_hours (Jira.process_nans (numeric_row c))).

(** A group of at most 14 digits, or no group. *)
Definition short (v : option string) : bool :=
  match v with
  | Some t => String.length t <=? 14
  | None => true
  end.

(** A cell on which the exact arithmetic of the model is that of the code:
    it is not text, or it is ASCII text in which each of the numbers that
    the pattern reads has at most 14 digits.  Every value is then below
    [10^14] and every total below [26 * 10^14], less than [2^53]. *)
Definition tame (c : Pandas.cell) : bool :=
  match c with
  | Pandas.CStr t =>
      PyStr.is_ascii t
      && short (Jira.Days (Jira.extract_dhm c))
      && short (Jira.Hours (Jira.extract_dhm c))
      && short (Jira.Minutes (Jira.extract_dhm c))
  | _ => true
  end.

(** A cell whose numbers [pd.to_numeric] reads, none of them being above
    [2^64 - 1]. *)
Definition readable (c : Pandas.cell) : bool :=
  match Jira.to_numeric_row (Jira.extract_dhm c) with
  | Ok _ => true
  | Raise _ => false
  end.

(** The text ["{D}d {H}h {M}m"] *)
Definition fmt_dhm (D H M : N) : string :=
  (PyStr.str_of_N D ++ "d " ++ PyStr.str_of_N H ++ "h "
     ++ PyStr.str_of_N M ++ "m")%string.

End Scanner.

(* ------------------------------------------------------------------ *)
(** ** Observations on frames used to state the properties *)

Module View.
Import Pandas.

(** The template label that a kept label is renamed to. *)
Definition canonical (c : string) : string :=
  match Jira.first_same_lower c Jira.COLUMNS_TEMPLATE with
  | Some c2 => c2
  | None => c
  end.

(** The lower-cased labels of the columns that survive the mask. *)
Definition kept_lower (df : DataFrame) : list string :=
  map PyStr.lower (labels (Jira.masked_columns df)).

(** The value in row [i] of the first column labelled [l]. *)
Definition cell_at (df : DataFrame) (l : string) (i : nat) : option cell :=
  match lookup l (columns df) with
  | Some s => nth_error (values s) i
  | None => None
  end.

(** The header line of the output file. *)
Definition FINAL_COLUMNS : list string :=
  ["Department Name"; "Period Start"; "Period End"; "Week Number";
   "Lead Time"; "Cycle Time"; "Blocked Time"; "Time to Market";
   "Analysis Time"].

(** The per-column effect of [convert_time_cols]: a column that is not of
    dtype object is skipped. *)
Definition convert_series (s : Series) : result Series :=
  if negb (dtype_eqb (dtype_of s) Object) then Ok s
  else Jira.convert_column s.

(** The three columns that [split_date_col] derives from the values of
    [Date/Period]. *)
Definition period_columns (vals : list cell) : list (string * Series) :=
  let rows := map (extract_row Jira.date_pattern 3) vals in
  [("Period Start", Jira.group_column rows 0);
   ("Period End", Jira.group_column rows 1);
   ("Week Number", Jira.group_column rows 2)].

(** The values under the label [l], top to bottom. *)
Definition column_values (df : DataFrame) (l : string) : list cell :=
  match getitem df l with
  | Ok s => values s
  | Raise _ => []
  end.

(** The messages passed to [logging.info] during a run of [main], which
    stops at the first file whose transformation raises. *)
Fixpoint diagnostics (files : list (Jira.Path * DataFrame)) : list string :=
  match files with
  | [] => []
  | (filepath, sheet) :: rest =>
      (fst (Jira.transform filepath sheet)
         ++ match snd (Jira.transform filepath sheet) with
            | Ok _ => diagnostics rest
            | Raise _ => []
            end)%list
  end.


End View.

(* ------------------------------------------------------------------ *)
(** ** Duration texts in general

    The texts that the docstring of [convert_time_cols] speaks of: any of
    the units days, hours and minutes, in this order, each followed by any
    amount of white space, and then possibly more text. *)

Module DurationText.

(** A unit that is present prints as its number, its letter and the white
    space [ws] after it; a unit that is absent prints as nothing. *)
Definition unit_text (v : option N) (c : ascii) (ws : string) : string :=
  match v with
  | Some n => (PyStr.str_of_N n ++ String c ws)%string
  | None => EmptyString
  end.

Definition duration_text (d h m : option N) (w1 w2 w3 : string) : string :=
  (unit_text d "d" w1 ++ unit_text h "h" w2 ++ unit_text m "m" w3)%string.

(** Text that begins neither with a digit nor with white space. *)
Definition clean_start (s : string) : bool :=
  match s with
  | EmptyString => true
  | String c _ => negb (PyStr.is_digit c) && negb (PyStr.is_space c)
  end.

Definition N_or_zero (v : option N) : Z :=
  match v with
  | Some n => Z.of_N n
  | None => 0%Z
  end.

(** The total hours of the units that are present, a missing value when
    there is none. *)
Definition expected (d h m : option N) : Pandas.cell :=
  match d, h, m with
  | None, None, None => Pandas.NaN
  | _, _, _ =>
      Pandas.CNum (Scanner.hours_of (N_or_zero d) (N_or_zero h) (N_or_zero m))
  end.

(** A cell that is not text, or whose text does not begin with a digit. *)
Definition no_leading_digit (c : Pandas.cell) : bool :=
  match c with
  | Pandas.CStr (String x _) => negb (PyStr.is_digit x)
  | _ => true
  end.

End DurationText.

(* ------------------------------------------------------------------ *)
(** ** What the stages do to a column *)

Module Columns.
Import Pandas.

(** A column after [convert_time_cols] has processed its label: an object
    column with rows holds the total hours of each of its cells as float64,
    any other column is as it was. *)
Definition converted (s : Series) : Series :=
  if dtype_eqb (dtype_of s) Object
  then match values s with
       | [] => s
       | _ :: _ => mkSeries Float64 (map Scanner.cell_hours (values s))
       end
  else s.

(** A column all of whose cells are tame. *)
Definition tame (s : Series) : bool := forallb Scanner.tame (values s).

(** Whether the loop body of [convert_time_cols] gets past the dtype test
    and [.str] on a column: a column that is not of dtype object is
    skipped, any other column needs [.str]. *)
Definition convertible (s : Series) : bool :=
  negb (dtype_eqb (dtype_of s) Object) || can_str s.

End Columns.

(* ------------------------------------------------------------------ *)
(** ** [os.path] and [os.walk]

    The functions of [os] that the dashboard variant calls, as they are on
    POSIX ([posixpath]): the separator is ["/"], and [os.rename] replaces a
    file that exists under the new name.  A directory tree holds the names
    of its entries in the order in which [os.scandir] lists them; there are
    no symbolic links. *)

Module Os.

(** [s.rfind(c)], [None] standing for -1 *)
Fixpoint rfind (c : ascii) (s : string) : option nat :=
  match s with
  | EmptyString => None
  | String x s' =>
      match rfind c s' with
      | Some i => Some (S i)
      | None => if Ascii.eqb x c then Some 0 else None
      end
  end.

(** [s[:i]] *)
Fixpoint take (i : nat) (s : string) : string :=
  match i, s with
  | S i', String x s' => String x (take i' s')
  | _, _ => EmptyString
  end.

(** [s[i:]] *)
Fixpoint drop (i : nat) (s : string) : string :=
  match i, s with
  | S i', String _ s' => drop i' s'
  | _, _ => s
  end.

(** [s.endswith("/")] *)
Fixpoint ends_with_sep (s : string) : bool :=
  match s with
  | EmptyString => false
  | String x EmptyString => Ascii.eqb x "/"
  | String _ s' => ends_with_sep s'
  end.

(** [os.path.join(a, b)] *)
Definition join (a b : string) : string :=
  if PyStr.startswith "/" b then b
  else if (String.eqb a "" || ends_with_sep a) then (a ++ b)%string
  else (a ++ "/" ++ b)%string.

(** [os.path.basename(p)]: [p[p.rfind("/") + 1:]] *)
Definition basename (p : string) : string :=
  match rfind "/" p with
  | Some i => drop (S i) p
  | None => p
  end.

Definition all_dots (s : string) : bool :=
  Scanner.all_in (fun c => Ascii.eqb c ".") s.

(** [os.path.splitext(p)]: the extension starts at the last dot, provided
    that this dot comes after the last separator and that some character
    between the separator and the dot is not a dot itself. *)
Definition splitext (p : string) : string * string :=
  let filenameIndex :=
    match rfind "/" p with
    | Some sepIndex => S sepIndex
    | None => 0
    end in
  match rfind "." p with
  | Some dotIndex =>
      if filenameIndex <=? dotIndex then
        if all_dots (take (dotIndex - filenameIndex) (drop filenameIndex p))
        then (p, EmptyString)
        else (take dotIndex p, drop dotIndex p)
      else (p, EmptyString)
  | None => (p, EmptyString)
  end.

(** A directory: its files, each with what it holds, and its
    subdirectories. *)
Inductive Dir (A : Type) : Type :=
| mkDir (files : list (string * A)) (subdirs : Forest A)
with Forest (A : Type) : Type :=
| FNil
| FCons (name : string) (d : Dir A) (rest : Forest A).

Arguments mkDir {A} files subdirs.
Arguments FNil {A}.
Arguments FCons {A} name d rest.

Scheme Dir_mut := Induction for Dir Sort Prop
  with Forest_mut := Induction for Forest Sort Prop.

Fixpoint names {A : Type} (f : Forest A) : list string :=
  match f with
  | FNil => []
  | FCons name _ rest => name :: names rest
  end.

(** [os.walk(top)], top-down: the directory itself, then each of its
    subdirectories in turn.  The third component carries, next to each file
    name, what the file holds. *)
Fixpoint walk {A : Type} (top : string) (d : Dir A)
  : list (string * list string * list (string * A)) :=
  match d with
  | mkDir files subdirs =>
      (top, names subdirs, files) :: walk_forest top subdirs
  end
with walk_forest {A : Type} (top : string) (f : Forest A)
  : list (string * list string * list (string * A)) :=
  match f with
  | FNil => []
  | FCons name d rest => (walk (join top name) d ++ walk_forest top rest)%list
  end.

Inductive os_error : Type :=
| IsADirectoryError.

(** [os.rename(src, dst)] for a file [src] and a name [dst] of the same
    directory: nothing happens when the two names are the same; a directory
    under the new name raises; a file under the new name is replaced. *)
Definition rename {A : Type} (files : list (string * A)) (dirs : list string)
           (src dst : string) : list (string * A) + os_error :=
  if String.eqb src dst then inl files
  else if PyStr.mem dst dirs then inr IsADirectoryError
  else inl (map (fun f => if String.eqb (fst f) src then (dst, snd f) else f)
              (filter (fun f => negb (String.eqb (fst f) dst)) files)).

End Os.

(* ------------------------------------------------------------------ *)
(** ** File discovery in [src/jira_exports_dashboard/main_jira.py] *)

Module Discovery.
Import Os.

(** The body of the loop of [rename_excel_files] for one directory. *)
Definition rename_avg {A : Type} (dirpath : string) (files : list (string * A))
           (dirs : list string) : list (string * A) + os_error :=
  if PyStr.mem "AVG.xlsx" (map fst files)
  then rename files dirs "AVG.xlsx" (basename dirpath ++ ".xlsx")%string
  else inl files.

(** [rename_excel_files(dir_to_search)]: the tree after the walk, or the
    exception that ended it.  The walk lists a directory before the loop
    body renames in it, and a rename touches no other directory. *)
Fixpoint rename_excel_files {A : Type} (dir_to_search : string) (d : Dir A)
  : Dir A + os_error :=
  match d with
  | mkDir files subdirs =>
      match rename_avg dir_to_search files (names subdirs) with
      | inr e => inr e
      | inl files' =>
          match rename_forest dir_to_search subdirs with
          | inr e => inr e
          | inl subdirs' => inl (mkDir files' subdirs')
          end
      end
  end
with rename_forest {A : Type} (top : string) (f : Forest A)
  : Forest A + os_error :=
  match f with
  | FNil => inl FNil
  | FCons name d rest =>
      match rename_excel_files (join top name) d with
      | inr e => inr e
      | inl d' =>
          match rename_forest top rest with
          | inr e => inr e
          | inl rest' => inl (FCons name d' rest')
          end
      end
  end.

(** The test of [get_excel_filepaths] on one file of a directory. *)
Definition is_department_file (dirpath file : string) : bool :=
  let (filename_root, ext) := splitext file in
  String.eqb (basename dirpath) filename_root && String.eqb ext ".xlsx".

(** [get_excel_filepaths(dir_to_search)] *)
Definition get_excel_filepaths {A : Type} (dir_to_search : string) (d : Dir A)
  : list string :=
  flat_map
    (fun entry =>
       let '(dirpath, _, files) := entry in
       flat_map
         (fun file =>
            if is_department_file dirpath (fst file)
            then [join dirpath (fst file)] else [])
         files)
    (walk dir_to_search d).

(** [os.path.splitext(os.path.basename(filepath))[0]], the department name
    of the main block. *)
Definition department_name (filepath : string) : string :=
  fst (splitext (basename filepath)).

(** A name that has a character other than the dot. *)
Definition plain_name (s : string) : bool := negb (all_dots s).

(** A directory of the walk in which [os.rename] cannot put the new name:
    it holds [AVG.xlsx], is not itself called [AVG], and one of its
    subdirectories carries the new name. *)
Definition blocked {A : Type}
           (entry : string * list string * list (string * A)) : bool :=
  let '(dirpath, dirs, files) := entry in
  PyStr.mem "AVG.xlsx" (map fst files)
  && negb (String.eqb (basename dirpath) "AVG")
  && PyStr.mem (basename dirpath ++ ".xlsx")%string dirs.

End Discovery.

(* ------------------------------------------------------------------ *)
(** ** [src/jira_exports_dashboard/main_jira.py]

    [split_date_col], [convert_time_cols] and the column handling of
    [preprocess_columns] are the same text as in [src/main_jira.py].  The
    variant differs in how the diagnostics are kept, and its paths are the
    strings that [get_excel_filepaths] builds with [os.path.join]. *)

Module JiraDashboard.
Import Pandas.

Definition missing_column_message := Jira.missing_column_message.

(** The body of [preprocess_columns(df, logs)]: the value of its local
    variable [logs] when it returns or raises, and its outcome.  The loop
    runs over [COLUMNS_TEMPLATE_LOWER]; [filepath] is the global of the
    main block. *)
Definition preprocess_columns_body (df : DataFrame) (logs : string)
           (filepath : string) : string * result DataFrame :=
  match Jira.kept_columns df with
  | Raise e => (logs, Raise e)
  | Ok df =>
      let logs :=
        fold_left
          (fun logs col =>
             if negb (PyStr.mem col (map PyStr.lower (labels df)))
             then (logs ++ missing_column_message col (Os.basename filepath))%string
             else logs)
          Jira.COLUMNS_TEMPLATE_LOWER logs in
      let df := rename df (Jira.col_rename_mapper (labels df)) in
      (logs, reindex df Jira.COLUMNS_TEMPLATE)
  end.

(** The call [preprocess_columns(df, logs)]: only the frame is returned. A
    Python [str] is immutable, so [logs += ...] rebinds the local name and
    the caller's string stays as it was. *)
Definition preprocess_columns (df : DataFrame) (logs : string)
           (filepath : string) : result DataFrame :=
  snd (preprocess_columns_body df logs filepath).

Fixpoint loop (files : list (string * DataFrame)) (logs : string)
  : result (list DataFrame) :=
  match files with
  | [] => Ok []
  | (filepath, sheet) :: rest =>
      df <- preprocess_columns sheet logs filepath;;
      df <- Jira.convert_time_cols df Jira.time_columns;;
      df <- Jira.split_date_col df;;
      df <- insert0 df "Department Name" (Discovery.department_name filepath);;
      dfs <- loop rest logs;;
      Ok (df :: dfs)
  end.

(** The main block: the log file is written by [if logs: ...] after the
    CSV. *)
Definition main (files : list (string * DataFrame))
  : Jira.Outputs * result unit :=
  let logs := "" in
  match dfs <- loop files logs;; concat dfs with
  | Ok final_df =>
      (Jira.mkOutputs (Some final_df)
         (if String.eqb logs "" then None else Some logs), Ok tt)
  | Raise e => (Jira.mkOutputs None None, Raise e)
  end.

End JiraDashboard.

(* ------------------------------------------------------------------ *)
(** ** Period texts in general

    The texts in which the pattern of [split_date_col] finds a period: two
    dates around a dash, each of them one or two digits, three word
    characters and two digits between slashes, and then a week number in
    parentheses, with white space between the parts. *)

Module PeriodText.

Record date : Type := mkDate {
  day : string;
  month : string;
  year : string
}.

Definition date_text (x : date) : string :=
  (day x ++ "/" ++ month x ++ "/" ++ year x)%string.

Definition is_date (x : date) : bool :=
  Scanner.all_in PyStr.is_digit (day x)
  && (1 <=? String.length (day x)) && (String.length (day x) <=? 2)
  && Scanner.all_in PyStr.is_word (month x) && (String.length (month x) =? 3)
  && Scanner.all_in PyStr.is_digit (year x) && (String.length (year x) =? 2).

(** One white-space character or more. *)
Definition is_gap (ws : string) : bool :=
  Scanner.all_in PyStr.is_space ws && (1 <=? String.length ws).

(** One digit or more. *)
Definition is_number (n : string) : bool :=
  Scanner.all_in PyStr.is_digit n && (1 <=? String.length n).

(** The word [week], each letter in either case. *)
Definition is_week (w : string) : bool :=
  match w with
  | String a (String b (String c (String d EmptyString))) =>
      (Ascii.eqb a "W" || Ascii.eqb a "w")
      && (Ascii.eqb b "E" || Ascii.eqb b "e")
      && (Ascii.eqb c "E" || Ascii.eqb c "e")
      && (Ascii.eqb d "K" || Ascii.eqb d "k")
  | _ => false
  end.

(** What stands around the dates and the week number. *)
Record layout : Type := mkLayout {
  before : string;
  gap1 : string;
  gap2 : string;
  gap3 : string;
  word : string;
  gap4 : string;
  after : string
}.

Definition is_layout (l : layout) : bool :=
  is_gap (gap1 l) && is_gap (gap2 l) && is_gap (gap3 l)
  && is_week (word l) && is_gap (gap4 l).

Definition period_text (l : layout) (a b : date) (n : string) : string :=
  (before l ++ date_text a ++ gap1 l ++ "-" ++ gap2 l ++ date_text b
     ++ gap3 l ++ "(" ++ word l ++ gap4 l ++ "#" ++ n ++ ")" ++ after l)%string.

(** Text without any digit. *)
Definition no_digit (s : string) : bool :=
  Scanner.all_in (fun c => negb (PyStr.is_digit c)) s.

End PeriodText.
(* ------------------------------------------------------------------ *)
(** ** Strings *)

Lemma length_append (a b : string) :
  String.length (a ++ b) = String.length a + String.length b.
Proof.
  induction a as [|c a IH]; simpl; [reflexivity | now rewrite IH].
Qed.

Lemma substring_prefix (a b : string) :
  substring 0 (String.length a) (a ++ b) = a.
Proof.
  induction a as [|c a IH]; simpl.
  - now destruct b.
  - now rewrite IH.
Qed.

Lemma consumed_app (a b : string) : Re.consumed (a ++ b) b = a.
Proof.
  unfold Re.consumed. rewrite length_append.
  replace (String.length a + String.length b - String.length b)
    with (String.length a) by lia.
  apply substring_prefix.
Qed.

Lemma append_assoc (a b c : string) : ((a ++ b) ++ c = a ++ (b ++ c))%string.
Proof.
  induction a as [|x a IH]; simpl; [reflexivity | now rewrite IH].
Qed.

Lemma span_app (p : ascii -> bool) (s : string) :
  (fst (Scanner.span p s) ++ snd (Scanner.span p s))%string = s.
Proof.
  induction s as [|c s IH]; simpl; [reflexivity|].
  destruct (p c); [|reflexivity].
  destruct (Scanner.span p s) as [a b]; simpl in *. now rewrite IH.
Qed.

Lemma span_all_in (p : ascii -> bool) (s : string) :
  Scanner.all_in p (fst (Scanner.span p s)) = true.
Proof.
  induction s as [|c s IH]; simpl; [reflexivity|].
  destruct (p c) eqn:E; [|reflexivity].
  destruct (Scanner.span p s) as [a b]; simpl in *. now rewrite E.
Qed.

(** The run of [span] stops at a character outside the class. *)
Lemma span_run (p : ascii -> bool) (a : string) (x : ascii) (rest : string) :
  Scanner.all_in p a = true -> p x = false ->
  Scanner.span p (a ++ String x rest) = (a, String x rest).
Proof.
  intros Ha Hx. induction a as [|c a IH]; simpl in *.
  - now rewrite Hx.
  - apply andb_true_iff in Ha as [Hc Ha]. rewrite Hc, (IH Ha). reflexivity.
Qed.

(* ------------------------------------------------------------------ *)
(** ** The backtracking matcher on greedy runs *)

Section Runs.
Context {R : Type} (p : ascii -> bool).

(** When what follows the run cannot start inside the class, giving
    characters back never helps: the run is the longest one. *)
Lemma rep_bt_longest (K : string -> option R) :
  (forall x t, p x = true -> K (String x t) = None) ->
  forall s lo,
    Re.rep_bt p lo None s K =
    if lo <=? String.length (fst (Scanner.span p s))
    then K (snd (Scanner.span p s)) else None.
Proof.
  intros HK. induction s as [|c s IH]; intros lo; simpl.
  - destruct lo; reflexivity.
  - destruct (p c) eqn:Hc; simpl.
    + rewrite IH. destruct (Scanner.span p s) as [a b]; simpl.
      destruct lo as [|lo]; simpl.
      * destruct (K b); [reflexivity|]. now apply HK.
      * destruct (lo <=? String.length a); [|reflexivity].
        destruct (K b); reflexivity.
    + destruct lo; reflexivity.
Qed.

(** A continuation that always succeeds is entered after the longest
    run. *)
Lemma rep_bt_star (K : string -> option R) :
  (forall t, K t <> None) ->
  forall s, Re.rep_bt p 0 None s K = K (snd (Scanner.span p s)).
Proof.
  intros HK. induction s as [|c s IH]; simpl; [reflexivity|].
  destruct (p c); simpl; [|reflexivity].
  rewrite IH. destruct (Scanner.span p s) as [a b]; simpl.
  destruct (K b) eqn:E; [reflexivity|]. now apply HK in E.
Qed.
End Runs.

Lemma opt_total {R : Type} (r : Re.regex) (s : string) (g : Re.groups)
      (k : string -> Re.groups -> option R) :
  k s g <> None -> Re.bt (Re.Opt r) s g k <> None.
Proof.
  intros H. simpl. destruct (Re.bt r s g k); [discriminate | exact H].
Qed.

(** One unit of the duration pattern followed by a continuation that always
    succeeds. *)
Lemma unit_part_spec {R : Type} (i : nat) (c : ascii) (s : string)
      (g : Re.groups) (k : string -> Re.groups -> option R) :
  PyStr.is_digit c = false ->
  (forall t g', k t g' <> None) ->
  Re.bt (Jira.unit_part i c) s g k =
  k (snd (Scanner.take_unit c s))
    (match fst (Scanner.take_unit c s) with
     | Some ds => (i, ds) :: g
     | None => g
     end).
Proof.
  intros Hc Hk. unfold Jira.unit_part, Scanner.take_unit.
  cbn [Re.seq Re.bt Re.plus Re.star Re.lit].
  rewrite rep_bt_longest.
  2:{ intros x t Hx. destruct (Ascii.eqb_spec c x) as [->|]; [congruence | reflexivity]. }
  pose proof (span_app PyStr.is_digit s) as Happ.
  destruct (Scanner.span PyStr.is_digit s) as [ds rest]; simpl in *.
  destruct ds as [|d ds]; simpl.
  - destruct (k s g) eqn:E; [now destruct rest | now apply Hk in E].
  - destruct rest as [|x rest]; [reflexivity|].
    destruct (Ascii.eqb c x); [|reflexivity].
    rewrite rep_bt_star by (intros t; apply Hk).
    rewrite <- Happ at 1. simpl.
    change (String d (ds ++ String x rest)) with (String d ds ++ String x rest)%string.
    rewrite consumed_app. simpl.
    destruct (k (snd (Scanner.span PyStr.is_space rest)) ((i, String d ds) :: g)) eqn:E;
      [reflexivity | now apply Hk in E].
Qed.

Lemma match_here_duration (s : string) :
  Re.match_here Jira.regex_pattern s =
  Some (let '(d, s1) := Scanner.take_unit "d" s in
        let '(h, s2) := Scanner.take_unit "h" s1 in
        let '(m, _) := Scanner.take_unit "m" s2 in
        ((match m with Some t => [(3, t)] | None => [] end)
           ++ (match h with Some t => [(2, t)] | None => [] end)
           ++ (match d with Some t => [(1, t)] | None => [] end))%list).
Proof.
  unfold Re.match_here, Jira.regex_pattern.
  cbn [Re.seq Re.bt].
  assert (K3 : forall t g', (fun (_ : string) (g : Re.groups) => Some g) t g' <> None)
    by (intros; discriminate).
  assert (K2 : forall t g',
             Re.bt (Jira.unit_part 3 "m") t g' (fun _ g => Some g) <> None)
    by (intros; apply opt_total; discriminate).
  assert (K1 : forall t g',
             Re.bt (Jira.unit_part 2 "h") t g'
               (fun s' g'' => Re.bt (Jira.unit_part 3 "m") s' g'' (fun _ g => Some g))
             <> None)
    by (intros; apply opt_total; apply K2).
  rewrite (unit_part_spec 1 "d") by (reflexivity || exact K1).
  rewrite (unit_part_spec 2 "h") by (reflexivity || exact K2).
  rewrite (unit_part_spec 3 "m") by (reflexivity || exact K3).
  destruct (Scanner.take_unit "d" s) as [[d|] s1]; simpl;
    destruct (Scanner.take_unit "h" s1) as [[h|] s2]; simpl;
    destruct (Scanner.take_unit "m" s2) as [[m|] s3]; reflexivity.
Qed.

(** The pattern matches at the first character of every string, so
    [re.search] never looks further. *)
Lemma extract_dhm_scan (s : string) :
  Jira.extract_dhm (Pandas.CStr s) = Scanner.scan_dhm s.
Proof.
  unfold Jira.extract_dhm, Pandas.extract_row, Scanner.scan_dhm.
  assert (E : Re.search Jira.regex_pattern s = Re.match_here Jira.regex_pattern s).
  { destruct s; simpl; rewrite match_here_duration; reflexivity. }
  rewrite E, match_here_duration.
  destruct (Scanner.take_unit "d" s) as [[d|] s1];
    destruct (Scanner.take_unit "h" _) as [[h|] s2];
    destruct (Scanner.take_unit "m" _) as [[m|] s3]; reflexivity.
Qed.

Lemma extract_dhm_other (c : Pandas.cell) :
  Pandas.is_str c = false ->
  Jira.extract_dhm c = Jira.mkDhm None None None.
Proof. destruct c; simpl; [discriminate | reflexivity | reflexivity]. Qed.

(* ------------------------------------------------------------------ *)
(** ** Decimal text *)

Lemma digit_not_space (c : ascii) :
  PyStr.is_digit c = true -> PyStr.is_space c = false.
Proof.
  unfold PyStr.is_digit, PyStr.is_space. generalize (PyStr.code c). intros n H.
  apply andb_true_iff in H as [H1 H2].
  apply Nat.leb_le in H1, H2.
  repeat match goal with
         | |- context [?a <=? ?b] => destruct (Nat.leb_spec a b)
         | |- context [?a =? ?b] => destruct (Nat.eqb_spec a b)
         end; simpl; try reflexivity; lia.
Qed.

Lemma uint_of_char_digit (c : ascii) (d : Decimal.uint) :
  PyStr.is_digit c = true -> uint_of_char c (Some d) <> None.
Proof.
  destruct c as [[|] [|] [|] [|] [|] [|] [|] [|]];
    intros H; vm_compute in H; try discriminate H; simpl; discriminate.
Qed.

Lemma digits_parse_empty_nil (ds : string) :
  Scanner.all_in PyStr.is_digit ds = true ->
  exists u, NilEmpty.uint_of_string ds = Some u.
Proof.
  induction ds as [|c ds IH]; simpl; intros H.
  - now exists Decimal.Nil.
  - apply andb_true_iff in H as [Hc H]. destruct (IH H) as [u ->].
    destruct (uint_of_char c (Some u)) eqn:E; [eauto|].
    now apply uint_of_char_digit in E.
Qed.

Lemma digits_parse (ds : string) :
  Scanner.all_in PyStr.is_digit ds = true -> ds <> "" ->
  exists u, NilZero.uint_of_string ds = Some u.
Proof.
  intros H N. destruct ds as [|c ds]; [congruence|].
  apply (digits_parse_empty_nil (String c ds) H).
Qed.

Lemma string_of_uint_digits (u : Decimal.uint) :
  Scanner.all_in PyStr.is_digit (NilEmpty.string_of_uint u) = true.
Proof. induction u; simpl; auto. Qed.

Lemma str_of_N_digits (n : N) :
  Scanner.all_in PyStr.is_digit (PyStr.str_of_N n) = true.
Proof.
  unfold PyStr.str_of_N, NilZero.string_of_uint.
  destruct (N.to_uint n); try reflexivity; apply string_of_uint_digits.
Qed.

Lemma to_uint_nonnil (n : N) : N.to_uint n <> Decimal.Nil.
Proof.
  destruct n as [|p]; simpl; [discriminate|].
  apply DecimalPos.Unsigned.to_uint_nonnil.
Qed.

Lemma str_of_N_cons (n : N) :
  exists c t, PyStr.str_of_N n = String c t /\ PyStr.is_digit c = true.
Proof.
  pose proof (str_of_N_digits n) as H.
  pose proof (to_uint_nonnil n) as Hn.
  unfold PyStr.str_of_N, NilZero.string_of_uint in *.
  destruct (N.to_uint n); try congruence; simpl in *;
    eexists; eexists; (split; [reflexivity | reflexivity]).
Qed.

(** [pd.to_numeric] reads back what [str] printed, up to [2^64 - 1]. *)
Lemma to_numeric_str_of_N (n : N) :
  Jira.to_numeric (Some (PyStr.str_of_N n)) =
  if (Z.of_N n <=? Jira.UINT64_MAX)%Z then Ok (Some (Z.of_N n))
  else Raise ValueError.
Proof.
  unfold Jira.to_numeric, PyStr.str_of_N.
  rewrite NilZero.usu by apply to_uint_nonnil.
  now rewrite DecimalN.Unsigned.of_to.
Qed.

(* ------------------------------------------------------------------ *)
(** ** Numbers of at most 14 digits *)

Lemma of_uint_acc_bound (d : Decimal.uint) :
  forall acc : positive,
    (Z.pos (Pos.of_uint_acc d acc)
     < (Z.pos acc + 1) * 10 ^ Z.of_nat (Decimal.nb_digits d))%Z.
Proof.
  induction d as [|d IH|d IH|d IH|d IH|d IH|d IH|d IH|d IH|d IH|d IH];
    intros acc; cbn [Pos.of_uint_acc Decimal.nb_digits];
    [rewrite Z.pow_0_r; lia|..];
    rewrite Nat2Z.inj_succ, Z.pow_succ_r by lia;
    match goal with
    | |- context [Pos.of_uint_acc d ?a] => specialize (IH a)
    end;
    rewrite ?Pos2Z.inj_add, ?Pos2Z.inj_mul in IH;
    pose proof (Z.pow_pos_nonneg 10 (Z.of_nat (Decimal.nb_digits d))
                  ltac:(lia) ltac:(lia));
    nia.
Qed.

Lemma of_uint_bound (d : Decimal.uint) :
  (Z.of_N (N.of_uint d) < 10 ^ Z.of_nat (Decimal.nb_digits d))%Z.
Proof.
  unfold N.of_uint.
  induction d as [|d IH|d IH|d IH|d IH|d IH|d IH|d IH|d IH|d IH|d IH];
    cbn [Pos.of_uint Decimal.nb_digits];
    [simpl; lia|..];
    rewrite Nat2Z.inj_succ, Z.pow_succ_r by lia;
    pose proof (Z.pow_pos_nonneg 10 (Z.of_nat (Decimal.nb_digits d))
                  ltac:(lia) ltac:(lia));
    [lia|..];
    match goal with
    | |- context [Pos.of_uint_acc d ?a] => pose proof (of_uint_acc_bound d a)
    end;
    cbn [Z.of_N]; lia.
Qed.

Lemma uint_of_string_digits (ds : string) :
  forall u, NilEmpty.uint_of_string ds = Some u ->
            Decimal.nb_digits u = String.length ds.
Proof.
  induction ds as [|c ds IH]; intros u; cbn [NilEmpty.uint_of_string].
  - now intros [= <-].
  - destruct (NilEmpty.uint_of_string ds) as [u'|].
    + specialize (IH u' eq_refl).
      destruct c as [[|] [|] [|] [|] [|] [|] [|] [|]]; cbn [uint_of_char];
        try discriminate; intros [= <-];
        cbn [Decimal.nb_digits String.length]; now rewrite IH.
    + destruct c as [[|] [|] [|] [|] [|] [|] [|] [|]]; discriminate.
Qed.

(** A run of at most 14 digits is read as the number it prints. *)
Lemma to_numeric_short (ds : string) :
  Scanner.all_in PyStr.is_digit ds = true ->
  ds <> "" ->
  Scanner.short (Some ds) = true ->
  exists z, Jira.to_numeric (Some ds) = Ok (Some z).
Proof.
  intros Hd Hn Hs. destruct (digits_parse ds Hd Hn) as [u Hu].
  unfold Jira.to_numeric. rewrite Hu. cbv zeta.
  assert (L : Decimal.nb_digits u = String.length ds).
  { apply uint_of_string_digits. destruct ds; [congruence | exact Hu]. }
  pose proof (of_uint_bound u) as B. rewrite L in B.
  cbn [Scanner.short] in Hs. apply Nat.leb_le in Hs.
  assert (P : (10 ^ Z.of_nat (String.length ds) <= 10 ^ 14)%Z)
    by (apply Z.pow_le_mono_r; lia).
  assert (M : (10 ^ 14 <= Jira.UINT64_MAX)%Z) by (vm_compute; discriminate).
  destruct (Z.leb_spec (Z.of_N (N.of_uint u)) Jira.UINT64_MAX); [eauto | lia].
Qed.

(* ------------------------------------------------------------------ *)
(** ** The scanner on captured and on printed text *)

Lemma take_unit_some (c : ascii) (s ds rest : string) :
  Scanner.take_unit c s = (Some ds, rest) ->
  Scanner.all_in PyStr.is_digit ds = true /\ ds <> "".
Proof.
  unfold Scanner.take_unit.
  pose proof (span_all_in PyStr.is_digit s) as H.
  destruct (Scanner.span PyStr.is_digit s) as [[|d a] [|x r]];
    try discriminate.
  destruct (Ascii.eqb c x); [|discriminate].
  intros [= <- _]. split; [exact H | discriminate].
Qed.

Lemma to_numeric_group_short (c : ascii) (s : string) :
  Scanner.short (fst (Scanner.take_unit c s)) = true ->
  exists v, Jira.to_numeric (fst (Scanner.take_unit c s)) = Ok v.
Proof.
  destruct (Scanner.take_unit c s) as [[ds|] rest] eqn:E; cbn [fst].
  - apply take_unit_some in E as [Hd Hn]. intros Hs.
    destruct (to_numeric_short ds Hd Hn Hs) as [z ->]. now exists (Some z).
  - intros _. now exists None.
Qed.

Lemma scan_dhm_fields (s : string) :
  Scanner.scan_dhm s =
  Jira.mkDhm (fst (Scanner.take_unit "d" s))
    (fst (Scanner.take_unit "h" (snd (Scanner.take_unit "d" s))))
    (fst (Scanner.take_unit "m"
            (snd (Scanner.take_unit "h" (snd (Scanner.take_unit "d" s)))))).
Proof.
  unfold Scanner.scan_dhm.
  destruct (Scanner.take_unit "d" s) as [d s1]; simpl.
  destruct (Scanner.take_unit "h" s1) as [h s2]; simpl.
  destruct (Scanner.take_unit "m" s2) as [m s3]; reflexivity.
Qed.

(** A value that [pd.to_numeric] returns is a number exactly when there
    was a group. *)
Lemma to_numeric_notna (v : option string) (n : Jira.num) :
  Jira.to_numeric v = Ok n -> Jira.notna n = Scanner.is_some v.
Proof.
  destruct v as [t|]; cbn [Jira.to_numeric Scanner.is_some].
  - destruct (NilZero.uint_of_string t); [|discriminate]. cbv zeta.
    destruct (Z.leb _ _); [|discriminate]. now intros [= <-].
  - now intros [= <-].
Qed.

Lemma to_numeric_error (v : option string) (e : exn) :
  Jira.to_numeric v = Raise e -> e = ValueError.
Proof.
  destruct v as [t|]; cbn [Jira.to_numeric]; [|discriminate].
  destruct (NilZero.uint_of_string t); [|now intros [= <-]]. cbv zeta.
  destruct (Z.leb _ _); [discriminate | now intros [= <-]].
Qed.

Lemma to_numeric_row_error (r : Jira.dhm (option string)) (e : exn) :
  Jira.to_numeric_row r = Raise e -> e = ValueError.
Proof.
  unfold Jira.to_numeric_row.
  destruct (Jira.to_numeric (Jira.Days r)) eqn:D; cbn [bind];
    [|intros [= <-]; now apply to_numeric_error in D].
  destruct (Jira.to_numeric (Jira.Hours r)) eqn:H; cbn [bind];
    [|intros [= <-]; now apply to_numeric_error in H].
  destruct (Jira.to_numeric (Jira.Minutes r)) eqn:M; cbn [bind];
    [discriminate | intros [= <-]; now apply to_numeric_error in M].
Qed.

(** The three extracted values of a readable cell. *)
Lemma to_numeric_extract (c : Pandas.cell) :
  Scanner.readable c = true ->
  exists d h m,
    Jira.to_numeric (Jira.Days (Jira.extract_dhm c)) = Ok d
    /\ Jira.to_numeric (Jira.Hours (Jira.extract_dhm c)) = Ok h
    /\ Jira.to_numeric (Jira.Minutes (Jira.extract_dhm c)) = Ok m
    /\ Jira.notna d = Scanner.is_some (Jira.Days (Jira.extract_dhm c))
    /\ Jira.notna h = Scanner.is_some (Jira.Hours (Jira.extract_dhm c))
    /\ Jira.notna m = Scanner.is_some (Jira.Minutes (Jira.extract_dhm c)).
Proof.
  unfold Scanner.readable, Jira.to_numeric_row.
  destruct (Jira.to_numeric (Jira.Days (Jira.extract_dhm c))) as [d|] eqn:D;
    cbn [bind]; [|discriminate].
  destruct (Jira.to_numeric (Jira.Hours (Jira.extract_dhm c))) as [h|] eqn:H;
    cbn [bind]; [|discriminate].
  destruct (Jira.to_numeric (Jira.Minutes (Jira.extract_dhm c))) as [m|] eqn:M;
    cbn [bind]; [|discriminate].
  intros _. exists d, h, m.
  repeat split; now apply to_numeric_notna.
Qed.

(** A tame cell is readable: a number of at most 14 digits is far below
    [2^64]. *)
Lemma tame_readable (c : Pandas.cell) :
  Scanner.tame c = true -> Scanner.readable c = true.
Proof.
  destruct c as [s| |]; [|reflexivity..].
  unfold Scanner.tame, Scanner.readable, Jira.to_numeric_row.
  rewrite extract_dhm_scan, scan_dhm_fields.
  cbn [Jira.Days Jira.Hours Jira.Minutes].
  intros H. apply andb_true_iff in H as [H Hm]. apply andb_true_iff in H as [H Hh].
  apply andb_true_iff in H as [_ Hd].
  destruct (to_numeric_group_short _ _ Hd) as [d ->].
  destruct (to_numeric_group_short _ _ Hh) as [h ->].
  destruct (to_numeric_group_short _ _ Hm) as [m ->]. reflexivity.
Qed.

(* ------------------------------------------------------------------ *)
(** ** Arithmetic of the total *)

Lemma ceil_div_60 (m : Z) :
  Qceiling (inject_Z m / inject_Z 60) = ((m + 59) / 60)%Z.
Proof.
  unfold Qceiling, Qfloor, Qdiv, Qinv, Qmult, Qopp, inject_Z; simpl.
  rewrite Z.mul_1_r.
  pose proof (Z.div_mod (m + 59) 60 ltac:(lia)) as D1.
  pose proof (Z.mod_pos_bound (m + 59) 60 ltac:(lia)) as B1.
  pose proof (Z.div_mod (- m) 60 ltac:(lia)) as D2.
  pose proof (Z.mod_pos_bound (- m) 60 ltac:(lia)) as B2.
  lia.
Qed.

(** [(m + 59) / 60] is the least integer that is at least [m / 60]. *)
Lemma ceil_div_60_bounds (m : Z) :
  (60 * ((m + 59) / 60 - 1) < m <= 60 * ((m + 59) / 60))%Z.
Proof.
  pose proof (Z.div_mod (m + 59) 60 ltac:(lia)).
  pose proof (Z.mod_pos_bound (m + 59) 60 ltac:(lia)).
  lia.
Qed.

Lemma total_hours_filled (d h m : Z) :
  Jira.total_hours (Jira.mkDhm (Some d) (Some h) (Some m)) =
  Some (Scanner.hours_of d h m).
Proof.
  unfold Jira.total_hours, Scanner.hours_of; simpl. now rewrite ceil_div_60.
Qed.

(* ------------------------------------------------------------------ *)
(** ** The conversion of a cell and of a column *)

Lemma numeric_row_ok (c : Pandas.cell) :
  Scanner.readable c = true ->
  Jira.to_numeric_row (Jira.extract_dhm c) = Ok (Scanner.numeric_row c).
Proof.
  unfold Scanner.readable, Scanner.numeric_row.
  destruct (Jira.to_numeric_row (Jira.extract_dhm c)); [reflexivity | discriminate].
Qed.

Lemma unreadable_raises (c : Pandas.cell) :
  Scanner.readable c = false ->
  Jira.to_numeric_row (Jira.extract_dhm c) = Raise ValueError.
Proof.
  unfold Scanner.readable.
  destruct (Jira.to_numeric_row (Jira.extract_dhm c)) as [r|e] eqn:E;
    [discriminate|].
  intros _. now rewrite (to_numeric_row_error _ _ E).
Qed.

Lemma convert_cell_hours (c : Pandas.cell) :
  Scanner.readable c = true ->
  Jira.convert_cell c = Ok (Scanner.cell_hours c).
Proof.
  intros H. unfold Jira.convert_cell, Scanner.cell_hours.
  now rewrite numeric_row_ok.
Qed.

(** [df_dhm.apply(pd.to_numeric)] returns exactly when every cell is
    readable, and raises [ValueError] otherwise. *)
Lemma mapM_to_numeric (vals : list Pandas.cell) :
  Jira.mapM Jira.to_numeric_row (map Jira.extract_dhm vals) =
  if forallb Scanner.readable vals then Ok (map Scanner.numeric_row vals)
  else Raise ValueError.
Proof.
  induction vals as [|c vals IH]; [reflexivity|].
  cbn [map Jira.mapM forallb].
  destruct (Scanner.readable c) eqn:R; cbn [andb].
  - rewrite (numeric_row_ok c R), IH. cbn [bind].
    destruct (forallb Scanner.readable vals); reflexivity.
  - now rewrite (unreadable_raises c R).
Qed.

Lemma convert_column_spec (s : Pandas.Series) :
  Jira.convert_column s =
  if Pandas.can_str s
  then if forallb Scanner.readable (Pandas.values s)
       then Ok (Pandas.mkSeries
                  (match Pandas.values s with
                   | [] => Pandas.Object
                   | _ :: _ => Pandas.Float64
                   end)
                  (map Scanner.cell_hours (Pandas.values s)))
       else Raise ValueError
  else Raise AttributeError.
Proof.
  unfold Jira.convert_column, Pandas.str.
  destruct (Pandas.can_str s); [|reflexivity]. cbn [bind].
  rewrite mapM_to_numeric.
  destruct (forallb Scanner.readable (Pandas.values s)); [|reflexivity].
  cbn [bind]. now rewrite !map_map.
Qed.

(** The conversion of an object column that has text and whose cells are
    readable. *)
Lemma convert_column_converted (s : Pandas.Series) :
  Pandas.dtype_of s = Pandas.Object ->
  Pandas.can_str s = true ->
  forallb Scanner.readable (Pandas.values s) = true ->
  Jira.convert_column s = Ok (Columns.converted s).
Proof.
  intros D C R. rewrite convert_column_spec, C, R.
  unfold Columns.converted. rewrite D. cbn [Pandas.dtype_eqb].
  destruct s as [dt vals]. cbn [Pandas.dtype_of Pandas.values] in *. subst dt.
  destruct vals; reflexivity.
Qed.

Lemma tame_series_readable (s : Pandas.Series) :
  Columns.tame s = true -> forallb Scanner.readable (Pandas.values s) = true.
Proof.
  unfold Columns.tame. rewrite !forallb_forall.
  intros H c Hc. apply tame_readable. now apply H.
Qed.

(** The converted cell in terms of the groups that matched. *)
Lemma cell_hours_groups (c : Pandas.cell) :
  Scanner.readable c = true ->
  Scanner.cell_hours c = Scanner.spec_total_hours (Jira.extract_dhm c).
Proof.
  intros R.
  destruct (to_numeric_extract c R) as (d & h & m & Hd & Hh & Hm & Nd & Nh & Nm).
  unfold Scanner.spec_total_hours, Scanner.cell_hours, Scanner.numeric_row,
    Jira.to_numeric_row, Scanner.value_or_zero.
  rewrite Hd, Hh, Hm, <- Nd, <- Nh, <- Nm. cbn [bind].
  unfold Jira.process_nans.
  cbn [Jira.Days Jira.Hours Jira.Minutes].
  destruct d as [d|], h as [h|], m as [m|];
    cbn [Jira.notna Jira.fillna orb Jira.Days Jira.Hours Jira.Minutes];
    rewrite ?total_hours_filled; reflexivity.
Qed.

Lemma take_unit_printed (c : ascii) (n : N) (rest : string) :
  PyStr.is_digit c = false ->
  Scanner.take_unit c (PyStr.str_of_N n ++ String c rest) =
  (Some (PyStr.str_of_N n), snd (Scanner.span PyStr.is_space rest)).
Proof.
  intros Hc. unfold Scanner.take_unit.
  rewrite span_run by (apply str_of_N_digits || exact Hc).
  destruct (str_of_N_cons n) as (d & t & -> & _).
  now rewrite Ascii.eqb_refl.
Qed.

Lemma span_space_printed (n : N) (rest : string) :
  Scanner.span PyStr.is_space (String " " (PyStr.str_of_N n ++ rest)) =
  (" ", (PyStr.str_of_N n ++ rest)%string).
Proof.
  destruct (str_of_N_cons n) as (d & t & -> & Hd).
  simpl. now rewrite (digit_not_space d Hd).
Qed.

Lemma scan_fmt_dhm (D H M : N) :
  Scanner.scan_dhm (Scanner.fmt_dhm D H M) =
  Jira.mkDhm (Some (PyStr.str_of_N D)) (Some (PyStr.str_of_N H))
             (Some (PyStr.str_of_N M)).
Proof.
  unfold Scanner.scan_dhm, Scanner.fmt_dhm.
  change ("d " ++ ?x)%string with (String "d" (String " " x)).
  change ("h " ++ ?x)%string with (String "h" (String " " x)).
  rewrite take_unit_printed by reflexivity.
  rewrite span_space_printed; simpl snd.
  rewrite take_unit_printed by reflexivity.
  rewrite span_space_printed; simpl snd.
  change "m" with (String "m" "").
  rewrite take_unit_printed by reflexivity. reflexivity.
Qed.

Lemma extract_fmt_dhm (D H M : N) :
  Jira.extract_dhm (Pandas.CStr (Scanner.fmt_dhm D H M)) =
  Jira.mkDhm (Some (PyStr.str_of_N D)) (Some (PyStr.str_of_N H))
             (Some (PyStr.str_of_N M)).
Proof. now rewrite extract_dhm_scan, scan_fmt_dhm. Qed.

Lemma cell_hours_fmt_dhm (D H M : N) :
  Scanner.readable (Pandas.CStr (Scanner.fmt_dhm D H M)) = true ->
  Scanner.cell_hours (Pandas.CStr (Scanner.fmt_dhm D H M)) =
  Pandas.CNum (Scanner.hours_of (Z.of_N D) (Z.of_N H) (Z.of_N M)).
Proof.
  unfold Scanner.readable, Scanner.cell_hours, Scanner.numeric_row.
  rewrite extract_fmt_dhm.
  unfold Jira.to_numeric_row; simpl Jira.Days; simpl Jira.Hours; simpl Jira.Minutes.
  rewrite !to_numeric_str_of_N.
  destruct (Z.of_N D <=? Jira.UINT64_MAX)%Z; cbn [bind]; [|discriminate].
  destruct (Z.of_N H <=? Jira.UINT64_MAX)%Z; cbn [bind]; [|discriminate].
  destruct (Z.of_N M <=? Jira.UINT64_MAX)%Z; cbn [bind]; [|discriminate].
  intros _. unfold Jira.process_nans.
  cbn [Jira.Days Jira.Hours Jira.Minutes Jira.notna Jira.fillna orb].
  now rewrite total_hours_filled.
Qed.

(* ------------------------------------------------------------------ *)
(** ** ASCII text *)

Lemma is_ascii_app (a b : string) :
  PyStr.is_ascii (a ++ b) = PyStr.is_ascii a && PyStr.is_ascii b.
Proof.
  induction a as [|c a IH]; cbn [append PyStr.is_ascii]; [reflexivity|].
  now rewrite IH, andb_assoc.
Qed.

Lemma digits_ascii (s : string) :
  Scanner.all_in PyStr.is_digit s = true -> PyStr.is_ascii s = true.
Proof.
  induction s as [|c s IH]; cbn [Scanner.all_in PyStr.is_ascii]; [reflexivity|].
  intros H. apply andb_true_iff in H as [Hc H]. rewrite (IH H), andb_true_r.
  unfold PyStr.is_digit in Hc. apply andb_true_iff in Hc as [_ Hc].
  apply Nat.leb_le in Hc. apply Nat.ltb_lt. lia.
Qed.

(** What it means for the text ["{D}d {H}h {M}m"] to be tame: each of the
    three numbers has at most 14 digits. *)
Lemma tame_fmt_dhm (D H M : N) :
  Scanner.tame (Pandas.CStr (Scanner.fmt_dhm D H M)) =
  (String.length (PyStr.str_of_N D) <=? 14)
  && (String.length (PyStr.str_of_N H) <=? 14)
  && (String.length (PyStr.str_of_N M) <=? 14).
Proof.
  unfold Scanner.tame. rewrite extract_fmt_dhm.
  cbn [Jira.Days Jira.Hours Jira.Minutes Scanner.short].
  assert (A : PyStr.is_ascii (Scanner.fmt_dhm D H M) = true).
  { unfold Scanner.fmt_dhm. rewrite !is_ascii_app.
    rewrite (digits_ascii (PyStr.str_of_N D)), (digits_ascii (PyStr.str_of_N H)),
      (digits_ascii (PyStr.str_of_N M)) by apply str_of_N_digits.
    reflexivity. }
  now rewrite A.
Qed.

(* ------------------------------------------------------------------ *)
(** ** Reading and writing a column *)

Lemma filter_set_column (col : string) (t : Pandas.Series)
      (cols : list (string * Pandas.Series)) :
  filter (fun c => String.eqb col (fst c)) (Pandas.set_column cols col t) =
  match filter (fun c => String.eqb col (fst c)) cols with
  | [] => [(col, t)]
  | (k, _) :: rest => (k, t) :: rest
  end.
Proof.
  induction cols as [|[k v] cols IH]; simpl.
  - now rewrite String.eqb_refl.
  - destruct (String.eqb col k) eqn:E; simpl; rewrite E; [reflexivity|].
    exact IH.
Qed.

Lemma getitem_setitem (df : Pandas.DataFrame) (col : string)
      (s t : Pandas.Series) :
  Pandas.getitem df col = Ok s ->
  Pandas.getitem (Pandas.setitem df col t) col = Ok t.
Proof.
  unfold Pandas.getitem, Pandas.setitem; simpl. rewrite filter_set_column.
  destruct (filter _ (Pandas.columns df)) as [|[k v] [|? ?]]; try discriminate.
  reflexivity.
Qed.

Lemma nth_error_is_str (vals : list Pandas.cell) (i : nat) (t : string) :
  nth_error vals i = Some (Pandas.CStr t) -> existsb Pandas.is_str vals = true.
Proof.
  intros H. apply existsb_exists. exists (Pandas.CStr t). split; [|reflexivity].
  eapply nth_error_In; eassumption.
Qed.

(* ------------------------------------------------------------------ *)
(** ** Column reconciliation *)

Lemma labels_eqb_eq (xs ys : list string) :
  Pandas.labels_eqb xs ys = true <-> xs = ys.
Proof.
  revert ys. induction xs as [|x xs IH]; destruct ys as [|y ys]; simpl;
    try (split; [discriminate | congruence]); [tauto|].
  rewrite andb_true_iff, String.eqb_eq, IH. split.
  - intros [-> ->]. reflexivity.
  - intros [= -> ->]. auto.
Qed.

Lemma reindex_ok (df df' : Pandas.DataFrame) (target : list string) :
  Pandas.reindex df target = Ok df' ->
  Pandas.labels df' = target /\ Pandas.nrows df' = Pandas.nrows df.
Proof.
  unfold Pandas.reindex.
  destruct (Pandas.labels_eqb (Pandas.labels df) target) eqn:E.
  - intros [= <-]. apply labels_eqb_eq in E. auto.
  - destruct (Pandas.has_dup (Pandas.labels df)); [discriminate|].
    intros [= <-]. unfold Pandas.labels; simpl. rewrite map_map; simpl.
    now rewrite map_id.
Qed.

Lemma reindex_unique (df : Pandas.DataFrame) (target : list string) :
  Pandas.has_dup (Pandas.labels df) = false ->
  exists df', Pandas.reindex df target = Ok df'.
Proof.
  intros H. unfold Pandas.reindex. rewrite H.
  destruct (Pandas.labels_eqb (Pandas.labels df) target); eauto.
Qed.

Lemma reindex_duplicate (df : Pandas.DataFrame) (target : list string) :
  Pandas.has_dup (Pandas.labels df) = true ->
  Pandas.has_dup target = false ->
  Pandas.reindex df target = Raise ValueError.
Proof.
  intros H T. unfold Pandas.reindex. rewrite H.
  destruct (Pandas.labels_eqb (Pandas.labels df) target) eqn:E; [|reflexivity].
  apply labels_eqb_eq in E. congruence.
Qed.

Lemma mem_map (f : string -> string) (x : string) (xs : list string) :
  PyStr.mem x xs = true -> PyStr.mem (f x) (map f xs) = true.
Proof.
  unfold PyStr.mem. rewrite !existsb_exists.
  intros (y & Hy & E). apply String.eqb_eq in E. subst y.
  exists (f x). split; [now apply in_map | apply String.eqb_refl].
Qed.

(** Renaming can only merge labels, never separate them. *)
Lemma has_dup_map (f : string -> string) (xs : list string) :
  Pandas.has_dup xs = true -> Pandas.has_dup (map f xs) = true.
Proof.
  induction xs as [|x xs IH]; simpl; [discriminate|].
  rewrite !orb_true_iff. intros [H|H]; [left; now apply mem_map | right; auto].
Qed.

Lemma labels_rename (df : Pandas.DataFrame) (mapper : list (string * string)) :
  Pandas.labels (Pandas.rename df mapper) =
  map (fun l => match Pandas.assoc l mapper with
                | Some l' => l'
                | None => l
                end) (Pandas.labels df).
Proof.
  unfold Pandas.labels, Pandas.rename; simpl. now rewrite !map_map.
Qed.

Lemma first_same_lower_some (c1 c2 : string) (template : list string) :
  Jira.first_same_lower c1 template = Some c2 ->
  PyStr.lower c1 = PyStr.lower c2.
Proof.
  induction template as [|t template IH]; simpl; [discriminate|].
  destruct (String.eqb_spec (PyStr.lower c1) (PyStr.lower t)) as [E|_].
  - now intros [= <-].
  - exact IH.
Qed.

Lemma select_map {A : Type} (f : A -> bool) (xs : list A) :
  Pandas.select xs (map f xs) = filter f xs.
Proof.
  induction xs as [|x xs IH]; simpl; [reflexivity|].
  destruct (f x); now rewrite IH.
Qed.

Lemma map_fst_combine {A B C : Type} (f : A -> B) (xs : list A) (ys : list C) :
  List.length xs = List.length ys ->
  map fst (combine (map f xs) ys) = map f xs.
Proof.
  revert ys. induction xs as [|x xs IH]; destruct ys; simpl; try discriminate;
    [reflexivity|].
  intros [= H]. now rewrite IH.
Qed.

Lemma map_fst_filter {A B : Type} (P : A -> bool) (cols : list (A * B)) :
  map fst (filter (fun c => P (fst c)) cols) = filter P (map fst cols).
Proof.
  induction cols as [|x l IH]; simpl; [reflexivity|].
  destruct (P (fst x)); simpl; now rewrite IH.
Qed.

(** The labels that survive the mask: the stripped labels whose lower-cased
    text is in the template. *)
Lemma labels_kept_columns (df : Pandas.DataFrame) :
  Pandas.labels (Jira.masked_columns df) =
  filter (fun c => PyStr.mem (PyStr.lower c) Jira.COLUMNS_TEMPLATE_LOWER)
         (map PyStr.strip_glyph (Pandas.labels df)).
Proof.
  unfold Jira.masked_columns, Pandas.loc_columns, Pandas.set_labels, Pandas.labels.
  cbn [Pandas.nrows Pandas.columns].
  set (cols := combine _ _).
  rewrite (map_map fst), select_map.
  rewrite (map_fst_filter
             (fun c => PyStr.mem (PyStr.lower c) Jira.COLUMNS_TEMPLATE_LOWER)).
  subst cols. rewrite map_fst_combine by now rewrite !length_map.
  reflexivity.
Qed.

Lemma nrows_kept_columns (df : Pandas.DataFrame) :
  Pandas.nrows (Jira.masked_columns df) = Pandas.nrows df.
Proof. reflexivity. Qed.

Lemma kept_label_in_template (df : Pandas.DataFrame) (x : string) :
  In x (Pandas.labels (Jira.masked_columns df)) ->
  PyStr.mem (PyStr.lower x) Jira.COLUMNS_TEMPLATE_LOWER = true.
Proof.
  rewrite labels_kept_columns, filter_In. tauto.
Qed.

(** One turn of the renaming loop, seen from the label [x]. *)
Lemma assoc_rename_step (x c1 : string) (m : list (string * string)) :
  Pandas.assoc x
    (if PyStr.mem c1 Jira.COLUMNS_TEMPLATE then m
     else match Jira.first_same_lower c1 Jira.COLUMNS_TEMPLATE with
          | Some c2 => Pandas.dict_set m c1 c2
          | None => m
          end) =
  if String.eqb x c1 && negb (PyStr.mem x Jira.COLUMNS_TEMPLATE)
  then match Jira.first_same_lower x Jira.COLUMNS_TEMPLATE with
       | Some c2 => Some c2
       | None => Pandas.assoc x m
       end
  else Pandas.assoc x m.
Proof.
  destruct (String.eqb_spec x c1) as [->|Hne]; cbn [andb].
  - destruct (PyStr.mem c1 Jira.COLUMNS_TEMPLATE); cbn [negb]; [reflexivity|].
    destruct (Jira.first_same_lower c1 Jira.COLUMNS_TEMPLATE); [|reflexivity].
    unfold Pandas.dict_set; cbn [Pandas.assoc]. now rewrite String.eqb_refl.
  - destruct (PyStr.mem c1 Jira.COLUMNS_TEMPLATE); [reflexivity|].
    destruct (Jira.first_same_lower c1 Jira.COLUMNS_TEMPLATE); [|reflexivity].
    unfold Pandas.dict_set; cbn [Pandas.assoc].
    destruct (String.eqb_spec x c1); [contradiction | reflexivity].
Qed.

(** What the dictionary built by the renaming loop holds for a label. *)
Lemma assoc_rename_mapper (x : string) (cols : list string)
      (m : list (string * string)) :
  Pandas.assoc x
    (fold_left
       (fun mapper c1 =>
          if PyStr.mem c1 Jira.COLUMNS_TEMPLATE then mapper
          else match Jira.first_same_lower c1 Jira.COLUMNS_TEMPLATE with
               | Some c2 => Pandas.dict_set mapper c1 c2
               | None => mapper
               end) cols m) =
  if PyStr.mem x cols && negb (PyStr.mem x Jira.COLUMNS_TEMPLATE)
  then match Jira.first_same_lower x Jira.COLUMNS_TEMPLATE with
       | Some c2 => Some c2
       | None => Pandas.assoc x m
       end
  else Pandas.assoc x m.
Proof.
  revert m. induction cols as [|c1 cols IH]; intros m; cbn [fold_left].
  - reflexivity.
  - rewrite IH, assoc_rename_step. cbn [PyStr.mem existsb].
    fold (PyStr.mem x cols).
    destruct (String.eqb x c1), (PyStr.mem x cols),
      (negb (PyStr.mem x Jira.COLUMNS_TEMPLATE)),
      (Jira.first_same_lower x Jira.COLUMNS_TEMPLATE); reflexivity.
Qed.

Lemma first_same_lower_kept (x : string) (template : list string) :
  PyStr.mem (PyStr.lower x) (map PyStr.lower template) = true ->
  exists c2, Jira.first_same_lower x template = Some c2.
Proof.
  induction template as [|t template IH]; simpl; [discriminate|].
  destruct (String.eqb (PyStr.lower x) (PyStr.lower t)); simpl; eauto.
Qed.

Lemma canonical_template (x : string) :
  PyStr.mem x Jira.COLUMNS_TEMPLATE = true -> View.canonical x = x.
Proof.
  unfold PyStr.mem. rewrite existsb_exists. intros (y & Hy & E).
  apply String.eqb_eq in E. subst y.
  repeat (destruct Hy as [<-|Hy]; [reflexivity|]). destruct Hy.
Qed.

(** After [rename], every kept column carries its canonical label. *)
Lemma labels_renamed (df : Pandas.DataFrame) :
  Pandas.labels
    (Pandas.rename (Jira.masked_columns df)
       (Jira.col_rename_mapper (Pandas.labels (Jira.masked_columns df)))) =
  map View.canonical (Pandas.labels (Jira.masked_columns df)).
Proof.
  rewrite labels_rename. apply map_ext_in. intros x Hx.
  unfold Jira.col_rename_mapper. rewrite assoc_rename_mapper.
  assert (Hm : PyStr.mem x (Pandas.labels (Jira.masked_columns df)) = true).
  { unfold PyStr.mem. apply existsb_exists. exists x.
    split; [exact Hx | apply String.eqb_refl]. }
  rewrite Hm. cbn [andb Pandas.assoc].
  destruct (PyStr.mem x Jira.COLUMNS_TEMPLATE) eqn:Ht; cbn [negb].
  - now rewrite canonical_template.
  - unfold View.canonical.
    destruct (first_same_lower_kept x Jira.COLUMNS_TEMPLATE
                (kept_label_in_template df x Hx)) as [c2 ->]. reflexivity.
Qed.

Lemma lower_canonical (x : string) :
  PyStr.lower (View.canonical x) = PyStr.lower x.
Proof.
  unfold View.canonical.
  destruct (Jira.first_same_lower x Jira.COLUMNS_TEMPLATE) eqn:E;
    [|reflexivity].
  symmetry. eapply first_same_lower_some. eassumption.
Qed.

Lemma first_same_lower_ext (x y : string) (template : list string) :
  PyStr.lower x = PyStr.lower y ->
  Jira.first_same_lower x template = Jira.first_same_lower y template.
Proof.
  intros E. induction template as [|t template IH]; simpl; [reflexivity|].
  now rewrite E, IH.
Qed.

(** Two kept labels are renamed to the same label exactly when their
    lower-cased texts agree. *)
Lemma has_dup_renamed (df : Pandas.DataFrame) :
  Pandas.has_dup (map View.canonical (Pandas.labels (Jira.masked_columns df))) =
  Pandas.has_dup (View.kept_lower df).
Proof.
  unfold View.kept_lower.
  set (xs := Pandas.labels (Jira.masked_columns df)).
  assert (K : forall x, In x xs ->
                        exists c2, Jira.first_same_lower x Jira.COLUMNS_TEMPLATE = Some c2).
  { intros x Hx. apply first_same_lower_kept.
    now apply (kept_label_in_template df). }
  clearbody xs.
  destruct (Pandas.has_dup (map PyStr.lower xs)) eqn:E.
  - (* the canonical label is a function of the lower-cased text *)
    induction xs as [|x xs IH]; [discriminate|].
    simpl in E |- *. apply orb_true_iff in E as [E|E]; apply orb_true_iff.
    + left. unfold PyStr.mem in *. apply existsb_exists in E as (l & Hl & El).
      apply String.eqb_eq in El. apply in_map_iff in Hl as (y & <- & Hy).
      apply existsb_exists. exists (View.canonical y).
      split; [now apply in_map|]. apply String.eqb_eq.
      unfold View.canonical.
      destruct (K y (or_intror Hy)) as [c2 Hc2].
      rewrite (first_same_lower_ext x y _ El), Hc2. reflexivity.
    + right. apply IH; [|exact E]. intros y Hy. apply K. now right.
  - destruct (Pandas.has_dup (map View.canonical xs)) eqn:F; [|reflexivity].
    apply (has_dup_map PyStr.lower) in F.
    rewrite map_map in F.
    rewrite (map_ext _ PyStr.lower lower_canonical) in F. congruence.
Qed.

(** A frame whose labels are the template, column by column. *)
Ltac template_shape df H :=
  let n := fresh "n" in
  let cols := fresh "cols" in
  destruct df as [n cols];
  unfold Pandas.labels in H; cbn [Pandas.columns] in H;
  destruct cols as [|[?l date] cols]; [discriminate H|];
  destruct cols as [|[?l lead] cols]; [discriminate H|];
  destruct cols as [|[?l cycle] cols]; [discriminate H|];
  destruct cols as [|[?l blocked] cols]; [discriminate H|];
  destruct cols as [|[?l market] cols]; [discriminate H|];
  destruct cols as [|[?l analysis] cols]; [discriminate H|];
  (destruct cols; [|discriminate H]);
  cbn [map fst] in H; unfold Jira.COLUMNS_TEMPLATE in H;
  injection H as -> -> -> -> -> ->.

(** A sheet without columns: [df.columns.str] raises before anything is
    logged. *)
Lemma preprocess_columns_empty (df : Pandas.DataFrame) (p : Jira.Path) :
  Pandas.columns df = [] ->
  Jira.preprocess_columns df p = ([], Raise AttributeError).
Proof.
  intros H. unfold Jira.preprocess_columns, Jira.kept_columns, Jira.columns_str,
    Pandas.labels. now rewrite H.
Qed.

Lemma preprocess_columns_nonempty (df : Pandas.DataFrame) (p : Jira.Path) :
  Pandas.columns df <> [] ->
  Jira.preprocess_columns df p =
  (Jira.missing_column_logs (Jira.masked_columns df) p,
   Pandas.reindex
     (Pandas.rename (Jira.masked_columns df)
        (Jira.col_rename_mapper (Pandas.labels (Jira.masked_columns df))))
     Jira.COLUMNS_TEMPLATE).
Proof.
  intros H. unfold Jira.preprocess_columns, Jira.kept_columns, Jira.columns_str,
    Pandas.labels.
  destruct (Pandas.columns df); [congruence | reflexivity].
Qed.

Lemma preprocess_columns_outcome (df : Pandas.DataFrame) (p : Jira.Path) :
  Pandas.columns df <> [] ->
  snd (Jira.preprocess_columns df p) =
  Pandas.reindex
    (Pandas.rename (Jira.masked_columns df)
       (Jira.col_rename_mapper (Pandas.labels (Jira.masked_columns df))))
    Jira.COLUMNS_TEMPLATE.
Proof. intros H. now rewrite preprocess_columns_nonempty. Qed.

(** [preprocess_columns] returns only on a sheet that has columns. *)
Lemma preprocess_columns_returns (df df' : Pandas.DataFrame) (p : Jira.Path) :
  snd (Jira.preprocess_columns df p) = Ok df' -> Pandas.columns df <> [].
Proof.
  intros H E. rewrite (preprocess_columns_empty df p E) in H. discriminate.
Qed.

(** Whatever [preprocess_columns] returns has the template as its labels and
    the rows of its input. *)
Lemma preprocess_columns_ok (df df' : Pandas.DataFrame) (p : Jira.Path) :
  snd (Jira.preprocess_columns df p) = Ok df' ->
  Pandas.labels df' = Jira.COLUMNS_TEMPLATE
  /\ Pandas.nrows df' = Pandas.nrows df.
Proof.
  intros H. pose proof (preprocess_columns_returns _ _ _ H) as N.
  rewrite (preprocess_columns_outcome df p N) in H.
  apply reindex_ok in H as [H1 H2]. split; [exact H1|].
  rewrite H2. reflexivity.
Qed.

(** Two kept columns with the same lower-cased label make [reindex] raise. *)
Lemma preprocess_columns_duplicate_labels (df : Pandas.DataFrame)
      (p : Jira.Path) :
  Pandas.has_dup (View.kept_lower df) = true ->
  snd (Jira.preprocess_columns df p) = Raise ValueError.
Proof.
  intros H. rewrite preprocess_columns_outcome.
  - apply reindex_duplicate; [|reflexivity].
    now rewrite labels_renamed, has_dup_renamed.
  - intros E. unfold View.kept_lower, Jira.masked_columns, Pandas.loc_columns,
      Pandas.set_labels, Pandas.labels in H.
    cbn [Pandas.columns] in H. rewrite E in H. discriminate H.
Qed.

(* ------------------------------------------------------------------ *)
(** ** The two later stages on a reconciled table *)

Lemma time_columns_eq :
  Jira.time_columns =
  ["Lead Time"; "Cycle Time"; "Blocked Time"; "Time to Market"; "Analysis Time"].
Proof. reflexivity. Qed.

Lemma convert_series_error (s : Pandas.Series) (e : exn) :
  View.convert_series s = Raise e -> e = AttributeError \/ e = ValueError.
Proof.
  unfold View.convert_series. rewrite convert_column_spec.
  destruct (negb _); [discriminate|].
  destruct (Pandas.can_str s); [|intros [= <-]; now left].
  destruct (forallb _ _); [discriminate | intros [= <-]; now right].
Qed.

(** One turn of the loop of [convert_time_cols], in terms of the effect on
    the column. *)
Lemma convert_time_cols_step (df : Pandas.DataFrame) (col : string)
      (rest : list string) (s : Pandas.Series) :
  Pandas.getitem df col = Ok s ->
  Jira.convert_time_cols df (col :: rest) =
  (t <- View.convert_series s;;
   Jira.convert_time_cols
     (if negb (Pandas.dtype_eqb (Pandas.dtype_of s) Pandas.Object) then df
      else Pandas.setitem df col t) rest).
Proof.
  intros H. cbn [Jira.convert_time_cols]. rewrite H. cbn [bind].
  unfold View.convert_series.
  destruct (negb (Pandas.dtype_eqb (Pandas.dtype_of s) Pandas.Object));
    reflexivity.
Qed.

(** Writing back a column that was skipped changes nothing. *)
Lemma set_column_same (cols : list (string * Pandas.Series)) (col : string)
      (s : Pandas.Series) :
  filter (fun c => String.eqb col (fst c)) cols = [(col, s)] ->
  Pandas.set_column cols col s = cols.
Proof.
  induction cols as [|[k v] cols IH]; simpl; [discriminate|].
  destruct (String.eqb_spec col k) as [->|Hne].
  - intros H. injection H as -> _. reflexivity.
  - intros H. now rewrite IH.
Qed.

Section Shapes.
Variable n : nat.
Variables s1 s2 s3 s4 s5 : Pandas.Series.

(** [convert_time_cols] on the five time columns, whatever stands in
    front of them, as long as it carries no time label. *)
Lemma convert_time_cols_five (pre : list (string * Pandas.Series)) :
  forallb (fun c => negb (PyStr.mem (fst c) Jira.time_columns)) pre = true ->
  Jira.convert_time_cols
    (Pandas.mkFrame n
       (pre ++ [("Lead Time", s1); ("Cycle Time", s2); ("Blocked Time", s3);
                ("Time to Market", s4); ("Analysis Time", s5)]))
    Jira.time_columns =
  (t1 <- View.convert_series s1;;
   t2 <- View.convert_series s2;;
   t3 <- View.convert_series s3;;
   t4 <- View.convert_series s4;;
   t5 <- View.convert_series s5;;
   Ok (Pandas.mkFrame n
         (pre ++ [("Lead Time", t1); ("Cycle Time", t2); ("Blocked Time", t3);
                  ("Time to Market", t4); ("Analysis Time", t5)]))).
Proof.
  intros Hpre. rewrite time_columns_eq.
  assert (G : forall col a b c d e,
             PyStr.mem col Jira.time_columns = true ->
             Pandas.getitem
               (Pandas.mkFrame n
                  (pre ++ [("Lead Time", a); ("Cycle Time", b); ("Blocked Time", c);
                           ("Time to Market", d); ("Analysis Time", e)])) col =
             Pandas.getitem
               (Pandas.mkFrame n
                  [("Lead Time", a); ("Cycle Time", b); ("Blocked Time", c);
                   ("Time to Market", d); ("Analysis Time", e)]) col).
  { intros col a b c d e Hcol. unfold Pandas.getitem. cbn [Pandas.columns].
    rewrite filter_app.
    replace (filter (fun c0 => String.eqb col (fst c0)) pre) with
      (@nil (string * Pandas.Series)); [reflexivity|].
    symmetry. clear - Hpre Hcol. induction pre as [|[k v] l IH]; [reflexivity|].
    cbn [forallb filter fst] in Hpre |- *.
    apply andb_true_iff in Hpre as [Hk Hl].
    destruct (String.eqb_spec col k) as [->|]; [|now apply IH].
    rewrite Hcol in Hk. discriminate. }
  assert (S : forall col t a b c d e,
             PyStr.mem col Jira.time_columns = true ->
             Pandas.setitem
               (Pandas.mkFrame n
                  (pre ++ [("Lead Time", a); ("Cycle Time", b); ("Blocked Time", c);
                           ("Time to Market", d); ("Analysis Time", e)])) col t =
             Pandas.mkFrame n
               (pre ++ Pandas.set_column
                      [("Lead Time", a); ("Cycle Time", b); ("Blocked Time", c);
                       ("Time to Market", d); ("Analysis Time", e)] col t)).
  { intros col t a b c d e Hcol. unfold Pandas.setitem. cbn [Pandas.columns Pandas.nrows].
    f_equal. clear - Hpre Hcol. induction pre as [|[k v] l IH]; [reflexivity|].
    cbn [forallb fst] in Hpre. rewrite <- app_comm_cons.
    cbn [Pandas.set_column]. apply andb_true_iff in Hpre as [Hk Hl].
    destruct (String.eqb_spec col k) as [->|]; [|now rewrite IH].
    rewrite Hcol in Hk. discriminate. }
  rewrite (convert_time_cols_step _ "Lead Time" _ s1)
    by (rewrite G; reflexivity).
  destruct (View.convert_series s1) as [t1|e] eqn:E1; [cbn [bind]|reflexivity].
  assert (F1 : (if negb (Pandas.dtype_eqb (Pandas.dtype_of s1) Pandas.Object)
                then Pandas.mkFrame n
                       (pre ++ [("Lead Time", s1); ("Cycle Time", s2); ("Blocked Time", s3);
                                ("Time to Market", s4); ("Analysis Time", s5)])
                else Pandas.setitem
                       (Pandas.mkFrame n
                          (pre ++ [("Lead Time", s1); ("Cycle Time", s2); ("Blocked Time", s3);
                                   ("Time to Market", s4); ("Analysis Time", s5)]))
                       "Lead Time" t1) =
               Pandas.mkFrame n
                 (pre ++ [("Lead Time", t1); ("Cycle Time", s2); ("Blocked Time", s3);
                          ("Time to Market", s4); ("Analysis Time", s5)])).
  { unfold View.convert_series in E1.
    destruct (negb _); [injection E1 as <-; reflexivity|].
    rewrite S by reflexivity. reflexivity. }
  rewrite F1. clear F1.
  rewrite (convert_time_cols_step _ "Cycle Time" _ s2)
    by (rewrite G; reflexivity).
  destruct (View.convert_series s2) as [t2|e] eqn:E2; [cbn [bind]|reflexivity].
  match goal with
  | |- Jira.convert_time_cols ?f _ = _ =>
      replace f with
      (Pandas.mkFrame n
         (pre ++ [("Lead Time", t1); ("Cycle Time", t2); ("Blocked Time", s3);
                  ("Time to Market", s4); ("Analysis Time", s5)]))
  end.
  2:{ unfold View.convert_series in E2.
      destruct (negb _); [injection E2 as <-; reflexivity|].
      rewrite S by reflexivity. reflexivity. }
  rewrite (convert_time_cols_step _ "Blocked Time" _ s3)
    by (rewrite G; reflexivity).
  destruct (View.convert_series s3) as [t3|e] eqn:E3; [cbn [bind]|reflexivity].
  match goal with
  | |- Jira.convert_time_cols ?f _ = _ =>
      replace f with
      (Pandas.mkFrame n
         (pre ++ [("Lead Time", t1); ("Cycle Time", t2); ("Blocked Time", t3);
                  ("Time to Market", s4); ("Analysis Time", s5)]))
  end.
  2:{ unfold View.convert_series in E3.
      destruct (negb _); [injection E3 as <-; reflexivity|].
      rewrite S by reflexivity. reflexivity. }
  rewrite (convert_time_cols_step _ "Time to Market" _ s4)
    by (rewrite G; reflexivity).
  destruct (View.convert_series s4) as [t4|e] eqn:E4; [cbn [bind]|reflexivity].
  match goal with
  | |- Jira.convert_time_cols ?f _ = _ =>
      replace f with
      (Pandas.mkFrame n
         (pre ++ [("Lead Time", t1); ("Cycle Time", t2); ("Blocked Time", t3);
                  ("Time to Market", t4); ("Analysis Time", s5)]))
  end.
  2:{ unfold View.convert_series in E4.
      destruct (negb _); [injection E4 as <-; reflexivity|].
      rewrite S by reflexivity. reflexivity. }
  rewrite (convert_time_cols_step _ "Analysis Time" _ s5)
    by (rewrite G; reflexivity).
  destruct (View.convert_series s5) as [t5|e] eqn:E5; [cbn [bind]|reflexivity].
  match goal with
  | |- Jira.convert_time_cols ?f _ = _ =>
      replace f with
      (Pandas.mkFrame n
         (pre ++ [("Lead Time", t1); ("Cycle Time", t2); ("Blocked Time", t3);
                  ("Time to Market", t4); ("Analysis Time", t5)]))
  end.
  2:{ unfold View.convert_series in E5.
      destruct (negb _); [injection E5 as <-; reflexivity|].
      rewrite S by reflexivity. reflexivity. }
  reflexivity.
Qed.
End Shapes.

Lemma getitem_mem (df : Pandas.DataFrame) (col : string) (s : Pandas.Series) :
  Pandas.getitem df col = Ok s -> PyStr.mem col (Pandas.labels df) = true.
Proof.
  unfold Pandas.getitem, PyStr.mem, Pandas.labels.
  destruct (filter _ (Pandas.columns df)) as [|c l] eqn:E; [discriminate|].
  intros _. assert (In c (filter (fun c => String.eqb col (fst c)) (Pandas.columns df)))
    as Hin by (rewrite E; now left).
  apply filter_In in Hin as [Hin Hc].
  apply existsb_exists. exists (fst c). split; [now apply in_map | exact Hc].
Qed.

(** [split_date_col] on a frame with one [Date/Period] column [s]: it
    returns exactly when [s.str] is available, with the three derived
    columns in front of what is left of the frame. *)
Lemma split_date_col_spec (df : Pandas.DataFrame) (s : Pandas.Series) :
  Pandas.getitem df "Date/Period" = Ok s ->
  Jira.split_date_col df =
  if Pandas.can_str s
  then Ok (Pandas.mkFrame (Pandas.nrows df)
             (View.period_columns (Pandas.values s)
                ++ filter (fun c => negb (String.eqb "Date/Period" (fst c)))
                     (Pandas.columns df)))
  else Raise AttributeError.
Proof.
  intros H. unfold Jira.split_date_col, Pandas.str, Pandas.drop.
  rewrite H, (getitem_mem _ _ _ H). cbn [bind].
  destruct (Pandas.can_str s); reflexivity.
Qed.

Lemma cell_at_period (n : nat) (vals : list Pandas.cell)
      (rest : list (string * Pandas.Series)) (i : nat) :
  View.cell_at (Pandas.mkFrame n (View.period_columns vals ++ rest)) "Period Start" i
  = option_map (fun c => Pandas.cell_of_group
                           (nth 0 (Pandas.extract_row Jira.date_pattern 3 c) None))
      (nth_error vals i)
  /\ View.cell_at (Pandas.mkFrame n (View.period_columns vals ++ rest)) "Period End" i
     = option_map (fun c => Pandas.cell_of_group
                              (nth 1 (Pandas.extract_row Jira.date_pattern 3 c) None))
         (nth_error vals i)
  /\ View.cell_at (Pandas.mkFrame n (View.period_columns vals ++ rest)) "Week Number" i
     = option_map (fun c => Pandas.cell_of_group
                              (nth 2 (Pandas.extract_row Jira.date_pattern 3 c) None))
         (nth_error vals i).
Proof.
  unfold View.cell_at, View.period_columns, Jira.group_column.
  cbn [Pandas.columns app Pandas.lookup].
  change (String.eqb "Period Start" "Period Start") with true.
  change (String.eqb "Period End" "Period Start") with false.
  change (String.eqb "Period End" "Period End") with true.
  change (String.eqb "Week Number" "Period Start") with false.
  change (String.eqb "Week Number" "Period End") with false.
  change (String.eqb "Week Number" "Week Number") with true.
  cbn [Pandas.values].
  rewrite !map_map, !nth_error_map.
  repeat split; destruct (nth_error vals i); reflexivity.
Qed.


Lemma mem_dropped (col : string) (cols : list (string * Pandas.Series)) :
  PyStr.mem col
    (map fst (filter (fun c => negb (String.eqb col (fst c))) cols)) = false.
Proof.
  induction cols as [|[k v] cols IH]; [reflexivity|].
  cbn [filter fst]. destruct (String.eqb col k) eqn:E; cbn [negb]; [exact IH|].
  cbn [map fst PyStr.mem existsb]. rewrite E. exact IH.
Qed.

(* ------------------------------------------------------------------ *)
(** ** The loop of [main] and the final concatenation *)

Lemma transform_ok (p : Jira.Path) (df t : Pandas.DataFrame) :
  snd (Jira.transform p df) = Ok t ->
  Pandas.labels t = View.FINAL_COLUMNS
  /\ Pandas.nrows t = Pandas.nrows df
  /\ Pandas.lookup "Department Name" (Pandas.columns t)
     = Some (Pandas.mkSeries Pandas.Object
               (repeat (Pandas.CStr (Jira.stem p)) (Pandas.nrows df))).
Proof.
  unfold Jira.transform.
  pose proof (fun df' => preprocess_columns_ok df df' p) as Hpre.
  destruct (Jira.preprocess_columns df p) as [logs r]. cbn [snd] in *.
  destruct r as [df1|e]; cbn [bind]; [|discriminate].
  destruct (Hpre df1 eq_refl) as [Hl Hn]. clear Hpre.
  template_shape df1 Hl. cbn [Pandas.nrows] in Hn. subst n.
  change (Pandas.mkFrame (Pandas.nrows df)
            [("Date/Period", date); ("Lead Time", lead); ("Cycle Time", cycle);
             ("Blocked Time", blocked); ("Time to Market", market);
             ("Analysis Time", analysis)])
    with (Pandas.mkFrame (Pandas.nrows df)
            ([("Date/Period", date)]
               ++ [("Lead Time", lead); ("Cycle Time", cycle);
                   ("Blocked Time", blocked); ("Time to Market", market);
                   ("Analysis Time", analysis)])).
  rewrite convert_time_cols_five by reflexivity.
  destruct (View.convert_series lead); cbn [bind]; [|discriminate].
  destruct (View.convert_series cycle); cbn [bind]; [|discriminate].
  destruct (View.convert_series blocked); cbn [bind]; [|discriminate].
  destruct (View.convert_series market); cbn [bind]; [|discriminate].
  destruct (View.convert_series analysis); cbn [bind]; [|discriminate].
  rewrite (split_date_col_spec _ date) by reflexivity.
  destruct (Pandas.can_str date); cbn [bind]; [|discriminate].
  intros [= <-]. repeat split.
Qed.

Lemma loop_ok (files : list (Jira.Path * Pandas.DataFrame)) (log log' : string)
      (dfs : list Pandas.DataFrame) :
  Jira.loop files log = (log', Ok dfs) ->
  Forall2 (fun f t => snd (Jira.transform (fst f) (snd f)) = Ok t) files dfs.
Proof.
  revert log log' dfs. induction files as [|[p sheet] files IH];
    intros log log' dfs; cbn [Jira.loop].
  - intros [= _ <-]. constructor.
  - destruct (Jira.transform p sheet) as [lines r] eqn:E.
    destruct r as [df|e]; [|discriminate].
    destruct (Jira.loop files _) as [log2 rs] eqn:L.
    destruct rs as [ds|e]; cbn [bind]; [|discriminate].
    intros [= _ <-]. constructor.
    + cbn [fst snd]. now rewrite E.
    + eapply IH. eassumption.
Qed.

Lemma loop_log (files : list (Jira.Path * Pandas.DataFrame)) (log : string) :
  fst (Jira.loop files log) =
  (log ++ String.concat "" (map Jira.log_record (View.diagnostics files)))%string.
Proof.
  assert (R : forall a, (a ++ "")%string = a)
    by (induction a as [|c a IH]; simpl; [reflexivity | now rewrite IH]).
  assert (C : forall xs ys,
             String.concat "" (xs ++ ys)%list
             = (String.concat "" xs ++ String.concat "" ys)%string).
  { induction xs as [|x xs IH]; intros ys; [reflexivity|].
    destruct xs as [|x' xs].
    - destruct ys as [|y ys]; simpl; [now rewrite R | reflexivity].
    - change (String.concat "" ((x :: x' :: xs) ++ ys)%list)
        with (x ++ "" ++ String.concat "" ((x' :: xs) ++ ys)%list)%string.
      rewrite IH. simpl. now rewrite append_assoc. }
  revert log. induction files as [|[p sheet] files IH]; intros log;
    cbn [Jira.loop View.diagnostics].
  - simpl. now rewrite R.
  - destruct (Jira.transform p sheet) as [lines r]. cbn [fst snd].
    rewrite map_app, C.
    destruct r as [df|e].
    + specialize (IH (log ++ String.concat "" (map Jira.log_record lines))%string).
      destruct (Jira.loop files _) as [log2 rs]. cbn [fst] in *.
      rewrite IH. now rewrite append_assoc.
    + cbn [fst map]. simpl String.concat at 2. now rewrite R.
Qed.

Lemma union_labels_final :
  Pandas.union_labels [] View.FINAL_COLUMNS = View.FINAL_COLUMNS
  /\ Pandas.union_labels View.FINAL_COLUMNS View.FINAL_COLUMNS = View.FINAL_COLUMNS.
Proof. split; reflexivity. Qed.

Lemma fold_union_final (ls : list (list string)) :
  Forall (fun l => l = View.FINAL_COLUMNS) ls ->
  fold_left Pandas.union_labels ls View.FINAL_COLUMNS = View.FINAL_COLUMNS.
Proof.
  induction 1 as [|l ls -> _ IH]; [reflexivity|].
  cbn [fold_left]. now rewrite (proj2 union_labels_final).
Qed.

(** Frames that all carry the labels of the output are stacked column by
    column. *)
Lemma concat_final (df : Pandas.DataFrame) (dfs : list Pandas.DataFrame) :
  Forall (fun t => Pandas.labels t = View.FINAL_COLUMNS) (df :: dfs) ->
  Pandas.concat (df :: dfs) =
  Ok (Pandas.mkFrame (list_sum (map Pandas.nrows (df :: dfs)))
        (map (fun l => (l, Pandas.stack l (df :: dfs))) View.FINAL_COLUMNS)).
Proof.
  intros H. unfold Pandas.concat.
  replace (existsb (fun t => Pandas.has_dup (Pandas.labels t)) (df :: dfs))
    with false.
  2:{ symmetry. apply not_true_is_false. intros E.
      apply existsb_exists in E as (t & Ht & D).
      rewrite Forall_forall in H. rewrite (H t Ht) in D. discriminate D. }
  do 2 f_equal.
  assert (L : Forall (fun l => l = View.FINAL_COLUMNS)
                     (map Pandas.labels (df :: dfs))).
  { apply Forall_map. exact H. }
  cbn [map] in L |- *. inversion L as [|? ? E1 L']; subst.
  cbn [fold_left]. rewrite E1, (proj1 union_labels_final).
  now rewrite fold_union_final.
Qed.

Lemma filter_absent (l : string) (cols : list (string * Pandas.Series)) :
  PyStr.mem l (map fst cols) = false ->
  filter (fun c => String.eqb l (fst c)) cols = [].
Proof.
  induction cols as [|[k v] cols IH]; [reflexivity|].
  cbn [map fst PyStr.mem existsb filter]. intros H.
  apply orb_false_iff in H as [-> H]. now apply IH.
Qed.

(** With unique labels, [df[l]] is the column that [lookup] finds. *)
Lemma getitem_lookup (df : Pandas.DataFrame) (l : string) (s : Pandas.Series) :
  Pandas.has_dup (Pandas.labels df) = false ->
  Pandas.lookup l (Pandas.columns df) = Some s ->
  Pandas.getitem df l = Ok s.
Proof.
  unfold Pandas.getitem, Pandas.labels. destruct df as [n cols]. cbn [Pandas.columns].
  induction cols as [|[k v] cols IH]; [discriminate|].
  cbn [map fst Pandas.has_dup Pandas.lookup filter]. intros D.
  apply orb_false_iff in D as [D1 D2].
  destruct (String.eqb_spec l k) as [->|Hne].
  - intros [= ->]. now rewrite (filter_absent _ _ D1).
  - intros H. now apply IH.
Qed.


Lemma lookup_present (l : string) (cols : list (string * Pandas.Series)) :
  In l (map fst cols) -> exists s, Pandas.lookup l cols = Some s.
Proof.
  induction cols as [|[k v] cols IH]; [intros []|].
  cbn [map fst Pandas.lookup]. intros [->|H].
  - rewrite String.eqb_refl. eauto.
  - destruct (String.eqb l k); eauto.
Qed.



(** A successful run of [main]: every file was transformed, there was at
    least one, and the CSV holds the stacked frames. *)
Lemma main_ok (files : list (Jira.Path * Pandas.DataFrame)) (out : Jira.Outputs) :
  Jira.main files = (out, Ok tt) ->
  exists dfs,
    dfs <> []
    /\ Forall2 (fun f t => snd (Jira.transform (fst f) (snd f)) = Ok t) files dfs
    /\ Jira.csv_file out
       = Some (Pandas.mkFrame (list_sum (map Pandas.nrows dfs))
                 (map (fun l => (l, Pandas.stack l dfs)) View.FINAL_COLUMNS)).
Proof.
  unfold Jira.main. destruct (Jira.loop files "") as [log r] eqn:L.
  destruct r as [dfs|e]; cbn [bind]; [|discriminate].
  pose proof (loop_ok _ _ _ _ L) as F.
  destruct dfs as [|df dfs]; [discriminate|].
  rewrite concat_final.
  - intros [= <-]. exists (df :: dfs). repeat split; [discriminate | exact F].
  - clear - F. remember (df :: dfs) as ts. clear Heqts.
    induction F as [|f t files ts Hf _ IH]; constructor; [|exact IH].
    now apply transform_ok in Hf.
Qed.

Lemma transformed_labels (files : list (Jira.Path * Pandas.DataFrame))
      (dfs : list Pandas.DataFrame) :
  Forall2 (fun f t => snd (Jira.transform (fst f) (snd f)) = Ok t) files dfs ->
  Forall (fun t => Pandas.labels t = View.FINAL_COLUMNS) dfs.
Proof.
  induction 1 as [|f t files ts Hf _ IH]; constructor; [|exact IH].
  now apply transform_ok in Hf.
Qed.



Lemma log_records_empty (ds : list string) :
  String.concat "" (map Jira.log_record ds) = "" <-> ds = [].
Proof.
  split; [|intros ->; reflexivity].
  destruct ds as [|d ds]; [reflexivity|].
  cbn [map]. destruct (map Jira.log_record ds); discriminate.
Qed.

(* ------------------------------------------------------------------ *)
(** ** The duration conversion *)

Import Pandas.

(** C1 (as amended). For all non-negative integers D, H and M, the duration
    conversion turns a cell that holds the text ["{D}d {H}h {M}m"] into the
    number D*24 + H + ceil(M/60), where the ceiling [c] of M/60 is the
    integer with 60*(c-1) < M <= 60*c, provided that the cell stands in an
    object column all of whose cells are tame: no text, or ASCII text in
    which every number read has at most 14 digits.  For the cell itself
    this says that D, H and M have at most 14 digits.  The column that
    [convert_time_cols] writes back is float64.  In one column,
    ["10d 5h 3m"] gives 246, ["1m"] gives 1 and ["-"] gives a missing
    value. *)
Theorem convert_time_cols_formatted_duration :
  (forall (D H M : N) (df : DataFrame) (col : string) (s : Series) (i : nat),
      getitem df col = Ok s ->
      dtype_of s = Object ->
      Columns.tame s = true ->
      nth_error (values s) i = Some (CStr (Scanner.fmt_dhm D H M)) ->
      exists (c : Z) (df' : DataFrame) (s' : Series),
        (60 * (c - 1) < Z.of_N M <= 60 * c)%Z
        /\ Jira.convert_time_cols df [col] = Ok df'
        /\ getitem df' col = Ok s'
        /\ dtype_of s' = Float64
        /\ nth_error (values s') i
           = Some (CNum (Z.of_N D * 24 + Z.of_N H + c)))
  /\ Jira.convert_column
       (mkSeries Object [CStr "10d 5h 3m"; CStr "1m"; CStr "-"])
     = Ok (mkSeries Float64 [CNum 246; CNum 1; NaN]).
Proof.
  split; [|vm_compute; reflexivity].
  intros D H M df col s i Hget Hobj Htame Hnth.
  exists ((Z.of_N M + 59) / 60)%Z.
  assert (Hstr : can_str s = true).
  { unfold can_str. rewrite Hobj, (nth_error_is_str _ _ _ Hnth).
    apply orb_true_r. }
  pose proof (tame_series_readable s Htame) as Hread.
  assert (Hcell : Scanner.readable (CStr (Scanner.fmt_dhm D H M)) = true).
  { rewrite forallb_forall in Hread. apply Hread.
    eapply nth_error_In; eassumption. }
  assert (Hrows : exists c0 vals, values s = c0 :: vals)
    by (destruct (values s) as [|c0 vals];
        [now destruct i | now exists c0, vals]).
  destruct Hrows as (c0 & vals & Hvals).
  exists (setitem df col (mkSeries Float64 (map Scanner.cell_hours (values s)))).
  exists (mkSeries Float64 (map Scanner.cell_hours (values s))).
  split; [apply ceil_div_60_bounds|]. split; [|split; [|split]].
  - cbn [Jira.convert_time_cols]. rewrite Hget. cbn [bind]. rewrite Hobj.
    cbn [dtype_eqb negb]. rewrite convert_column_spec, Hstr, Hread, Hvals.
    reflexivity.
  - eapply getitem_setitem; eassumption.
  - reflexivity.
  - cbn [values]. rewrite nth_error_map, Hnth. cbn [option_map].
    now rewrite (cell_hours_fmt_dhm D H M Hcell).
Qed.

Lemma convert_time_cols_formatted_duration_witness :
  exists (c : Z) (df' : DataFrame) (s' : Series),
    (60 * (c - 1) < 61 <= 60 * c)%Z
    /\ Jira.convert_time_cols
         (mkFrame 2 [("Lead Time", mkSeries Object [CStr "2d 0h 61m"; NaN])])
         ["Lead Time"] = Ok df'
    /\ getitem df' "Lead Time" = Ok s'
    /\ dtype_of s' = Float64
    /\ nth_error (values s') 0 = Some (CNum (2 * 24 + 0 + c)).
Proof.
  exact (proj1 convert_time_cols_formatted_duration 2%N 0%N 61%N
           (mkFrame 2 [("Lead Time", mkSeries Object [CStr "2d 0h 61m"; NaN])])
           "Lead Time" (mkSeries Object [CStr "2d 0h 61m"; NaN]) 0
           eq_refl eq_refl eq_refl eq_refl).
Defined.

(** The bound on the digits cannot be dropped: the property fails, for
    some D, H and M, on a number that [pd.to_numeric] does not read.  For
    D = 99999999999999999999, above [2^64 - 1], the text ["{D}d 0h 0m"]
    makes the conversion of its column raise [ValueError: Integer out of
    range] instead of giving D*24. *)
Lemma convert_time_cols_formatted_duration_overflow :
  Scanner.fmt_dhm 99999999999999999999 0 0 = "99999999999999999999d 0h 0m"
  /\ Jira.convert_time_cols
       (mkFrame 1
          [("Lead Time", mkSeries Object [CStr "99999999999999999999d 0h 0m"])])
       ["Lead Time"] = Raise ValueError.
Proof. split; vm_compute; reflexivity. Qed.




(* ------------------------------------------------------------------ *)
(** ** Column reconciliation: the template columns *)

(** C2 (as amended). For every input table that has at least one column,
    whose headers are ASCII once the glyph is removed, and in which no two
    of the columns kept by the mask have the same lower-cased label,
    [preprocess_columns] returns a table whose columns are exactly the six
    template columns in template order, over the rows of the input; this
    covers supersets, subsets, differently-cased variants and column sets
    disjoint from the template. *)
Theorem preprocess_columns_template_columns
        (df : DataFrame) (excel_filepath : Jira.Path) :
  columns df <> [] ->
  Jira.plain_headers df = true ->
  has_dup (View.kept_lower df) = false ->
  exists df',
    snd (Jira.preprocess_columns df excel_filepath) = Ok df'
    /\ labels df' = Jira.COLUMNS_TEMPLATE
    /\ nrows df' = nrows df.
Proof.
  intros N _ H.
  destruct (reindex_unique
              (rename (Jira.masked_columns df)
                 (Jira.col_rename_mapper (labels (Jira.masked_columns df))))
              Jira.COLUMNS_TEMPLATE) as [df' Hdf'].
  { now rewrite labels_renamed, has_dup_renamed. }
  exists df'. rewrite (preprocess_columns_outcome df excel_filepath N).
  split; [exact Hdf'|].
  apply reindex_ok in Hdf' as [H1 H2]. split; [exact H1 | now rewrite H2].
Qed.

Lemma preprocess_columns_template_columns_witness :
  exists df',
    snd (Jira.preprocess_columns
           (mkFrame 1 [("LEAD time", mkSeries Object [CStr "1h"]);
                       ("Assignee", mkSeries Object [CStr "someone"]);
                       ("Date/Period", mkSeries Object [CStr "-"])])
           (Jira.mkPath "Payments" "Payments" ".xlsx")) = Ok df'
    /\ labels df' = Jira.COLUMNS_TEMPLATE
    /\ nrows df' = 1.
Proof.
  apply (preprocess_columns_template_columns
           (mkFrame 1 [("LEAD time", mkSeries Object [CStr "1h"]);
                       ("Assignee", mkSeries Object [CStr "someone"]);
                       ("Date/Period", mkSeries Object [CStr "-"])])
           (Jira.mkPath "Payments" "Payments" ".xlsx")).
  - discriminate.
  - reflexivity.
  - reflexivity.
Defined.

(** A sheet with the six template columns and a seventh, [LEAD TIME], that
    differs from [Lead Time] by case only: both are kept, both are named
    [Lead Time] after the renaming, and [reindex] raises. *)
Lemma preprocess_columns_case_clash :
  ~ exists df',
      snd (Jira.preprocess_columns
             (mkFrame 1 [("Date/Period", mkSeries Object [CStr "-"]);
                         ("Lead Time", mkSeries Object [CStr "1h"]);
                         ("Cycle Time", mkSeries Object [CStr "1h"]);
                         ("Blocked Time", mkSeries Object [CStr "1h"]);
                         ("Time to Market", mkSeries Object [CStr "1h"]);
                         ("Analysis Time", mkSeries Object [CStr "1h"]);
                         ("LEAD TIME", mkSeries Object [CStr "2h"])])
             (Jira.mkPath "Payments" "Payments" ".xlsx")) = Ok df'
      /\ labels df' = Jira.COLUMNS_TEMPLATE.
Proof.
  intros (df' & H & _). vm_compute in H. discriminate H.
Qed.

(** A sheet without any column, as [pd.read_excel] returns it for an empty
    workbook, is not reconciled either: [df.columns.str] raises
    [AttributeError], and nothing is logged. *)
Lemma preprocess_columns_empty_sheet :
  Jira.preprocess_columns (mkFrame 0 []) (Jira.mkPath "Payments" "Payments" ".xlsx")
  = ([], Raise AttributeError).
Proof. reflexivity. Qed.

(** C8. Column reconciliation is idempotent: on a table whose columns are
    already the template columns, in canonical casing and order,
    [preprocess_columns] returns the same table and logs nothing. *)
Theorem preprocess_columns_idempotent
        (df : DataFrame) (excel_filepath : Jira.Path) :
  labels df = Jira.COLUMNS_TEMPLATE ->
  Jira.preprocess_columns df excel_filepath = ([], Ok df).
Proof.
  intros H. template_shape df H. reflexivity.
Qed.

Lemma preprocess_columns_idempotent_witness :
  Jira.preprocess_columns
    (mkFrame 1 [("Date/Period", mkSeries Object [CStr "01/Jan/24 - 07/Jan/24 (Week #1)"]);
                ("Lead Time", mkSeries Object [CStr "1d 2h"]);
                ("Cycle Time", mkSeries Object [CStr "3h"]);
                ("Blocked Time", mkSeries Object [CStr "-"]);
                ("Time to Market", mkSeries Float64 [CNum 4]);
                ("Analysis Time", mkSeries Float64 [NaN])])
    (Jira.mkPath "Payments" "Payments" ".xlsx")
  = ([],
     Ok (mkFrame 1 [("Date/Period", mkSeries Object [CStr "01/Jan/24 - 07/Jan/24 (Week #1)"]);
                    ("Lead Time", mkSeries Object [CStr "1d 2h"]);
                    ("Cycle Time", mkSeries Object [CStr "3h"]);
                    ("Blocked Time", mkSeries Object [CStr "-"]);
                    ("Time to Market", mkSeries Float64 [CNum 4]);
                    ("Analysis Time", mkSeries Float64 [NaN])])).
Proof.
  apply preprocess_columns_idempotent. reflexivity.
Defined.

(* ------------------------------------------------------------------ *)
(** ** Duration conversion and date splitting *)

(** A tame column is converted without [ValueError]. *)
Lemma convert_series_error_tame (s : Series) (e : exn) :
  Columns.tame s = true ->
  View.convert_series s = Raise e -> e = AttributeError.
Proof.
  intros T. unfold View.convert_series.
  rewrite convert_column_spec, (tame_series_readable s T).
  destruct (negb _); [discriminate|].
  destruct (can_str s); [discriminate | now intros [= <-]].
Qed.




(** C10 (failing input). The stages after reconciliation are not total on
    every accepted table: a sheet without a [Date/Period] column passes
    [preprocess_columns], which logs the missing column and fills it with
    [NaN] as float64; [convert_time_cols] returns, and [split_date_col]
    raises [AttributeError] at [df["Date/Period"].str]. *)
Theorem missing_date_column_raises :
  exists df1,
    snd (Jira.preprocess_columns
           (mkFrame 1 [("Lead Time", mkSeries Object [CStr "1d 2h"])])
           (Jira.mkPath "Payments" "Payments" ".xlsx")) = Ok df1
    /\ In (Jira.missing_column_message "Date/Period" "Payments.xlsx")
          (fst (Jira.preprocess_columns
                  (mkFrame 1 [("Lead Time", mkSeries Object [CStr "1d 2h"])])
                  (Jira.mkPath "Payments" "Payments" ".xlsx")))
    /\ View.column_values df1 "Date/Period" = [NaN]
    /\ (exists df2, Jira.convert_time_cols df1 Jira.time_columns = Ok df2)
    /\ (d <- Jira.convert_time_cols df1 Jira.time_columns;;
        Jira.split_date_col d) = Raise AttributeError.
Proof.
  eexists. split; [vm_compute; reflexivity|].
  split; [left; reflexivity|].
  split; [vm_compute; reflexivity|].
  split; [eexists; vm_compute; reflexivity|].
  vm_compute. reflexivity.
Qed.

(** What does hold on every table that [preprocess_columns] accepts: the
    reconciled table has the [Date/Period] column and the five time
    columns, each exactly once, so that no column access of
    [convert_time_cols] and [split_date_col] raises [KeyError]; the two
    stages return, or raise [AttributeError] from [.str] or [ValueError]
    from [pd.to_numeric].  They return whenever [.str] is available on the
    [Date/Period] column and on every time column of dtype object, and the
    cells of the time columns are tame. *)
Lemma reconciled_table_stages
        (df df1 : DataFrame) (excel_filepath : Jira.Path) :
  snd (Jira.preprocess_columns df excel_filepath) = Ok df1 ->
  (forall col, In col ("Date/Period" :: Jira.time_columns) ->
               exists s, getitem df1 col = Ok s)
  /\ (forall e,
         (d <- Jira.convert_time_cols df1 Jira.time_columns;;
          Jira.split_date_col d) = Raise e ->
         e = AttributeError \/ e = ValueError)
  /\ ((forall col s,
          In col ("Date/Period" :: Jira.time_columns) ->
          getitem df1 col = Ok s ->
          (dtype_of s = Object \/ col = "Date/Period" -> can_str s = true)
          /\ Columns.tame s = true) ->
      exists df2 df3,
        Jira.convert_time_cols df1 Jira.time_columns = Ok df2
        /\ Jira.split_date_col df2 = Ok df3).
Proof.
  intros H. apply preprocess_columns_ok in H as [H _]. template_shape df1 H.
  split; [|split].
  - intros col Hcol. rewrite time_columns_eq in Hcol.
    repeat (destruct Hcol as [<-|Hcol]; [eexists; reflexivity|]).
    destruct Hcol.
  - intros e.
    change (mkFrame n
              [("Date/Period", date); ("Lead Time", lead); ("Cycle Time", cycle);
               ("Blocked Time", blocked); ("Time to Market", market);
               ("Analysis Time", analysis)])
      with (mkFrame n
              ([("Date/Period", date)]
                 ++ [("Lead Time", lead); ("Cycle Time", cycle);
                     ("Blocked Time", blocked); ("Time to Market", market);
                     ("Analysis Time", analysis)])).
    rewrite convert_time_cols_five by reflexivity.
    destruct (View.convert_series lead) eqn:E0; cbn [bind];
      [|intros [= <-]; now apply convert_series_error in E0].
    destruct (View.convert_series cycle) eqn:E1; cbn [bind];
      [|intros [= <-]; now apply convert_series_error in E1].
    destruct (View.convert_series blocked) eqn:E2; cbn [bind];
      [|intros [= <-]; now apply convert_series_error in E2].
    destruct (View.convert_series market) eqn:E3; cbn [bind];
      [|intros [= <-]; now apply convert_series_error in E3].
    destruct (View.convert_series analysis) eqn:E4; cbn [bind];
      [|intros [= <-]; now apply convert_series_error in E4].
    rewrite (split_date_col_spec _ date) by reflexivity.
    destruct (can_str date); [discriminate | intros [= <-]; now left].
  - intros Htext.
    assert (C : forall col s,
               In col Jira.time_columns ->
               getitem
                 (mkFrame n
                    [("Date/Period", date); ("Lead Time", lead); ("Cycle Time", cycle);
                     ("Blocked Time", blocked); ("Time to Market", market);
                     ("Analysis Time", analysis)]) col = Ok s ->
               exists t, View.convert_series s = Ok t).
    { intros col s Hcol Hs. unfold View.convert_series.
      destruct (Htext col s (or_intror Hcol) Hs) as [Hc Ht].
      destruct (dtype_of s) eqn:Hd; cbn [dtype_eqb negb]; [|eauto].
      rewrite convert_column_spec, Hc, (tame_series_readable s Ht); eauto. }
    destruct (C "Lead Time" lead) as [t1 E1];
      [rewrite time_columns_eq; simpl; tauto | reflexivity |].
    destruct (C "Cycle Time" cycle) as [t2 E2];
      [rewrite time_columns_eq; simpl; tauto | reflexivity |].
    destruct (C "Blocked Time" blocked) as [t3 E3];
      [rewrite time_columns_eq; simpl; tauto | reflexivity |].
    destruct (C "Time to Market" market) as [t4 E4];
      [rewrite time_columns_eq; simpl; tauto | reflexivity |].
    destruct (C "Analysis Time" analysis) as [t5 E5];
      [rewrite time_columns_eq; simpl; tauto | reflexivity |].
    change (mkFrame n
              [("Date/Period", date); ("Lead Time", lead); ("Cycle Time", cycle);
               ("Blocked Time", blocked); ("Time to Market", market);
               ("Analysis Time", analysis)])
      with (mkFrame n
              ([("Date/Period", date)]
                 ++ [("Lead Time", lead); ("Cycle Time", cycle);
                     ("Blocked Time", blocked); ("Time to Market", market);
                     ("Analysis Time", analysis)])) at 1.
    rewrite convert_time_cols_five by reflexivity.
    rewrite E1, E2, E3, E4, E5. cbn [bind].
    eexists. eexists. split; [reflexivity|].
    rewrite (split_date_col_spec _ date) by reflexivity.
    destruct (Htext "Date/Period" date (or_introl eq_refl) eq_refl) as [Hc _].
    rewrite Hc; [reflexivity | now right].
Qed.

Lemma reconciled_table_stages_example :
  exists df1 df2 df3,
    snd (Jira.preprocess_columns
           (mkFrame 1 [("lead time", mkSeries Object [CStr "1d 2h"]);
                       ("Date/Period", mkSeries Object [CStr "01/Jan/24 - 07/Jan/24 (Week #1)"])])
           (Jira.mkPath "Payments" "Payments" ".xlsx")) = Ok df1
    /\ Jira.convert_time_cols df1 Jira.time_columns = Ok df2
    /\ Jira.split_date_col df2 = Ok df3.
Proof.
  destruct (snd (Jira.preprocess_columns
           (mkFrame 1 [("lead time", mkSeries Object [CStr "1d 2h"]);
                       ("Date/Period", mkSeries Object [CStr "01/Jan/24 - 07/Jan/24 (Week #1)"])])
           (Jira.mkPath "Payments" "Payments" ".xlsx"))) as [df1|e] eqn:Hrun;
    [|vm_compute in Hrun; discriminate Hrun].
  exists df1.
  pose proof Hrun as Hshape. vm_compute in Hshape. injection Hshape as <-.
  destruct (reconciled_table_stages _ _ _ Hrun) as (_ & _ & Htotal).
  destruct Htotal as (df2 & df3 & H2 & H3).
  - intros col s Hcol Hs. rewrite time_columns_eq in Hcol.
    repeat (destruct Hcol as [<-|Hcol];
            [vm_compute in Hs; injection Hs as <-;
             (split; [|reflexivity]); intros Hd;
             first [reflexivity | destruct Hd as [Hd|Hd]; discriminate Hd]|]).
    destruct Hcol.
  - exists df2, df3. auto.
Defined.




(* ------------------------------------------------------------------ *)
(** ** The run as a whole *)



(** C7. In every successful run the columns of the Final Output Table are
    exactly, in order: Department Name, Period Start, Period End, Week
    Number, Lead Time, Cycle Time, Blocked Time, Time to Market, Analysis
    Time. *)
Theorem main_final_table_columns
        (files : list (Jira.Path * DataFrame)) (out : Jira.Outputs) :
  Jira.main files = (out, Ok tt) ->
  exists final,
    Jira.csv_file out = Some final
    /\ labels final =
       ["Department Name"; "Period Start"; "Period End"; "Week Number";
        "Lead Time"; "Cycle Time"; "Blocked Time"; "Time to Market";
        "Analysis Time"].
Proof.
  intros H. apply main_ok in H as (dfs & _ & _ & Hcsv).
  eexists. split; [exact Hcsv|]. reflexivity.
Qed.

Lemma main_final_table_columns_witness :
  exists final,
    Jira.csv_file
      (fst (Jira.main
              [(Jira.mkPath "Cards" "Cards" ".xlsx",
                mkFrame 1 [("Blocked Time", mkSeries Object [CStr "2h"]);
                           ("Epic", mkSeries Object [CStr "KYC"]);
                           ("DATE/PERIOD", mkSeries Object [CStr "01/Jan/24 - 07/Jan/24 (Week #1)"])])]))
    = Some final
    /\ labels final = View.FINAL_COLUMNS.
Proof.
  destruct (Jira.main
              [(Jira.mkPath "Cards" "Cards" ".xlsx",
                mkFrame 1 [("Blocked Time", mkSeries Object [CStr "2h"]);
                           ("Epic", mkSeries Object [CStr "KYC"]);
                           ("DATE/PERIOD", mkSeries Object [CStr "01/Jan/24 - 07/Jan/24 (Week #1)"])])])
    as [out r] eqn:Hrun.
  assert (Hr : r = Ok tt).
  { apply (f_equal snd) in Hrun. vm_compute in Hrun. now subst r. }
  subst r.
  destruct (main_final_table_columns _ _ Hrun) as (final & H1 & H2).
  exists final. cbn [fst]. auto.
Defined.

(** A run of [src/main_jira.py] over one sheet that has every template
    column: nothing is logged, the run succeeds, and the log file exists all
    the same, empty. *)
Lemma log_file_without_diagnostics :
  View.diagnostics
    [(Jira.mkPath "Cards" "Cards" ".xlsx",
      mkFrame 1 [("Date/Period", mkSeries Object [CStr "01/Jan/24 - 07/Jan/24 (Week #1)"]);
                 ("Lead Time", mkSeries Object [CStr "1d 2h"]);
                 ("Cycle Time", mkSeries Object [CStr "3h"]);
                 ("Blocked Time", mkSeries Object [CStr "-"]);
                 ("Time to Market", mkSeries Object [CStr "2d"]);
                 ("Analysis Time", mkSeries Object [CStr "15m"])])] = []
  /\ snd (Jira.main
            [(Jira.mkPath "Cards" "Cards" ".xlsx",
              mkFrame 1 [("Date/Period", mkSeries Object [CStr "01/Jan/24 - 07/Jan/24 (Week #1)"]);
                         ("Lead Time", mkSeries Object [CStr "1d 2h"]);
                         ("Cycle Time", mkSeries Object [CStr "3h"]);
                         ("Blocked Time", mkSeries Object [CStr "-"]);
                         ("Time to Market", mkSeries Object [CStr "2d"]);
                         ("Analysis Time", mkSeries Object [CStr "15m"])])]) = Ok tt
  /\ Jira.log_file
       (fst (Jira.main
               [(Jira.mkPath "Cards" "Cards" ".xlsx",
                 mkFrame 1 [("Date/Period", mkSeries Object [CStr "01/Jan/24 - 07/Jan/24 (Week #1)"]);
                            ("Lead Time", mkSeries Object [CStr "1d 2h"]);
                            ("Cycle Time", mkSeries Object [CStr "3h"]);
                            ("Blocked Time", mkSeries Object [CStr "-"]);
                            ("Time to Market", mkSeries Object [CStr "2d"]);
                            ("Analysis Time", mkSeries Object [CStr "15m"])])]))
     = Some "".
Proof. repeat split; vm_compute; reflexivity. Qed.

(** C5 (as amended). In [src/main_jira.py] the log file exists after every
    run, because [logging.basicConfig] opens it before any sheet is read;
    it holds one record per missing-column diagnostic emitted during the
    run, so it is empty exactly when none was emitted; and the output CSV
    exists exactly when the run succeeds. *)
Theorem main_log_file (files : list (Jira.Path * DataFrame)) :
  Jira.log_file (fst (Jira.main files))
  = Some (String.concat "" (map Jira.log_record (View.diagnostics files)))
  /\ (String.concat "" (map Jira.log_record (View.diagnostics files)) = ""
      <-> View.diagnostics files = [])
  /\ Scanner.is_some (Jira.csv_file (fst (Jira.main files)))
     = match snd (Jira.main files) with
       | Ok _ => true
       | Raise _ => false
       end.
Proof.
  split; [|split; [apply log_records_empty|]].
  - pose proof (loop_log files "") as L. unfold Jira.main.
    destruct (Jira.loop files "") as [log r]. cbn [fst] in L. subst log.
    destruct (dfs <- r;; concat dfs); reflexivity.
  - unfold Jira.main. destruct (Jira.loop files "") as [log r].
    destruct (dfs <- r;; concat dfs); reflexivity.
Qed.

(** In [src/jira_exports_dashboard/main_jira.py] the diagnostics never
    reach the main block: [preprocess_columns] appends them to its own
    local [logs], the caller's [logs] stays empty, and the log file is
    never written. *)
Lemma dashboard_log_file_never_written :
  (forall files, Jira.log_file (fst (JiraDashboard.main files)) = None)
  /\ fst (JiraDashboard.preprocess_columns_body
            (mkFrame 1 [("Date/Period", mkSeries Object [CStr "01/Jan/24 - 07/Jan/24 (Week #1)"]);
                        ("Lead Time", mkSeries Object [CStr "1d 2h"])])
            "" "data/Cards/Cards.xlsx") <> ""
  /\ snd (JiraDashboard.main
            [("data/Cards/Cards.xlsx",
              mkFrame 1 [("Date/Period", mkSeries Object [CStr "01/Jan/24 - 07/Jan/24 (Week #1)"]);
                         ("Lead Time", mkSeries Object [CStr "1d 2h"])])]) = Ok tt.
Proof.
  split; [|split].
  - intros files. unfold JiraDashboard.main.
    destruct (dfs <- JiraDashboard.loop files "";; concat dfs); reflexivity.
  - vm_compute. discriminate.
  - vm_compute. reflexivity.
Qed.

(* ------------------------------------------------------------------ *)
(** ** Duration texts in general *)

Lemma span_whole (p : ascii -> bool) (a rest : string) :
  Scanner.all_in p a = true ->
  match rest with
  | EmptyString => true
  | String x _ => negb (p x)
  end = true ->
  Scanner.span p (a ++ rest) = (a, rest).
Proof.
  intros Ha Hr. induction a as [|c a IH]; simpl in *.
  - destruct rest as [|x r]; [reflexivity|].
    apply negb_true_iff in Hr. simpl. now rewrite Hr.
  - apply andb_true_iff in Ha as [Hc Ha]. now rewrite Hc, (IH Ha).
Qed.

Lemma take_unit_text (c : ascii) (n : N) (ws rest : string) :
  PyStr.is_digit c = false ->
  Scanner.all_in PyStr.is_space ws = true ->
  match rest with
  | EmptyString => true
  | String x _ => negb (PyStr.is_space x)
  end = true ->
  Scanner.take_unit c (PyStr.str_of_N n ++ String c (ws ++ rest)) =
  (Some (PyStr.str_of_N n), rest).
Proof.
  intros Hc Hws Hrest. rewrite take_unit_printed by exact Hc.
  now rewrite span_whole.
Qed.

Lemma take_unit_other (c c' : ascii) (n : N) (rest : string) :
  PyStr.is_digit c' = false ->
  Ascii.eqb c c' = false ->
  Scanner.take_unit c (PyStr.str_of_N n ++ String c' rest) =
  (None, (PyStr.str_of_N n ++ String c' rest)%string).
Proof.
  intros Hd Hne. unfold Scanner.take_unit.
  rewrite span_run by (apply str_of_N_digits || exact Hd).
  destruct (str_of_N_cons n) as (x & t & -> & _). now rewrite Hne.
Qed.

Lemma take_unit_clean (c : ascii) (s : string) :
  DurationText.clean_start s = true ->
  Scanner.take_unit c s = (None, s).
Proof.
  unfold Scanner.take_unit. destruct s as [|x s]; [reflexivity|].
  simpl. intros H. apply andb_true_iff in H as [H _].
  apply negb_true_iff in H. now rewrite H.
Qed.

Lemma printed_no_space (n : N) (rest : string) :
  match (PyStr.str_of_N n ++ rest)%string with
  | EmptyString => true
  | String x _ => negb (PyStr.is_space x)
  end = true.
Proof.
  destruct (str_of_N_cons n) as (x & t & -> & Hx). simpl.
  now rewrite (digit_not_space x Hx).
Qed.

Lemma clean_no_space (s : string) :
  DurationText.clean_start s = true ->
  match s with
  | EmptyString => true
  | String x _ => negb (PyStr.is_space x)
  end = true.
Proof.
  destruct s as [|x s]; [reflexivity|]. simpl.
  intros H. now apply andb_true_iff in H as [_ H].
Qed.

Lemma value_or_zero_printed (n : N) (v : Jira.num) :
  Jira.to_numeric (Some (PyStr.str_of_N n)) = Ok v ->
  Scanner.value_or_zero (Some (PyStr.str_of_N n)) = Z.of_N n.
Proof.
  unfold Scanner.value_or_zero. rewrite to_numeric_str_of_N.
  destruct (Z.of_N n <=? Jira.UINT64_MAX)%Z; [reflexivity | discriminate].
Qed.

Lemma scan_duration_text (d h m : option N) (w1 w2 w3 tail : string) :
  Scanner.all_in PyStr.is_space w1 = true ->
  Scanner.all_in PyStr.is_space w2 = true ->
  Scanner.all_in PyStr.is_space w3 = true ->
  DurationText.clean_start tail = true ->
  Scanner.scan_dhm (DurationText.duration_text d h m w1 w2 w3 ++ tail) =
  Jira.mkDhm (option_map PyStr.str_of_N d) (option_map PyStr.str_of_N h)
             (option_map PyStr.str_of_N m).
Proof.
  intros H1 H2 H3 Ht. pose proof (clean_no_space _ Ht) as Hs.
  unfold DurationText.duration_text, DurationText.unit_text, Scanner.scan_dhm.
  destruct d as [d|], h as [h|], m as [m|]; cbn [option_map];
    repeat rewrite append_assoc; cbn [append];
    repeat rewrite append_assoc; cbn [append];
    repeat first
      [ rewrite take_unit_text by
          (reflexivity || assumption || apply printed_no_space)
      | rewrite take_unit_other by reflexivity
      | rewrite take_unit_clean by assumption ];
    reflexivity.
Qed.

Lemma convert_column_nth (s : Series) (i : nat) (c : cell) :
  can_str s = true ->
  Columns.tame s = true ->
  nth_error (values s) i = Some c ->
  Scanner.readable c = true
  /\ exists s',
      Jira.convert_column s = Ok s'
      /\ dtype_of s' = Float64
      /\ nth_error (values s') i = Some (Scanner.cell_hours c).
Proof.
  intros Hstr Htame Hc. pose proof (tame_series_readable s Htame) as Hread.
  split.
  - rewrite forallb_forall in Hread. apply Hread.
    eapply nth_error_In; eassumption.
  - rewrite convert_column_spec, Hstr, Hread.
    eexists. split; [reflexivity|]. split.
    + cbn [dtype_of]. destruct (values s); [now destruct i | reflexivity].
    + cbn [values]. now rewrite nth_error_map, Hc.
Qed.

Lemma cell_hours_duration_text (d h m : option N) (w1 w2 w3 tail : string) :
  Scanner.all_in PyStr.is_space w1 = true ->
  Scanner.all_in PyStr.is_space w2 = true ->
  Scanner.all_in PyStr.is_space w3 = true ->
  DurationText.clean_start tail = true ->
  Scanner.readable
    (CStr (DurationText.duration_text d h m w1 w2 w3 ++ tail)) = true ->
  Scanner.cell_hours
    (CStr (DurationText.duration_text d h m w1 w2 w3 ++ tail))
  = DurationText.expected d h m.
Proof.
  intros H1 H2 H3 Ht R.
  destruct (to_numeric_extract _ R) as (vd & vh & vm & Dd & Dh & Dm & _).
  rewrite cell_hours_groups by exact R.
  rewrite extract_dhm_scan, scan_duration_text in * by assumption.
  cbn [Jira.Days Jira.Hours Jira.Minutes] in Dd, Dh, Dm.
  unfold Scanner.spec_total_hours, DurationText.expected.
  destruct d as [d|], h as [h|], m as [m|];
    cbn [option_map Jira.Days Jira.Hours Jira.Minutes Scanner.is_some orb
         DurationText.N_or_zero] in *;
    rewrite ?(value_or_zero_printed _ _ Dd), ?(value_or_zero_printed _ _ Dh),
      ?(value_or_zero_printed _ _ Dm); reflexivity.
Qed.

(** X1. The duration conversion reads any of the units days, hours and
    minutes, given in this order, each followed by any amount of white space
    (none included, as in [3d4h]) and then by arbitrary text that begins
    neither with a digit nor with white space: the cell becomes
    days*24 + hours + ceil(minutes/60) over the units present, and a missing
    value when no unit is present.  This holds in a column that has text
    and whose cells are all tame, which says of the cell itself that the
    text after the units is ASCII and that each number has at most 14
    digits. *)
Theorem convert_time_cols_duration_text
        (d h m : option N) (w1 w2 w3 tail : string) (s : Series) (i : nat) :
  Scanner.all_in PyStr.is_space w1 = true ->
  Scanner.all_in PyStr.is_space w2 = true ->
  Scanner.all_in PyStr.is_space w3 = true ->
  DurationText.clean_start tail = true ->
  can_str s = true ->
  Columns.tame s = true ->
  nth_error (values s) i
  = Some (CStr (DurationText.duration_text d h m w1 w2 w3 ++ tail)) ->
  exists s',
    Jira.convert_column s = Ok s'
    /\ nth_error (values s') i = Some (DurationText.expected d h m).
Proof.
  intros H1 H2 H3 Ht Hs Htame Hi.
  destruct (convert_column_nth s i _ Hs Htame Hi) as (R & s' & E & _ & V).
  exists s'. split; [exact E|].
  now rewrite V, cell_hours_duration_text.
Qed.

Lemma convert_time_cols_duration_text_witness :
  (exists s',
      Jira.convert_column
        (mkSeries Object [CStr "2d  90m (est.)"; CStr "about 5h"]) = Ok s'
      /\ nth_error (values s') 0 = Some (CNum 50))
  /\ (exists s',
         Jira.convert_column
           (mkSeries Object [CStr "2d  90m (est.)"; CStr "about 5h"]) = Ok s'
         /\ nth_error (values s') 1 = Some NaN).
Proof.
  split.
  - exact (convert_time_cols_duration_text
             (Some 2%N) None (Some 90%N) "  " "" " " "(est.)"
             (mkSeries Object [CStr "2d  90m (est.)"; CStr "about 5h"]) 0
             eq_refl eq_refl eq_refl eq_refl eq_refl eq_refl eq_refl).
  - exact (convert_time_cols_duration_text
             None None None "" "" "" "about 5h"
             (mkSeries Object [CStr "2d  90m (est.)"; CStr "about 5h"]) 1
             eq_refl eq_refl eq_refl eq_refl eq_refl eq_refl eq_refl).
Defined.

Lemma take_unit_no_digit (c : ascii) (x : ascii) (t : string) :
  PyStr.is_digit x = false ->
  Scanner.take_unit c (String x t) = (None, String x t).
Proof. intros H. unfold Scanner.take_unit. simpl. now rewrite H. Qed.

Lemma extract_no_leading_digit (c : cell) :
  DurationText.no_leading_digit c = true ->
  Jira.extract_dhm c = Jira.mkDhm None None None.
Proof.
  intros H. destruct c as [[|x t]| |]; try reflexivity.
  rewrite extract_dhm_scan. unfold Scanner.scan_dhm.
  simpl in H. apply negb_true_iff in H.
  now rewrite !take_unit_no_digit.
Qed.

Lemma cell_hours_no_leading_digit (c : cell) :
  DurationText.no_leading_digit c = true -> Scanner.cell_hours c = NaN.
Proof.
  intros H. unfold Scanner.cell_hours, Scanner.numeric_row.
  now rewrite (extract_no_leading_digit c H).
Qed.

(** X2. In a column that has text and whose cells are all tame, a cell
    that is not text (a number, a missing value), and text that does not
    begin with a digit -- the empty text, ["-"], text with leading white
    space such as [" 5h"] -- converts to a missing value: the pattern
    matches the empty text at the first character and no group takes part
    in the match. *)
Theorem convert_time_cols_no_leading_digit (s : Series) (i : nat) (c : cell) :
  can_str s = true ->
  Columns.tame s = true ->
  nth_error (values s) i = Some c ->
  DurationText.no_leading_digit c = true ->
  exists s',
    Jira.convert_column s = Ok s' /\ nth_error (values s') i = Some NaN.
Proof.
  intros Hs Htame Hi H.
  destruct (convert_column_nth s i _ Hs Htame Hi) as (_ & s' & E & _ & V).
  exists s'. split; [exact E|]. now rewrite V, cell_hours_no_leading_digit.
Qed.

Lemma convert_time_cols_no_leading_digit_witness :
  (exists s',
      Jira.convert_column (mkSeries Object [CStr " 5h"; CNum 7; CStr "1h"]) = Ok s'
      /\ nth_error (values s') 0 = Some NaN)
  /\ (exists s',
         Jira.convert_column (mkSeries Object [CStr " 5h"; CNum 7; CStr "1h"]) = Ok s'
         /\ nth_error (values s') 1 = Some NaN).
Proof.
  split.
  - exact (convert_time_cols_no_leading_digit
             (mkSeries Object [CStr " 5h"; CNum 7; CStr "1h"]) 0 (CStr " 5h")
             eq_refl eq_refl eq_refl eq_refl).
  - exact (convert_time_cols_no_leading_digit
             (mkSeries Object [CStr " 5h"; CNum 7; CStr "1h"]) 1 (CNum 7)
             eq_refl eq_refl eq_refl eq_refl).
Defined.

(* ------------------------------------------------------------------ *)
(** ** The effect of [convert_time_cols] on a frame *)

Lemma filter_set_column_other (col c : string) (t : Series)
      (cols : list (string * Series)) :
  String.eqb c col = false ->
  filter (fun x => String.eqb c (fst x)) (set_column cols col t) =
  filter (fun x => String.eqb c (fst x)) cols.
Proof.
  intros Hne. induction cols as [|[k v] cols IH]; simpl.
  - now rewrite Hne.
  - destruct (String.eqb_spec col k) as [->|Hk]; simpl.
    + now rewrite Hne.
    + now rewrite IH.
Qed.

Lemma getitem_setitem_other (df : DataFrame) (col c : string) (t : Series) :
  String.eqb c col = false ->
  getitem (setitem df col t) c = getitem df c.
Proof.
  intros Hne. unfold getitem, setitem; simpl.
  now rewrite filter_set_column_other.
Qed.

Lemma labels_set_column (cols : list (string * Series)) (col : string)
      (t : Series) :
  PyStr.mem col (map fst cols) = true ->
  map fst (set_column cols col t) = map fst cols.
Proof.
  induction cols as [|[k v] cols IH]; simpl; [discriminate|].
  destruct (String.eqb col k) eqn:E; simpl; [reflexivity|].
  intros H. now rewrite IH.
Qed.

Lemma labels_setitem (df : DataFrame) (col : string) (s t : Series) :
  getitem df col = Ok s -> labels (setitem df col t) = labels df.
Proof.
  intros H. unfold labels, setitem; simpl.
  apply labels_set_column. exact (getitem_mem _ _ _ H).
Qed.

Lemma converted_fixed (s : Series) :
  dtype_of s = Float64 -> Columns.converted s = s.
Proof. unfold Columns.converted. now intros ->. Qed.

Lemma converted_again (s : Series) :
  Columns.converted (Columns.converted s) = Columns.converted s.
Proof.
  assert (F : forall t, dtype_of t = Float64 -> Columns.converted t = t)
    by (intros t; unfold Columns.converted; now intros ->).
  destruct (dtype_of s) eqn:D.
  - destruct (values s) eqn:V.
    + assert (E : Columns.converted s = s)
        by (unfold Columns.converted; now rewrite D, V).
      now rewrite !E.
    + assert (E : Columns.converted s
                  = mkSeries Float64 (map Scanner.cell_hours (values s)))
        by (unfold Columns.converted; now rewrite D, V).
      rewrite E. now apply F.
  - now rewrite !(F s D).
Qed.

(** A column that the conversion leaves as it is -- any column that is not
    of dtype object, and an object column without rows -- is gone through
    without an exception. *)
Lemma convert_series_settled (s : Series) :
  Columns.converted s = s -> View.convert_series s = Ok s.
Proof.
  unfold Columns.converted, View.convert_series.
  destruct s as [dt vals]. cbn [dtype_of values].
  destruct dt; cbn [dtype_eqb negb]; [|reflexivity].
  destruct vals as [|c vals]; [reflexivity | discriminate].
Qed.

Lemma getitem_filter (df : DataFrame) (col : string) (s : Series) :
  getitem df col = Ok s ->
  filter (fun c => String.eqb col (fst c)) (columns df) = [(col, s)].
Proof.
  unfold getitem.
  destruct (filter _ (columns df)) as [|[k v] [|? ?]] eqn:E; try discriminate.
  intros [= <-]. cbn [snd].
  assert (In (k, v) (filter (fun c => String.eqb col (fst c)) (columns df)))
    as Hin by (rewrite E; now left).
  apply filter_In in Hin as [_ Hk]. cbn [fst] in Hk.
  apply String.eqb_eq in Hk. now subst k.
Qed.

Lemma setitem_same (df : DataFrame) (col : string) (s : Series) :
  getitem df col = Ok s -> setitem df col s = df.
Proof.
  intros G. unfold setitem. rewrite (set_column_same _ _ _ (getitem_filter _ _ _ G)).
  now destruct df.
Qed.

(** The frame that [convert_time_cols] returns, column by column. *)
Lemma convert_time_cols_effect (cols : list string) :
  forall df df',
    Jira.convert_time_cols df cols = Ok df' ->
    labels df' = labels df
    /\ nrows df' = nrows df
    /\ (forall c,
           getitem df' c =
           match getitem df c with
           | Ok s => Ok (if PyStr.mem c cols then Columns.converted s else s)
           | Raise e => Raise e
           end)
    /\ (forall c, In c cols -> exists s, getitem df c = Ok s).
Proof.
  induction cols as [|col rest IH]; intros df df'; cbn [Jira.convert_time_cols].
  - intros [= <-]. repeat split; try (intros c; now destruct (getitem df c)).
  - destruct (getitem df col) as [s|e] eqn:G; cbn [bind]; [|discriminate].
    destruct (dtype_of s) eqn:D; cbn [dtype_eqb negb].
    + (* an object column is converted and written back *)
      destruct (can_str s) eqn:C;
        [|rewrite convert_column_spec, C; discriminate].
      destruct (forallb Scanner.readable (values s)) eqn:R;
        [|rewrite convert_column_spec, C, R; discriminate].
      rewrite (convert_column_converted s D C R). cbn [bind].
      intros H. apply IH in H as (L & N & V & P).
      split; [now rewrite L, (labels_setitem _ _ _ _ G)|].
      split; [exact N|]. split.
      * intros c. rewrite V. cbn [PyStr.mem existsb].
        fold (PyStr.mem c rest).
        destruct (String.eqb_spec c col) as [->|Hne]; cbn [orb].
        -- rewrite (getitem_setitem _ _ _ _ G), G.
           now rewrite converted_again, Tauto.if_same.
        -- rewrite getitem_setitem_other by now apply String.eqb_neq.
           reflexivity.
      * intros c [<-|Hc]; [eauto|].
        destruct (P c Hc) as [s1 H1].
        destruct (String.eqb_spec c col) as [->|Hne]; [eauto|].
        rewrite getitem_setitem_other in H1 by now apply String.eqb_neq.
        eauto.
    + (* any other column is skipped *)
      intros H. apply IH in H as (L & N & V & P).
      split; [exact L|]. split; [exact N|]. split.
      * intros c. rewrite V. cbn [PyStr.mem existsb].
        fold (PyStr.mem c rest).
        destruct (String.eqb_spec c col) as [->|Hne]; cbn [orb]; [|reflexivity].
        rewrite G. now rewrite (converted_fixed s D), Tauto.if_same.
      * intros c [<-|Hc]; eauto.
Qed.

(** A frame whose listed columns the conversion leaves as they are passes
    through [convert_time_cols] as it is. *)
Lemma convert_time_cols_skip (cols : list string) (df : DataFrame) :
  (forall c, In c cols ->
             exists s, getitem df c = Ok s /\ Columns.converted s = s) ->
  Jira.convert_time_cols df cols = Ok df.
Proof.
  induction cols as [|col rest IH]; intros H; [reflexivity|].
  destruct (H col (or_introl eq_refl)) as (s & G & F).
  rewrite (convert_time_cols_step df col rest s G).
  rewrite (convert_series_settled s F). cbn [bind].
  rewrite (setitem_same df col s G), Tauto.if_same.
  apply IH. intros c Hc. apply H. now right.
Qed.

(** X3. Whenever [convert_time_cols] returns on a frame whose listed
    columns hold tame cells only, the frame has the labels and the rows it
    had; a column that is not listed is unchanged; a listed column that is
    not of dtype object is unchanged, and so is a listed object column
    without rows; and a listed object column with rows holds, row by row,
    the total hours of its cells, as float64. *)
Theorem convert_time_cols_columns
        (df df' : DataFrame) (columns_to_process : list string) :
  (forall c s,
      In c columns_to_process -> getitem df c = Ok s ->
      Columns.tame s = true) ->
  Jira.convert_time_cols df columns_to_process = Ok df' ->
  labels df' = labels df
  /\ nrows df' = nrows df
  /\ forall c s,
      getitem df c = Ok s ->
      getitem df' c =
      Ok (if PyStr.mem c columns_to_process && dtype_eqb (dtype_of s) Object
          then match values s with
               | [] => s
               | _ :: _ => mkSeries Float64 (map Scanner.cell_hours (values s))
               end
          else s).
Proof.
  intros _ H. apply convert_time_cols_effect in H as (L & R & V & _).
  split; [exact L|]. split; [exact R|].
  intros c s G. rewrite V, G. unfold Columns.converted.
  destruct (PyStr.mem c columns_to_process), (dtype_eqb (dtype_of s) Object);
    reflexivity.
Qed.

Lemma convert_time_cols_columns_witness :
  labels (mkFrame 2 [("Epic", mkSeries Object [CStr "5h"; CStr "KYC"]);
                     ("Lead Time", mkSeries Float64 [CNum 26; NaN]);
                     ("Cycle Time", mkSeries Float64 [CNum 3; NaN])])
  = labels (mkFrame 2 [("Epic", mkSeries Object [CStr "5h"; CStr "KYC"]);
                       ("Lead Time", mkSeries Object [CStr "1d 2h"; CStr "-"]);
                       ("Cycle Time", mkSeries Float64 [CNum 3; NaN])])
  /\ nrows (mkFrame 2 [("Epic", mkSeries Object [CStr "5h"; CStr "KYC"]);
                       ("Lead Time", mkSeries Float64 [CNum 26; NaN]);
                       ("Cycle Time", mkSeries Float64 [CNum 3; NaN])])
     = 2
  /\ forall c s,
      getitem (mkFrame 2 [("Epic", mkSeries Object [CStr "5h"; CStr "KYC"]);
                          ("Lead Time", mkSeries Object [CStr "1d 2h"; CStr "-"]);
                          ("Cycle Time", mkSeries Float64 [CNum 3; NaN])]) c = Ok s ->
      getitem (mkFrame 2 [("Epic", mkSeries Object [CStr "5h"; CStr "KYC"]);
                          ("Lead Time", mkSeries Float64 [CNum 26; NaN]);
                          ("Cycle Time", mkSeries Float64 [CNum 3; NaN])]) c =
      Ok (if PyStr.mem c ["Lead Time"; "Cycle Time"] && dtype_eqb (dtype_of s) Object
          then match values s with
               | [] => s
               | _ :: _ => mkSeries Float64 (map Scanner.cell_hours (values s))
               end
          else s).
Proof.
  apply (convert_time_cols_columns
           (mkFrame 2 [("Epic", mkSeries Object [CStr "5h"; CStr "KYC"]);
                       ("Lead Time", mkSeries Object [CStr "1d 2h"; CStr "-"]);
                       ("Cycle Time", mkSeries Float64 [CNum 3; NaN])])
           _ ["Lead Time"; "Cycle Time"]).
  - intros c s [<-|[<-|[]]] G; vm_compute in G; injection G as <-; reflexivity.
  - vm_compute. reflexivity.
Defined.

(** X4. [convert_time_cols] is idempotent: a frame that it returned passes
    through a second call, over the same columns, unchanged -- every listed
    column is float64 by then and is skipped, or is an object column
    without rows, which the conversion writes back as it is. *)
Theorem convert_time_cols_idempotent
        (df df' : DataFrame) (columns_to_process : list string) :
  Jira.convert_time_cols df columns_to_process = Ok df' ->
  Jira.convert_time_cols df' columns_to_process = Ok df'.
Proof.
  intros H. apply convert_time_cols_effect in H as (_ & _ & V & P).
  apply convert_time_cols_skip. intros c Hc.
  destruct (P c Hc) as [s G]. exists (Columns.converted s). split.
  - rewrite V, G.
    replace (PyStr.mem c columns_to_process) with true; [reflexivity|].
    symmetry. apply existsb_exists. exists c. split; [exact Hc|].
    apply String.eqb_refl.
  - apply converted_again.
Qed.

Lemma convert_time_cols_idempotent_witness :
  Jira.convert_time_cols
    (mkFrame 2 [("Lead Time", mkSeries Float64 [CNum 26; NaN]);
                ("Cycle Time", mkSeries Float64 [CNum 3; NaN])])
    ["Lead Time"; "Cycle Time"]
  = Ok (mkFrame 2 [("Lead Time", mkSeries Float64 [CNum 26; NaN]);
                   ("Cycle Time", mkSeries Float64 [CNum 3; NaN])]).
Proof.
  apply (convert_time_cols_idempotent
           (mkFrame 2 [("Lead Time", mkSeries Object [CStr "1d 2h"; CStr "-"]);
                       ("Cycle Time", mkSeries Float64 [CNum 3; NaN])])).
  vm_compute. reflexivity.
Defined.

(* ------------------------------------------------------------------ *)
(** ** [preprocess_columns]: what is logged, kept and filled *)

Lemma mem_In (x : string) (xs : list string) :
  PyStr.mem x xs = true <-> In x xs.
Proof.
  unfold PyStr.mem. rewrite existsb_exists. split.
  - intros (y & Hy & E). apply String.eqb_eq in E. now subst.
  - intros H. exists x. split; [exact H | apply String.eqb_refl].
Qed.

Lemma template_lower_mem (col : string) :
  In col Jira.COLUMNS_TEMPLATE ->
  PyStr.mem (PyStr.lower col) Jira.COLUMNS_TEMPLATE_LOWER = true.
Proof.
  intros H. apply mem_In. unfold Jira.COLUMNS_TEMPLATE_LOWER. now apply in_map.
Qed.

Lemma mem_cons (y x : string) (l : list string) :
  PyStr.mem y (x :: l) = String.eqb y x || PyStr.mem y l.
Proof. reflexivity. Qed.

(** The mask drops no label that a template column could be looking for. *)
Lemma mem_lower_kept (y : string) (xs : list string) :
  PyStr.mem y Jira.COLUMNS_TEMPLATE_LOWER = true ->
  PyStr.mem y
    (map PyStr.lower
       (filter (fun c => PyStr.mem (PyStr.lower c) Jira.COLUMNS_TEMPLATE_LOWER) xs))
  = PyStr.mem y (map PyStr.lower xs).
Proof.
  intros Hy. induction xs as [|x xs IH]; [reflexivity|].
  cbn [filter map].
  destruct (PyStr.mem (PyStr.lower x) Jira.COLUMNS_TEMPLATE_LOWER) eqn:K.
  - cbn [map]. now rewrite !mem_cons, IH.
  - rewrite IH, mem_cons.
    destruct (String.eqb_spec y (PyStr.lower x)) as [->|_]; [congruence|reflexivity].
Qed.

Lemma mem_kept_lower (df : DataFrame) (col : string) :
  In col Jira.COLUMNS_TEMPLATE ->
  PyStr.mem (PyStr.lower col) (View.kept_lower df)
  = PyStr.mem (PyStr.lower col)
      (map (fun l => PyStr.lower (PyStr.strip_glyph l)) (labels df)).
Proof.
  intros H. unfold View.kept_lower. rewrite labels_kept_columns.
  rewrite mem_lower_kept by now apply template_lower_mem.
  now rewrite map_map.
Qed.

Lemma flat_map_filter {A B : Type} (p : A -> bool) (f : A -> B) (xs : list A) :
  flat_map (fun x => if p x then [f x] else []) xs = map f (filter p xs).
Proof.
  induction xs as [|x xs IH]; [reflexivity|].
  cbn [flat_map filter]. destruct (p x); cbn [app map]; now rewrite IH.
Qed.

(** X5. On a sheet that has at least one column, and whose headers are
    ASCII once the glyph is removed, [preprocess_columns] logs exactly one
    line for each template column that no column of the sheet matches --
    compared after the glyph is removed and without regard to case -- in
    template order, each line naming the column and the file; it logs
    nothing for a column that is present, and unrecognised columns leave no
    trace in the log.  (A sheet without any column is refused before
    anything is logged: [preprocess_columns_empty].) *)
Theorem preprocess_columns_diagnostics
        (df : DataFrame) (excel_filepath : Jira.Path) :
  columns df <> [] ->
  Jira.plain_headers df = true ->
  fst (Jira.preprocess_columns df excel_filepath) =
  map (fun col => Jira.missing_column_message col (Jira.name excel_filepath))
      (filter
         (fun col =>
            negb (PyStr.mem (PyStr.lower col)
                    (map (fun l => PyStr.lower (PyStr.strip_glyph l)) (labels df))))
         Jira.COLUMNS_TEMPLATE).
Proof.
  intros N _. rewrite (preprocess_columns_nonempty df excel_filepath N).
  cbn [fst]. unfold Jira.missing_column_logs.
  rewrite (flat_map_filter
             (fun col => negb (PyStr.mem (PyStr.lower col)
                                 (map PyStr.lower (labels (Jira.masked_columns df)))))
             (fun col => Jira.missing_column_message col (Jira.name excel_filepath))).
  f_equal. apply filter_ext_in. intros col Hcol.
  fold (View.kept_lower df). now rewrite mem_kept_lower.
Qed.

Lemma preprocess_columns_diagnostics_witness :
  fst (Jira.preprocess_columns
         (mkFrame 1 [("Epic", mkSeries Object [CStr "KYC"]);
                     ("lead TIME", mkSeries Object [CStr "1d 2h"]);
                     ("Date/Period", mkSeries Object [CStr "-"]);
                     ("Cycle Time", mkSeries Object [CStr "3h"]);
                     ("Blocked Time", mkSeries Object [CStr "-"])])
         (Jira.mkPath "Cards" "Cards" ".xlsx"))
  = [Jira.missing_column_message "Time to Market" "Cards.xlsx";
     Jira.missing_column_message "Analysis Time" "Cards.xlsx"].
Proof.
  apply (preprocess_columns_diagnostics
           (mkFrame 1 [("Epic", mkSeries Object [CStr "KYC"]);
                       ("lead TIME", mkSeries Object [CStr "1d 2h"]);
                       ("Date/Period", mkSeries Object [CStr "-"]);
                       ("Cycle Time", mkSeries Object [CStr "3h"]);
                       ("Blocked Time", mkSeries Object [CStr "-"])])
           (Jira.mkPath "Cards" "Cards" ".xlsx")).
  - discriminate.
  - reflexivity.
Defined.

(* The columns of the frame before [reindex]. *)

Lemma combine_map_snd {A B C : Type} (f : A -> C) (xs : list (A * B)) :
  combine (map (fun c => f (fst c)) xs) (map snd xs)
  = map (fun c => (f (fst c), snd c)) xs.
Proof.
  induction xs as [|x xs IH]; [reflexivity|]. cbn [map combine]. now rewrite IH.
Qed.

Lemma columns_kept (df : DataFrame) :
  columns (Jira.masked_columns df) =
  filter (fun c => PyStr.mem (PyStr.lower (fst c)) Jira.COLUMNS_TEMPLATE_LOWER)
         (map (fun c => (PyStr.strip_glyph (fst c), snd c)) (columns df)).
Proof.
  unfold Jira.masked_columns, loc_columns, set_labels, labels.
  cbn [nrows columns]. rewrite map_map.
  rewrite (combine_map_snd PyStr.strip_glyph).
  rewrite (map_map fst). now rewrite select_map.
Qed.

Lemma columns_renamed (df : DataFrame) :
  columns
    (rename (Jira.masked_columns df)
       (Jira.col_rename_mapper (labels (Jira.masked_columns df)))) =
  map (fun c => (View.canonical (fst c), snd c)) (columns (Jira.masked_columns df)).
Proof.
  unfold rename. cbn [columns]. apply map_ext_in. intros [x s] Hx. cbn [fst snd].
  f_equal.
  assert (Hl : In x (labels (Jira.masked_columns df)))
    by (unfold labels; now apply (in_map fst) in Hx).
  unfold Jira.col_rename_mapper. rewrite assoc_rename_mapper.
  rewrite (proj2 (mem_In _ _) Hl). cbn [andb assoc].
  destruct (PyStr.mem x Jira.COLUMNS_TEMPLATE) eqn:Ht; cbn [negb].
  - now rewrite canonical_template.
  - unfold View.canonical.
    destruct (first_same_lower_kept x Jira.COLUMNS_TEMPLATE
                (kept_label_in_template df x Hl)) as [c2 ->]. reflexivity.
Qed.

Lemma lookup_in_unique (k : string) (v : Series) (cols : list (string * Series)) :
  has_dup (map fst cols) = false ->
  In (k, v) cols -> lookup k cols = Some v.
Proof.
  induction cols as [|[k' v'] cols IH]; [intros _ []|].
  cbn [map fst has_dup lookup]. intros D. apply orb_false_iff in D as [D1 D2].
  intros [[= -> ->]|H].
  - now rewrite String.eqb_refl.
  - destruct (String.eqb_spec k k') as [->|_]; [|now apply IH].
    exfalso. assert (PyStr.mem k' (map fst cols) = true).
    { apply mem_In. now apply (in_map fst) in H. }
    congruence.
Qed.

Lemma lookup_absent (k : string) (cols : list (string * Series)) :
  PyStr.mem k (map fst cols) = false -> lookup k cols = None.
Proof.
  induction cols as [|[k' v'] cols IH]; [reflexivity|].
  cbn [map fst PyStr.mem existsb lookup]. intros H.
  apply orb_false_iff in H as [-> H]. now apply IH.
Qed.

(** What [reindex] puts under a label of the target. *)
Lemma reindex_lookup (df df' : DataFrame) (target : list string) (l : string) :
  reindex df target = Ok df' ->
  has_dup target = false ->
  In l target ->
  has_dup (labels df) = false
  /\ getitem df' l =
     Ok (match lookup l (columns df) with
         | Some s => s
         | None => nan_series (nrows df)
         end).
Proof.
  unfold reindex. intros H T Hl.
  destruct (labels_eqb (labels df) target) eqn:E.
  - injection H as <-. apply labels_eqb_eq in E.
    assert (D : has_dup (labels df) = false) by now rewrite E.
    split; [exact D|].
    destruct (lookup_present l (columns df)) as [s Hs].
    { fold (labels df). now rewrite E. }
    rewrite Hs. now apply getitem_lookup.
  - destruct (has_dup (labels df)) eqn:D; [discriminate|].
    injection H as <-. split; [reflexivity|].
    apply getitem_lookup.
    + unfold labels. cbn [columns]. rewrite map_map. cbn [fst].
      now rewrite map_id.
    + cbn [columns]. clear - Hl T.
      induction target as [|t target IH]; [destruct Hl|].
      cbn [map lookup]. cbn [has_dup] in T.
      apply orb_false_iff in T as [T1 T2].
      destruct (String.eqb_spec l t) as [->|Hne]; [reflexivity|].
      destruct Hl as [->|Hl]; [contradiction|]. now apply IH.
Qed.

Lemma canonical_of_template (x col : string) :
  In col Jira.COLUMNS_TEMPLATE ->
  PyStr.lower x = PyStr.lower col ->
  View.canonical x = col.
Proof.
  intros Hc E. rewrite <- (canonical_template col) by now apply mem_In.
  unfold View.canonical.
  destruct (first_same_lower_kept col Jira.COLUMNS_TEMPLATE
              (template_lower_mem col Hc)) as [c2 Hc2].
  now rewrite (first_same_lower_ext x col _ E), Hc2.
Qed.

(** X6. Whenever [preprocess_columns] returns on a sheet whose headers are
    ASCII once the glyph is removed, each template column of the result
    holds the data of the sheet's column of that name -- compared after the
    glyph is removed and without regard to case -- with its dtype and every
    value as they were; and a template column that the sheet lacks is a
    float64 column of missing values, one per row of the sheet. *)
Theorem preprocess_columns_data
        (df df' : DataFrame) (excel_filepath : Jira.Path) (col : string) :
  Jira.plain_headers df = true ->
  snd (Jira.preprocess_columns df excel_filepath) = Ok df' ->
  In col Jira.COLUMNS_TEMPLATE ->
  (forall l s,
      In (l, s) (columns df) ->
      PyStr.lower (PyStr.strip_glyph l) = PyStr.lower col ->
      getitem df' col = Ok s)
  /\ (PyStr.mem (PyStr.lower col)
        (map (fun l => PyStr.lower (PyStr.strip_glyph l)) (labels df)) = false ->
      getitem df' col = Ok (mkSeries Float64 (repeat NaN (nrows df)))).
Proof.
  intros _ H Hcol.
  rewrite (preprocess_columns_outcome df excel_filepath
             (preprocess_columns_returns _ _ _ H)) in H.
  destruct (reindex_lookup _ _ _ col H eq_refl Hcol) as [D G].
  rewrite G. clear G H. rewrite columns_renamed in *.
  unfold labels in D. rewrite columns_renamed in D.
  split.
  - intros l s Hin E. f_equal.
    rewrite (lookup_in_unique col s); [reflexivity|exact D|].
    apply in_map_iff. exists (PyStr.strip_glyph l, s). cbn [fst snd]. split.
    + now rewrite (canonical_of_template _ col Hcol E).
    + rewrite columns_kept. apply filter_In. cbn [fst]. split.
      * apply in_map_iff. now exists (l, s).
      * rewrite E. now apply template_lower_mem.
  - intros Habs. rewrite lookup_absent; [reflexivity|].
    apply not_true_is_false. intros Hm. apply mem_In in Hm.
    rewrite map_map in Hm. cbn [fst] in Hm.
    apply in_map_iff in Hm as ([x s] & Ex & Hx). cbn [fst] in Ex.
    rewrite columns_kept in Hx. apply filter_In in Hx as [Hx _].
    apply in_map_iff in Hx as ([l s0] & [= <- <-] & Hl). cbn [fst] in *.
    assert (M : PyStr.mem (PyStr.lower col)
                  (map (fun l => PyStr.lower (PyStr.strip_glyph l)) (labels df)) = true).
    { apply mem_In. apply in_map_iff. exists l. split.
      - now rewrite <- Ex, lower_canonical.
      - unfold labels. now apply (in_map fst) in Hl. }
    congruence.
Qed.

Lemma preprocess_columns_data_witness :
  (forall l s,
      In (l, s) [("Epic", mkSeries Object [CStr "KYC"]);
                 ("lead TIME", mkSeries Object [CStr "1d 2h"])] ->
      PyStr.lower (PyStr.strip_glyph l) = PyStr.lower "Lead Time" ->
      getitem
        (mkFrame 1
           [("Date/Period", mkSeries Float64 [NaN]);
            ("Lead Time", mkSeries Object [CStr "1d 2h"]);
            ("Cycle Time", mkSeries Float64 [NaN]);
            ("Blocked Time", mkSeries Float64 [NaN]);
            ("Time to Market", mkSeries Float64 [NaN]);
            ("Analysis Time", mkSeries Float64 [NaN])]) "Lead Time" = Ok s)
  /\ (PyStr.mem (PyStr.lower "Lead Time")
        (map (fun l => PyStr.lower (PyStr.strip_glyph l)) ["Epic"; "lead TIME"])
      = false ->
      getitem
        (mkFrame 1
           [("Date/Period", mkSeries Float64 [NaN]);
            ("Lead Time", mkSeries Object [CStr "1d 2h"]);
            ("Cycle Time", mkSeries Float64 [NaN]);
            ("Blocked Time", mkSeries Float64 [NaN]);
            ("Time to Market", mkSeries Float64 [NaN]);
            ("Analysis Time", mkSeries Float64 [NaN])]) "Lead Time"
      = Ok (mkSeries Float64 (repeat NaN 1))).
Proof.
  apply (preprocess_columns_data
           (mkFrame 1 [("Epic", mkSeries Object [CStr "KYC"]);
                       ("lead TIME", mkSeries Object [CStr "1d 2h"])])
           _ (Jira.mkPath "Cards" "Cards" ".xlsx") "Lead Time").
  - reflexivity.
  - vm_compute. reflexivity.
  - vm_compute. tauto.
Defined.

(** X7. On a sheet whose headers are ASCII once the glyph is removed,
    [preprocess_columns] raises in two cases only: the [AttributeError] of
    [df.columns.str] exactly when the sheet has no column at all, and the
    [ValueError] of [reindex] exactly when two of the columns kept by the
    mask have the same lower-cased label -- headers that differ by case or
    by the glyph only; on every other sheet it returns. *)
Theorem preprocess_columns_raises
        (df : DataFrame) (excel_filepath : Jira.Path) :
  Jira.plain_headers df = true ->
  (snd (Jira.preprocess_columns df excel_filepath) = Raise AttributeError
   <-> columns df = [])
  /\ (snd (Jira.preprocess_columns df excel_filepath) = Raise ValueError
      <-> has_dup (View.kept_lower df) = true)
  /\ (forall e, snd (Jira.preprocess_columns df excel_filepath) = Raise e ->
                e = AttributeError \/ e = ValueError)
  /\ ((exists df', snd (Jira.preprocess_columns df excel_filepath) = Ok df')
      <-> columns df <> [] /\ has_dup (View.kept_lower df) = false).
Proof.
  intros _. destruct (columns df) as [|c0 cs] eqn:E.
  - rewrite (preprocess_columns_empty df excel_filepath E). cbn [snd].
    assert (K : has_dup (View.kept_lower df) = false).
    { unfold View.kept_lower, Jira.masked_columns, loc_columns, set_labels,
        labels. cbn [columns]. now rewrite E. }
    rewrite K. split; [tauto|]. split; [split; discriminate|]. split.
    + intros e [= <-]. now left.
    + split; [intros [df' H]; discriminate H | intros [H _]; now elim H].
  - assert (N : columns df <> []) by (rewrite E; discriminate).
    destruct (has_dup (View.kept_lower df)) eqn:D.
    + pose proof (preprocess_columns_duplicate_labels df excel_filepath D) as R.
      rewrite R. split; [split; [discriminate | intros H; discriminate H]|].
      split; [tauto|]. split.
      * intros e [= <-]. now right.
      * split; [intros [df' H]; discriminate H | intros [_ H]; discriminate H].
    + destruct (reindex_unique
                  (rename (Jira.masked_columns df)
                     (Jira.col_rename_mapper (labels (Jira.masked_columns df))))
                  Jira.COLUMNS_TEMPLATE) as [df' H].
      { now rewrite labels_renamed, has_dup_renamed. }
      rewrite (preprocess_columns_outcome df excel_filepath N), H.
      split; [split; [discriminate | intros H0; discriminate H0]|].
      split; [split; discriminate|]. split.
      * intros e [=].
      * split; [intros _; split; [discriminate | reflexivity]
               | intros _; now exists df'].
Qed.

Lemma preprocess_columns_raises_witness :
  (snd (Jira.preprocess_columns
          (mkFrame 1 [("Lead Time", mkSeries Object [CStr "1d"]);
                      ("lead time", mkSeries Object [CStr "2d"])])
          (Jira.mkPath "Cards" "Cards" ".xlsx")) = Raise AttributeError
   <-> columns (mkFrame 1 [("Lead Time", mkSeries Object [CStr "1d"]);
                           ("lead time", mkSeries Object [CStr "2d"])]) = [])
  /\ (snd (Jira.preprocess_columns
             (mkFrame 1 [("Lead Time", mkSeries Object [CStr "1d"]);
                         ("lead time", mkSeries Object [CStr "2d"])])
             (Jira.mkPath "Cards" "Cards" ".xlsx")) = Raise ValueError
      <-> has_dup (View.kept_lower
                     (mkFrame 1 [("Lead Time", mkSeries Object [CStr "1d"]);
                                 ("lead time", mkSeries Object [CStr "2d"])]))
          = true)
  /\ (forall e,
         snd (Jira.preprocess_columns
                (mkFrame 1 [("Lead Time", mkSeries Object [CStr "1d"]);
                            ("lead time", mkSeries Object [CStr "2d"])])
                (Jira.mkPath "Cards" "Cards" ".xlsx")) = Raise e ->
         e = AttributeError \/ e = ValueError)
  /\ ((exists df',
          snd (Jira.preprocess_columns
                 (mkFrame 1 [("Lead Time", mkSeries Object [CStr "1d"]);
                             ("lead time", mkSeries Object [CStr "2d"])])
                 (Jira.mkPath "Cards" "Cards" ".xlsx")) = Ok df')
      <-> columns (mkFrame 1 [("Lead Time", mkSeries Object [CStr "1d"]);
                              ("lead time", mkSeries Object [CStr "2d"])]) <> []
          /\ has_dup (View.kept_lower
                        (mkFrame 1 [("Lead Time", mkSeries Object [CStr "1d"]);
                                    ("lead time", mkSeries Object [CStr "2d"])]))
             = false).
Proof.
  apply (preprocess_columns_raises
           (mkFrame 1 [("Lead Time", mkSeries Object [CStr "1d"]);
                       ("lead time", mkSeries Object [CStr "2d"])])
           (Jira.mkPath "Cards" "Cards" ".xlsx")).
  reflexivity.
Defined.

(* ------------------------------------------------------------------ *)
(** ** The run: all files or none *)

Lemma transform_snd (p : Jira.Path) (sheet : DataFrame) :
  snd (Jira.transform p sheet) =
  (df <- snd (Jira.preprocess_columns sheet p);;
   df <- Jira.convert_time_cols df Jira.time_columns;;
   df <- Jira.split_date_col df;;
   insert0 df "Department Name" (Jira.stem p)).
Proof.
  unfold Jira.transform. now destruct (Jira.preprocess_columns sheet p).
Qed.

Lemma loop_snd (files : list (Jira.Path * DataFrame)) (log : string) :
  snd (Jira.loop files log) =
  Jira.mapM (fun f => snd (Jira.transform (fst f) (snd f))) files.
Proof.
  revert log. induction files as [|[p sheet] files IH]; intros log;
    cbn [Jira.loop Jira.mapM fst snd]; [reflexivity|].
  destruct (Jira.transform p sheet) as [lines r]. cbn [snd].
  destruct r as [df|e]; cbn [bind snd]; [|reflexivity].
  specialize (IH (log ++ String.concat "" (map Jira.log_record lines))%string).
  destruct (Jira.loop files _) as [log2 rs]. cbn [snd] in *. now rewrite IH.
Qed.

Lemma mapM_all {A B : Type} (f : A -> result B) (xs : list A) :
  Forall (fun x => exists y, f x = Ok y) xs ->
  exists ys, Jira.mapM f xs = Ok ys /\ Forall2 (fun x y => f x = Ok y) xs ys.
Proof.
  induction 1 as [|x xs [y Hy] _ (ys & E & F)].
  - exists []. split; [reflexivity | constructor].
  - exists (y :: ys). cbn [Jira.mapM]. rewrite Hy, E. split; [reflexivity|].
    now constructor.
Qed.

Lemma mapM_first_failure {A B : Type} (f : A -> result B)
      (pre : list A) (x : A) (post : list A) (e : exn) :
  Forall (fun x => exists y, f x = Ok y) pre ->
  f x = Raise e ->
  Jira.mapM f (pre ++ x :: post) = Raise e.
Proof.
  intros H Hx. induction H as [|a pre [y Hy] _ IH]; cbn [app Jira.mapM].
  - now rewrite Hx.
  - now rewrite Hy, IH.
Qed.

Lemma diagnostics_first_failure (pre : list (Jira.Path * DataFrame))
      (f : Jira.Path * DataFrame) (post : list (Jira.Path * DataFrame)) (e : exn) :
  snd (Jira.transform (fst f) (snd f)) = Raise e ->
  View.diagnostics (pre ++ f :: post) = View.diagnostics (pre ++ [f]).
Proof.
  intros Hf. induction pre as [|[p sheet] pre IH]; cbn [app View.diagnostics].
  - destruct f as [p sheet]. cbn [fst snd] in Hf. now rewrite Hf.
  - now rewrite IH.
Qed.

Lemma main_log (files : list (Jira.Path * DataFrame)) :
  Jira.log_file (fst (Jira.main files))
  = Some (String.concat "" (map Jira.log_record (View.diagnostics files))).
Proof.
  pose proof (loop_log files "") as L. unfold Jira.main.
  destruct (Jira.loop files "") as [log r]. cbn [fst] in L. subst log.
  destruct (dfs <- r;; concat dfs); reflexivity.
Qed.

Lemma main_snd (files : list (Jira.Path * DataFrame)) :
  snd (Jira.main files) =
  (dfs <- Jira.mapM (fun f => snd (Jira.transform (fst f) (snd f))) files;;
   final <- concat dfs;;
   Ok tt).
Proof.
  rewrite <- (loop_snd files ""). unfold Jira.main.
  destruct (Jira.loop files "") as [log r]. cbn [snd].
  destruct r as [dfs|e]; cbn [bind]; [|reflexivity].
  destruct (concat dfs); reflexivity.
Qed.

Lemma main_csv_none (files : list (Jira.Path * DataFrame)) (e : exn) :
  snd (Jira.main files) = Raise e ->
  Jira.csv_file (fst (Jira.main files)) = None.
Proof.
  unfold Jira.main. destruct (Jira.loop files "") as [log r].
  destruct (dfs <- r;; concat dfs); [discriminate | reflexivity].
Qed.

(** X8. A run of [main] is all or nothing.  It succeeds exactly when there
    is at least one department file and every file passes the four stages;
    with no file at all it raises the [ValueError] of [pd.concat]; and when
    some file fails, it raises the exception of the first such file, writes
    no CSV even though earlier files were transformed, and logs nothing
    about the files after it. *)
Theorem main_all_or_nothing (files : list (Jira.Path * DataFrame)) :
  (snd (Jira.main files) = Ok tt
   <-> files <> []
       /\ Forall (fun f => exists t, snd (Jira.transform (fst f) (snd f)) = Ok t)
                 files)
  /\ (files = [] ->
      Jira.main files = (Jira.mkOutputs None (Some ""), Raise ValueError))
  /\ (forall pre f post e,
         files = (pre ++ f :: post)%list ->
         Forall (fun f => exists t, snd (Jira.transform (fst f) (snd f)) = Ok t)
                pre ->
         snd (Jira.transform (fst f) (snd f)) = Raise e ->
         Jira.main files
         = (Jira.mkOutputs None
              (Some (String.concat ""
                       (map Jira.log_record (View.diagnostics (pre ++ [f]))))),
            Raise e)).
Proof.
  split; [|split].
  - split.
    + intros H. destruct (Jira.main files) as [out r] eqn:M. cbn [snd] in H.
      subst r. apply main_ok in M as (dfs & Hne & F & _). split.
      * intros ->. inversion F. congruence.
      * clear - F. induction F; constructor; eauto.
    + intros [Hne H]. rewrite main_snd.
      destruct (mapM_all _ _ H) as (dfs & E & F). rewrite E. cbn [bind].
      destruct dfs as [|df dfs]; [inversion F; congruence|].
      rewrite concat_final; [reflexivity|].
      now apply (transformed_labels files).
  - intros ->. reflexivity.
  - intros pre f post e -> Hpre Hf.
    pose proof (main_log (pre ++ f :: post)) as L.
    assert (S : snd (Jira.main (pre ++ f :: post)) = Raise e).
    { rewrite main_snd.
      now rewrite (mapM_first_failure _ pre f post e Hpre Hf). }
    pose proof (main_csv_none _ _ S) as C.
    rewrite (diagnostics_first_failure pre f post e Hf) in L.
    destruct (Jira.main (pre ++ f :: post)) as [[csv log] r].
    cbn [fst snd Jira.csv_file Jira.log_file] in *. now subst.
Qed.

Lemma main_all_or_nothing_witness :
  Jira.main
    [(Jira.mkPath "Cards" "Cards" ".xlsx",
      mkFrame 1 [("Date/Period", mkSeries Object [CStr "01/Jan/24 - 07/Jan/24 (Week #1)"]);
                 ("Lead Time", mkSeries Object [CStr "1d 2h"])]);
     (Jira.mkPath "Loans" "Loans" ".xlsx",
      mkFrame 1 [("Lead Time", mkSeries Object [CStr "3h"])]);
     (Jira.mkPath "Risk" "Risk" ".xlsx",
      mkFrame 1 [("Date/Period", mkSeries Object [CStr "01/Jan/24 - 07/Jan/24 (Week #1)"])])]
  = (Jira.mkOutputs None
       (Some (String.concat ""
                (map Jira.log_record
                   (View.diagnostics
                      ([(Jira.mkPath "Cards" "Cards" ".xlsx",
                         mkFrame 1 [("Date/Period", mkSeries Object [CStr "01/Jan/24 - 07/Jan/24 (Week #1)"]);
                                    ("Lead Time", mkSeries Object [CStr "1d 2h"])])]
                         ++ [(Jira.mkPath "Loans" "Loans" ".xlsx",
                              mkFrame 1 [("Lead Time", mkSeries Object [CStr "3h"])])]))))),
     Raise AttributeError).
Proof.
  apply (proj2 (proj2 (main_all_or_nothing _))
           [(Jira.mkPath "Cards" "Cards" ".xlsx",
             mkFrame 1 [("Date/Period", mkSeries Object [CStr "01/Jan/24 - 07/Jan/24 (Week #1)"]);
                        ("Lead Time", mkSeries Object [CStr "1d 2h"])])]
           (Jira.mkPath "Loans" "Loans" ".xlsx",
            mkFrame 1 [("Lead Time", mkSeries Object [CStr "3h"])])
           [(Jira.mkPath "Risk" "Risk" ".xlsx",
             mkFrame 1 [("Date/Period", mkSeries Object [CStr "01/Jan/24 - 07/Jan/24 (Week #1)"])])]).
  - reflexivity.
  - constructor; [|constructor]. eexists. vm_compute. reflexivity.
  - vm_compute. reflexivity.
Defined.

(* ------------------------------------------------------------------ *)
(** ** The two variants *)

Lemma dashboard_preprocess_columns (sheet : DataFrame) (logs filepath : string)
      (p : Jira.Path) :
  JiraDashboard.preprocess_columns sheet logs filepath
  = snd (Jira.preprocess_columns sheet p).
Proof.
  unfold JiraDashboard.preprocess_columns, JiraDashboard.preprocess_columns_body,
    Jira.preprocess_columns.
  destruct (Jira.kept_columns sheet); reflexivity.
Qed.

Lemma dashboard_loop (files : list (Jira.Path * DataFrame))
      (files' : list (string * DataFrame)) (logs : string) :
  Forall2
    (fun f g =>
       snd f = snd g /\ Jira.stem (fst f) = Discovery.department_name (fst g))
    files files' ->
  JiraDashboard.loop files' logs =
  Jira.mapM (fun f => snd (Jira.transform (fst f) (snd f))) files.
Proof.
  induction 1 as [|[p sheet] [filepath sheet'] files files' [S N] _ IH];
    cbn [JiraDashboard.loop Jira.mapM fst snd]; [reflexivity|].
  cbn [fst snd] in S, N. subst sheet'.
  rewrite transform_snd, IH, <- N.
  rewrite (dashboard_preprocess_columns sheet logs filepath p).
  destruct (snd (Jira.preprocess_columns sheet p)) as [d1|e]; cbn [bind];
    [|reflexivity].
  destruct (Jira.convert_time_cols d1 Jira.time_columns) as [d2|e]; cbn [bind];
    [|reflexivity].
  destruct (Jira.split_date_col d2) as [d3|e]; cbn [bind]; [|reflexivity].
  destruct (insert0 d3 "Department Name" (Jira.stem p)); reflexivity.
Qed.

(** X9. The two variants of the script write the same CSV: over the same
    sheets, in the same order, under files whose department names agree --
    [filepath.stem] in [src/main_jira.py],
    [os.path.splitext(os.path.basename(filepath))[0]] in
    [src/jira_exports_dashboard/main_jira.py] -- they succeed or fail
    alike, with the same exception, and on success the frames they write are
    equal.  They differ in the log file only. *)
Theorem dashboard_main_same_csv
        (files : list (Jira.Path * DataFrame))
        (files' : list (string * DataFrame)) :
  Forall2
    (fun f g =>
       snd f = snd g /\ Jira.stem (fst f) = Discovery.department_name (fst g))
    files files' ->
  snd (JiraDashboard.main files') = snd (Jira.main files)
  /\ Jira.csv_file (fst (JiraDashboard.main files'))
     = Jira.csv_file (fst (Jira.main files)).
Proof.
  intros F. pose proof (loop_snd files "") as L.
  unfold JiraDashboard.main, Jira.main. rewrite (dashboard_loop files files' "" F).
  destruct (Jira.loop files "") as [log r]. cbn [snd] in L. subst r.
  destruct (dfs <- Jira.mapM _ files;; concat dfs); split; reflexivity.
Qed.

Lemma dashboard_main_same_csv_witness :
  snd (JiraDashboard.main
         [("data/Cards/Cards.xlsx",
           mkFrame 1 [("Date/Period",
                       mkSeries Object [CStr "01/Jan/24 - 07/Jan/24 (Week #1)"]);
                      ("Lead Time", mkSeries Object [CStr "1d 2h"])])])
  = snd (Jira.main
           [(Jira.mkPath "Cards" "Cards" ".xlsx",
             mkFrame 1 [("Date/Period",
                         mkSeries Object [CStr "01/Jan/24 - 07/Jan/24 (Week #1)"]);
                        ("Lead Time", mkSeries Object [CStr "1d 2h"])])])
  /\ Jira.csv_file
       (fst (JiraDashboard.main
               [("data/Cards/Cards.xlsx",
                 mkFrame 1 [("Date/Period",
                             mkSeries Object [CStr "01/Jan/24 - 07/Jan/24 (Week #1)"]);
                            ("Lead Time", mkSeries Object [CStr "1d 2h"])])]))
     = Jira.csv_file
         (fst (Jira.main
                 [(Jira.mkPath "Cards" "Cards" ".xlsx",
                   mkFrame 1 [("Date/Period",
                               mkSeries Object [CStr "01/Jan/24 - 07/Jan/24 (Week #1)"]);
                              ("Lead Time", mkSeries Object [CStr "1d 2h"])])])).
Proof.
  apply (dashboard_main_same_csv
           [(Jira.mkPath "Cards" "Cards" ".xlsx",
             mkFrame 1 [("Date/Period",
                         mkSeries Object [CStr "01/Jan/24 - 07/Jan/24 (Week #1)"]);
                        ("Lead Time", mkSeries Object [CStr "1d 2h"])])]
           [("data/Cards/Cards.xlsx",
             mkFrame 1 [("Date/Period",
                         mkSeries Object [CStr "01/Jan/24 - 07/Jan/24 (Week #1)"]);
                        ("Lead Time", mkSeries Object [CStr "1d 2h"])])]).
  constructor; [|constructor]. split; reflexivity.
Defined.

(* ------------------------------------------------------------------ *)
(** ** [os.path] *)

Lemma take_drop (i : nat) (s : string) : (Os.take i s ++ Os.drop i s)%string = s.
Proof.
  revert s. induction i as [|i IH]; intros [|x s]; simpl; try reflexivity.
  now rewrite IH.
Qed.

Lemma take_app (a b : string) : Os.take (String.length a) (a ++ b) = a.
Proof.
  induction a as [|x a IH]; simpl; [now destruct b | now rewrite IH].
Qed.

Lemma drop_app (a b : string) : Os.drop (String.length a) (a ++ b) = b.
Proof.
  induction a as [|x a IH]; simpl; [now destruct b | exact IH].
Qed.

Lemma rfind_app_absent (c : ascii) (a b : string) :
  Os.rfind c a = None -> Os.rfind c b = None -> Os.rfind c (a ++ b) = None.
Proof.
  intros Ha Hb. induction a as [|x a IH]; simpl in *; [exact Hb|].
  destruct (Os.rfind c a); [discriminate|].
  destruct (Ascii.eqb x c); [discriminate|]. now rewrite IH.
Qed.

(** The last occurrence, when nothing follows it. *)
Lemma rfind_app_last (c : ascii) (a b : string) :
  Os.rfind c b = None ->
  Os.rfind c (a ++ String c b) = Some (String.length a).
Proof.
  intros Hb. induction a as [|x a IH]; simpl.
  - now rewrite Hb, Ascii.eqb_refl.
  - now rewrite IH.
Qed.

Lemma basename_no_sep (p : string) : Os.rfind "/" (Os.basename p) = None.
Proof.
  unfold Os.basename. induction p as [|x p IH]; [reflexivity|].
  simpl. destruct (Os.rfind "/" p) as [i|] eqn:E.
  - exact IH.
  - destruct (Ascii.eqb x "/") eqn:X; simpl.
    + exact E.
    + now rewrite E, X.
Qed.

Lemma no_sep_startswith (s : string) :
  Os.rfind "/" s = None -> PyStr.startswith "/" s = false.
Proof.
  destruct s as [|x s]; [reflexivity|]. cbn [PyStr.startswith Os.rfind].
  destruct (Os.rfind "/" s); [discriminate|].
  rewrite (Ascii.eqb_sym "/" x).
  destruct (Ascii.eqb x "/"); [discriminate|reflexivity].
Qed.

Lemma ends_with_sep_app (a : string) :
  Os.ends_with_sep a = true -> exists a', a = (a' ++ "/")%string.
Proof.
  induction a as [|x a IH]; [discriminate|]. simpl.
  destruct a as [|y a].
  - intros H. apply Ascii.eqb_eq in H. subst. now exists "".
  - intros H. destruct (IH H) as [a' E]. exists (String x a'). simpl. now rewrite <- E.
Qed.

Lemma basename_plain (s : string) : Os.rfind "/" s = None -> Os.basename s = s.
Proof. unfold Os.basename. now intros ->. Qed.

Lemma basename_after_sep (a file : string) :
  Os.rfind "/" file = None -> Os.basename (a ++ String "/" file) = file.
Proof.
  intros H. unfold Os.basename. rewrite (rfind_app_last "/" a file H).
  replace (a ++ String "/" file)%string with ((a ++ "/") ++ file)%string
    by (rewrite append_assoc; reflexivity).
  replace (S (String.length a)) with (String.length (a ++ "/"))
    by (rewrite length_append; simpl; lia).
  apply drop_app.
Qed.

(** Round trip: the base name of a joined path is the name that was
    joined. *)
Lemma basename_join (a file : string) :
  Os.rfind "/" file = None -> Os.basename (Os.join a file) = file.
Proof.
  intros H. unfold Os.join. rewrite (no_sep_startswith _ H).
  destruct (String.eqb_spec a "") as [->|_]; cbn [orb].
  - now apply basename_plain.
  - destruct (Os.ends_with_sep a) eqn:E.
    + destruct (ends_with_sep_app _ E) as [a' ->].
      rewrite append_assoc. cbn [append]. apply basename_after_sep, H.
    + cbn [append]. apply basename_after_sep, H.
Qed.

Lemma splitext_append (p : string) :
  (fst (Os.splitext p) ++ snd (Os.splitext p))%string = p.
Proof.
  assert (R : forall a, (a ++ "")%string = a)
    by (induction a as [|c a IH]; simpl; [reflexivity | now rewrite IH]).
  unfold Os.splitext.
  destruct (Os.rfind "." p) as [dotIndex|]; [|apply R].
  destruct (_ <=? dotIndex); [|apply R].
  destruct (Os.all_dots _); [apply R | apply take_drop].
Qed.

(** The extension of [b.xlsx] is split off exactly when [b], free of
    separators, has a character other than the dot. *)
Lemma splitext_xlsx (b : string) :
  Os.rfind "/" b = None ->
  Os.splitext (b ++ ".xlsx") =
  if Os.all_dots b then ((b ++ ".xlsx")%string, "") else (b, ".xlsx").
Proof.
  intros H. unfold Os.splitext.
  rewrite (rfind_app_absent "/" b ".xlsx" H eq_refl).
  change (b ++ ".xlsx")%string with (b ++ String "." "xlsx")%string.
  rewrite (rfind_app_last "." b "xlsx" eq_refl).
  cbn [Nat.leb Os.drop]. rewrite Nat.sub_0_r.
  destruct (b ++ String "." "xlsx")%string eqn:E.
  - destruct b; discriminate.
  - rewrite <- E. rewrite take_app, drop_app. reflexivity.
Qed.

Lemma is_department_file_spec (dirpath file : string) :
  Discovery.is_department_file dirpath file = true <->
  file = (Os.basename dirpath ++ ".xlsx")%string
  /\ Discovery.plain_name (Os.basename dirpath) = true.
Proof.
  unfold Discovery.is_department_file, Discovery.plain_name. split.
  - pose proof (splitext_append file) as R.
    destruct (Os.splitext file) as [root ext] eqn:S. cbn [fst snd] in R.
    intros H. apply andb_true_iff in H as [H1 H2].
    apply String.eqb_eq in H1, H2. subst root ext.
    split; [now symmetry|].
    rewrite <- R, (splitext_xlsx _ (basename_no_sep dirpath)) in S.
    destruct (Os.all_dots (Os.basename dirpath)); [discriminate S|reflexivity].
  - intros [-> P]. rewrite (splitext_xlsx _ (basename_no_sep dirpath)).
    apply negb_true_iff in P. rewrite P.
    now rewrite !String.eqb_refl.
Qed.

Lemma xlsx_no_sep (b : string) :
  Os.rfind "/" b = None -> Os.rfind "/" (b ++ ".xlsx") = None.
Proof. intros H. now apply rfind_app_absent. Qed.

Lemma department_name_join (dirpath : string) :
  Discovery.plain_name (Os.basename dirpath) = true ->
  Discovery.department_name (Os.join dirpath (Os.basename dirpath ++ ".xlsx"))
  = Os.basename dirpath.
Proof.
  intros P. unfold Discovery.department_name.
  rewrite basename_join by (apply xlsx_no_sep, basename_no_sep).
  rewrite (splitext_xlsx _ (basename_no_sep dirpath)).
  unfold Discovery.plain_name in P. apply negb_true_iff in P. now rewrite P.
Qed.

(* ------------------------------------------------------------------ *)
(** ** [get_excel_filepaths] *)

Lemma in_get_excel_filepaths {A : Type} (top : string) (d : Os.Dir A)
      (p : string) :
  In p (Discovery.get_excel_filepaths top d) <->
  exists dirpath dirs files file,
    In (dirpath, dirs, files) (Os.walk top d)
    /\ In file (map fst files)
    /\ Discovery.is_department_file dirpath file = true
    /\ p = Os.join dirpath file.
Proof.
  unfold Discovery.get_excel_filepaths. rewrite in_flat_map. split.
  - intros ([[dirpath dirs] files] & Hw & Hp).
    apply in_flat_map in Hp as ([file a] & Hf & Hp). cbn [fst] in Hp.
    destruct (Discovery.is_department_file dirpath file) eqn:T; [|destruct Hp].
    destruct Hp as [<-|[]]. exists dirpath, dirs, files, file.
    repeat split; try assumption. now apply (in_map fst) in Hf.
  - intros (dirpath & dirs & files & file & Hw & Hf & T & ->).
    exists (dirpath, dirs, files). split; [exact Hw|].
    apply in_map_iff in Hf as ([f a] & <- & Hf). cbn [fst] in *.
    apply in_flat_map. exists (f, a). split; [exact Hf|]. cbn [fst].
    rewrite T. now left.
Qed.

(** X10. Every path that [get_excel_filepaths] returns is the file
    [<name>.xlsx] of a directory of the tree whose own name is [<name>], a
    name that has a character other than the dot; and the department name
    that the main block computes from the path is the name of that
    directory. *)
Theorem get_excel_filepaths_sound {A : Type}
        (dir_to_search : string) (d : Os.Dir A) (filepath : string) :
  In filepath (Discovery.get_excel_filepaths dir_to_search d) ->
  exists dirpath dirs files,
    In (dirpath, dirs, files) (Os.walk dir_to_search d)
    /\ In (Os.basename dirpath ++ ".xlsx")%string (map fst files)
    /\ filepath = Os.join dirpath (Os.basename dirpath ++ ".xlsx")
    /\ Discovery.plain_name (Os.basename dirpath) = true
    /\ Os.basename filepath = (Os.basename dirpath ++ ".xlsx")%string
    /\ Discovery.department_name filepath = Os.basename dirpath.
Proof.
  intros H. apply in_get_excel_filepaths in H
    as (dirpath & dirs & files & file & Hw & Hf & T & ->).
  apply is_department_file_spec in T as [-> P].
  exists dirpath, dirs, files. repeat split; try assumption.
  - apply basename_join, xlsx_no_sep, basename_no_sep.
  - now apply department_name_join.
Qed.

Lemma get_excel_filepaths_sound_witness :
  exists dirpath dirs files,
    In (dirpath, dirs, files)
       (Os.walk "/data"
          (Os.mkDir [("notes.txt", 0)]
             (Os.FCons "Cards" (Os.mkDir [("Cards.xlsx", 1); ("old.xlsx", 2)] Os.FNil)
                Os.FNil)))
    /\ In (Os.basename dirpath ++ ".xlsx")%string (map fst files)
    /\ "/data/Cards/Cards.xlsx" = Os.join dirpath (Os.basename dirpath ++ ".xlsx")
    /\ Discovery.plain_name (Os.basename dirpath) = true
    /\ Os.basename "/data/Cards/Cards.xlsx" = (Os.basename dirpath ++ ".xlsx")%string
    /\ Discovery.department_name "/data/Cards/Cards.xlsx" = Os.basename dirpath.
Proof.
  apply (get_excel_filepaths_sound "/data"
           (Os.mkDir [("notes.txt", 0)]
              (Os.FCons "Cards" (Os.mkDir [("Cards.xlsx", 1); ("old.xlsx", 2)] Os.FNil)
                 Os.FNil))).
  vm_compute. tauto.
Defined.

(** X11. [get_excel_filepaths] finds the file [<name>.xlsx] of every
    directory of the tree named [<name>], the directory searched included,
    provided that [<name>] has a character other than the dot; a directory
    whose name consists of dots, or is empty, contributes no path at all,
    whatever it holds. *)
Theorem get_excel_filepaths_complete {A : Type}
        (dir_to_search : string) (d : Os.Dir A)
        (dirpath : string) (dirs : list string) (files : list (string * A)) :
  In (dirpath, dirs, files) (Os.walk dir_to_search d) ->
  (Discovery.plain_name (Os.basename dirpath) = true ->
   In (Os.basename dirpath ++ ".xlsx")%string (map fst files) ->
   In (Os.join dirpath (Os.basename dirpath ++ ".xlsx"))
      (Discovery.get_excel_filepaths dir_to_search d))
  /\ (Discovery.plain_name (Os.basename dirpath) = false ->
      forall file,
        In file (map fst files) ->
        Discovery.is_department_file dirpath file = false).
Proof.
  intros Hw. split.
  - intros P Hf. apply in_get_excel_filepaths.
    exists dirpath, dirs, files, (Os.basename dirpath ++ ".xlsx")%string.
    repeat split; try assumption. now apply is_department_file_spec.
  - intros P file _. apply not_true_is_false. intros T.
    apply is_department_file_spec in T as [_ T]. congruence.
Qed.

Lemma get_excel_filepaths_complete_witness :
  (Discovery.plain_name (Os.basename "/data/Cards") = true ->
   In (Os.basename "/data/Cards" ++ ".xlsx")%string
      (map fst [("Cards.xlsx", 1); ("old.xlsx", 2)]) ->
   In (Os.join "/data/Cards" (Os.basename "/data/Cards" ++ ".xlsx"))
      (Discovery.get_excel_filepaths "/data"
         (Os.mkDir [("notes.txt", 0)]
            (Os.FCons "Cards" (Os.mkDir [("Cards.xlsx", 1); ("old.xlsx", 2)] Os.FNil)
               Os.FNil))))
  /\ (Discovery.plain_name (Os.basename "/data/Cards") = false ->
      forall file,
        In file (map fst [("Cards.xlsx", 1); ("old.xlsx", 2)]) ->
        Discovery.is_department_file "/data/Cards" file = false).
Proof.
  apply (get_excel_filepaths_complete "/data"
           (Os.mkDir [("notes.txt", 0)]
              (Os.FCons "Cards" (Os.mkDir [("Cards.xlsx", 1); ("old.xlsx", 2)] Os.FNil)
                 Os.FNil))
           "/data/Cards" [] [("Cards.xlsx", 1); ("old.xlsx", 2)]).
  vm_compute. tauto.
Defined.

(* ------------------------------------------------------------------ *)
(** ** [rename_excel_files] *)

Lemma rename_avg_cases {A : Type} (dirpath : string)
      (files files' : list (string * A)) (dirs : list string) :
  Discovery.rename_avg dirpath files dirs = inl files' ->
  (files' = files
   /\ (PyStr.mem "AVG.xlsx" (map fst files) = false
       \/ Os.basename dirpath = "AVG"))
  \/ (PyStr.mem "AVG.xlsx" (map fst files) = true
      /\ String.eqb "AVG.xlsx" (Os.basename dirpath ++ ".xlsx") = false
      /\ files' =
         map (fun f => if String.eqb (fst f) "AVG.xlsx"
                       then ((Os.basename dirpath ++ ".xlsx")%string, snd f)
                       else f)
             (filter (fun f => negb (String.eqb (fst f)
                                       (Os.basename dirpath ++ ".xlsx")))
                     files)).
Proof.
  unfold Discovery.rename_avg, Os.rename.
  destruct (PyStr.mem "AVG.xlsx" (map fst files)) eqn:M.
  - destruct (String.eqb_spec "AVG.xlsx" (Os.basename dirpath ++ ".xlsx")) as [E|_].
    + intros [= <-]. left. split; [reflexivity|]. right.
      assert (R : forall a b, (a ++ ".xlsx" = b ++ ".xlsx")%string -> a = b).
      { clear. intros a b H.
        assert (L : String.length a = String.length b).
        { apply (f_equal String.length) in H. rewrite !length_append in H. lia. }
        rewrite <- (take_app a ".xlsx"), <- (take_app b ".xlsx"), L. now rewrite H. }
      symmetry. now apply R.
    + destruct (PyStr.mem _ dirs); [discriminate|].
      intros [= <-]. right. auto.
  - intros [= <-]. left. auto.
Qed.

Lemma renamed_names {A : Type} (dst : string) (files : list (string * A)) :
  String.eqb "AVG.xlsx" dst = false ->
  PyStr.mem "AVG.xlsx"
    (map fst
       (map (fun f => if String.eqb (fst f) "AVG.xlsx" then (dst, snd f) else f)
            (filter (fun f => negb (String.eqb (fst f) dst)) files))) = false.
Proof.
  intros Hne. induction files as [|[k a] files IH]; [reflexivity|].
  cbn [filter fst]. destruct (String.eqb k dst); cbn [negb]; [exact IH|].
  cbn [map fst snd]. rewrite mem_cons, IH, orb_false_r.
  destruct (String.eqb_spec k "AVG.xlsx") as [->|Hk]; cbn [fst].
  - exact Hne.
  - apply String.eqb_neq. congruence.
Qed.

Lemma rename_avg_again {A : Type} (dirpath : string)
      (files files' : list (string * A)) (dirs : list string) :
  Discovery.rename_avg dirpath files dirs = inl files' ->
  Discovery.rename_avg dirpath files' dirs = inl files'.
Proof.
  intros H. pose proof H as C. apply rename_avg_cases in C as [[-> _]|(M & Hne & ->)].
  - exact H.
  - unfold Discovery.rename_avg. now rewrite renamed_names.
Qed.

(** The walk over the tree after [rename_excel_files] shows the same
    directories, each with the files that the loop body left in it. *)
Lemma walk_renamed {A : Type} :
  forall (d : Os.Dir A) top d',
    Discovery.rename_excel_files top d = inl d' ->
    Forall2 (fun e e' =>
               fst e' = fst e
               /\ Discovery.rename_avg (fst (fst e)) (snd e) (snd (fst e))
                  = inl (snd e'))
            (Os.walk top d) (Os.walk top d').
Proof.
  apply (Os.Dir_mut A
           (fun d =>
              forall top d',
                Discovery.rename_excel_files top d = inl d' ->
                Forall2 (fun e e' =>
                           fst e' = fst e
                           /\ Discovery.rename_avg (fst (fst e)) (snd e)
                                (snd (fst e)) = inl (snd e'))
                        (Os.walk top d) (Os.walk top d'))
           (fun f =>
              forall top f',
                Discovery.rename_forest top f = inl f' ->
                Os.names f' = Os.names f
                /\ Forall2 (fun e e' =>
                              fst e' = fst e
                              /\ Discovery.rename_avg (fst (fst e)) (snd e)
                                   (snd (fst e)) = inl (snd e'))
                           (Os.walk_forest top f) (Os.walk_forest top f'))).
  - intros files subdirs IH top d'. cbn [Discovery.rename_excel_files].
    destruct (Discovery.rename_avg top files (Os.names subdirs)) as [files'|e] eqn:R;
      [|discriminate].
    destruct (Discovery.rename_forest top subdirs) as [subdirs'|e] eqn:F;
      [|discriminate].
    intros [= <-]. destruct (IH _ _ F) as [N W]. cbn [Os.walk].
    constructor; [|exact W]. cbn [fst snd]. now rewrite N.
  - intros top f' [= <-]. split; [reflexivity | constructor].
  - intros name d IHd rest IHrest top f'. cbn [Discovery.rename_forest].
    destruct (Discovery.rename_excel_files (Os.join top name) d) as [d'|e] eqn:R;
      [|discriminate].
    destruct (Discovery.rename_forest top rest) as [rest'|e] eqn:F; [|discriminate].
    intros [= <-]. destruct (IHrest _ _ F) as [N W]. cbn [Os.names Os.walk_forest].
    split; [now rewrite N|]. apply Forall2_app; [now apply IHd | exact W].
Qed.

Lemma rename_excel_files_again {A : Type} :
  forall (d : Os.Dir A) top d',
    Discovery.rename_excel_files top d = inl d' ->
    Discovery.rename_excel_files top d' = inl d'.
Proof.
  apply (Os.Dir_mut A
           (fun d =>
              forall top d',
                Discovery.rename_excel_files top d = inl d' ->
                Discovery.rename_excel_files top d' = inl d')
           (fun f =>
              forall top f',
                Discovery.rename_forest top f = inl f' ->
                Os.names f' = Os.names f
                /\ Discovery.rename_forest top f' = inl f')).
  - intros files subdirs IH top d'. cbn [Discovery.rename_excel_files].
    destruct (Discovery.rename_avg top files (Os.names subdirs)) as [files'|e] eqn:R;
      [|discriminate].
    destruct (Discovery.rename_forest top subdirs) as [subdirs'|e] eqn:F;
      [|discriminate].
    intros [= <-]. destruct (IH _ _ F) as [N W].
    cbn [Discovery.rename_excel_files]. rewrite N, (rename_avg_again _ _ _ _ R).
    now rewrite W.
  - intros top f' [= <-]. split; reflexivity.
  - intros name d IHd rest IHrest top f'. cbn [Discovery.rename_forest].
    destruct (Discovery.rename_excel_files (Os.join top name) d) as [d'|e] eqn:R;
      [|discriminate].
    destruct (Discovery.rename_forest top rest) as [rest'|e] eqn:F; [|discriminate].
    intros [= <-]. destruct (IHrest _ _ F) as [N W].
    cbn [Os.names Discovery.rename_forest].
    split; [now rewrite N|]. now rewrite (IHd _ _ R), W.
Qed.

Lemma Forall2_in_left {A B : Type} (R : A -> B -> Prop) (xs : list A)
      (ys : list B) (x : A) :
  Forall2 R xs ys -> In x xs -> exists y, In y ys /\ R x y.
Proof.
  induction 1 as [|a b xs ys Hab _ IH]; [intros []|].
  intros [<-|H].
  - exists b. split; [now left | exact Hab].
  - destruct (IH H) as (y & Hy & Hr). exists y. split; [now right | exact Hr].
Qed.

(** X12. After a successful [rename_excel_files], every directory of the
    tree that held a file [AVG.xlsx] holds that file's content under the
    name [<directory>.xlsx], and under no other content: a file that was
    there under that name before is replaced.  When the directory's name has
    a character other than the dot, [get_excel_filepaths] then returns that
    file.  The directories keep their names, and a directory without a file
    [AVG.xlsx] keeps its files as they were. *)
Theorem rename_excel_files_then_discover {A : Type}
        (dir_to_search : string) (d d' : Os.Dir A)
        (dirpath : string) (dirs : list string) (files : list (string * A)) :
  Discovery.rename_excel_files dir_to_search d = inl d' ->
  In (dirpath, dirs, files) (Os.walk dir_to_search d) ->
  exists files',
    In (dirpath, dirs, files') (Os.walk dir_to_search d')
    /\ (PyStr.mem "AVG.xlsx" (map fst files) = false -> files' = files)
    /\ forall a,
        In ("AVG.xlsx", a) files ->
        NoDup (map fst files) ->
        In ((Os.basename dirpath ++ ".xlsx")%string, a) files'
        /\ (forall a', In ((Os.basename dirpath ++ ".xlsx")%string, a') files' ->
                       a' = a)
        /\ (Discovery.plain_name (Os.basename dirpath) = true ->
            In (Os.join dirpath (Os.basename dirpath ++ ".xlsx"))
               (Discovery.get_excel_filepaths dir_to_search d')).
Proof.
  intros Hr Hw.
  destruct (Forall2_in_left _ _ _ _ (walk_renamed d _ _ Hr) Hw)
    as ([[dp ds] files'] & Hw' & E & R).
  cbn [fst snd] in E, R. injection E as -> ->.
  exists files'. split; [exact Hw'|]. split.
  { intros M. unfold Discovery.rename_avg in R. rewrite M in R. now injection R. }
  intros a Ha Hnd.
  assert (U : forall k x y, In (k, x) files -> In (k, y) files -> x = y).
  { clear - Hnd. induction files as [|[k0 a0] files IH]; [intros k x y []|].
    cbn [map fst] in Hnd. inversion Hnd as [|? ? Hnot Hnd']; subst.
    intros k x y [Ex|Hx] [Ey|Hy].
    - congruence.
    - exfalso. apply Hnot. apply (in_map fst) in Hy. cbn [fst] in Hy. congruence.
    - exfalso. apply Hnot. apply (in_map fst) in Hx. cbn [fst] in Hx. congruence.
    - eapply IH; eassumption. }
  assert (K : In ((Os.basename dirpath ++ ".xlsx")%string, a) files'
              /\ forall a', In ((Os.basename dirpath ++ ".xlsx")%string, a') files' ->
                            a' = a).
  { apply rename_avg_cases in R as [[-> [M|B]]|(M & Hne & ->)].
    - exfalso. assert (PyStr.mem "AVG.xlsx" (map fst files) = true).
      { apply mem_In. now apply (in_map fst) in Ha. }
      congruence.
    - rewrite B. cbn [append]. split; [exact Ha|]. intros a' Ha'.
      now apply (U "AVG.xlsx").
    - split.
      + apply in_map_iff. exists ("AVG.xlsx", a). cbn [fst snd].
        rewrite String.eqb_refl. split; [reflexivity|].
        apply filter_In. cbn [fst]. now rewrite Hne.
      + intros a' Ha'. apply in_map_iff in Ha' as ([k x] & Ek & Hk).
        apply filter_In in Hk as [Hk Hf]. cbn [fst snd] in *.
        destruct (String.eqb_spec k "AVG.xlsx") as [->|Hk'].
        * injection Ek as <-. now apply (U "AVG.xlsx").
        * injection Ek as -> ->. rewrite String.eqb_refl in Hf. discriminate Hf. }
  destruct K as [K1 K2]. split; [exact K1|]. split; [exact K2|].
  intros P. apply in_get_excel_filepaths.
  exists dirpath, dirs, files', (Os.basename dirpath ++ ".xlsx")%string.
  repeat split; try assumption.
  - now apply (in_map fst) in K1.
  - now apply is_department_file_spec.
Qed.

Lemma rename_excel_files_then_discover_witness :
  exists files',
    In ("/data/Cards", [], files')
       (Os.walk "/data"
          (Os.mkDir [("notes.txt", 0)]
             (Os.FCons "Cards"
                (Os.mkDir [("old.xlsx", 2); ("Cards.xlsx", 7)] Os.FNil)
                Os.FNil)))
    /\ (PyStr.mem "AVG.xlsx" (map fst [("Cards.xlsx", 1); ("old.xlsx", 2); ("AVG.xlsx", 7)])
        = false ->
        files' = [("Cards.xlsx", 1); ("old.xlsx", 2); ("AVG.xlsx", 7)])
    /\ forall a,
        In ("AVG.xlsx", a) [("Cards.xlsx", 1); ("old.xlsx", 2); ("AVG.xlsx", 7)] ->
        NoDup (map fst [("Cards.xlsx", 1); ("old.xlsx", 2); ("AVG.xlsx", 7)]) ->
        In ((Os.basename "/data/Cards" ++ ".xlsx")%string, a) files'
        /\ (forall a', In ((Os.basename "/data/Cards" ++ ".xlsx")%string, a') files' ->
                       a' = a)
        /\ (Discovery.plain_name (Os.basename "/data/Cards") = true ->
            In (Os.join "/data/Cards" (Os.basename "/data/Cards" ++ ".xlsx"))
               (Discovery.get_excel_filepaths "/data"
                  (Os.mkDir [("notes.txt", 0)]
                     (Os.FCons "Cards"
                        (Os.mkDir [("old.xlsx", 2); ("Cards.xlsx", 7)] Os.FNil)
                        Os.FNil)))).
Proof.
  apply (rename_excel_files_then_discover "/data"
           (Os.mkDir [("notes.txt", 0)]
              (Os.FCons "Cards"
                 (Os.mkDir [("Cards.xlsx", 1); ("old.xlsx", 2); ("AVG.xlsx", 7)] Os.FNil)
                 Os.FNil))).
  - vm_compute. reflexivity.
  - vm_compute. tauto.
Defined.

(** X13. [rename_excel_files] is idempotent: on the tree that a successful
    call left, a second call succeeds and changes nothing. *)
Theorem rename_excel_files_idempotent {A : Type}
        (dir_to_search : string) (d d' : Os.Dir A) :
  Discovery.rename_excel_files dir_to_search d = inl d' ->
  Discovery.rename_excel_files dir_to_search d' = inl d'.
Proof. apply rename_excel_files_again. Qed.

Lemma rename_excel_files_idempotent_witness :
  Discovery.rename_excel_files "/data"
    (Os.mkDir [("notes.txt", 0)]
       (Os.FCons "Cards" (Os.mkDir [("old.xlsx", 2); ("Cards.xlsx", 7)] Os.FNil)
          Os.FNil))
  = inl (Os.mkDir [("notes.txt", 0)]
           (Os.FCons "Cards" (Os.mkDir [("old.xlsx", 2); ("Cards.xlsx", 7)] Os.FNil)
              Os.FNil)).
Proof.
  apply (rename_excel_files_idempotent "/data"
           (Os.mkDir [("notes.txt", 0)]
              (Os.FCons "Cards"
                 (Os.mkDir [("Cards.xlsx", 1); ("old.xlsx", 2); ("AVG.xlsx", 7)] Os.FNil)
                 Os.FNil))).
  vm_compute. reflexivity.
Defined.

(* ------------------------------------------------------------------ *)
(** ** The date pattern of [split_date_col] *)

Section Bounded.
Context {R : Type} (p : ascii -> bool).

(** A run in the class whose length is within the bounds is taken whole
    when what follows it is outside the class and the continuation cannot
    start inside the class. *)
Lemma rep_bt_run (K : string -> option R) :
  (forall x t, p x = true -> K (String x t) = None) ->
  forall (a : string) (lo : nat) (hi : option nat) (rest : string),
    Scanner.all_in p a = true ->
    lo <= String.length a ->
    (forall h, hi = Some h -> String.length a <= h) ->
    (forall x t, rest = String x t -> p x = false) ->
    Re.rep_bt p lo hi (a ++ rest) K = K rest.
Proof.
  intros HK. induction a as [|c a IH]; intros lo hi rest Ha Hlo Hhi Hrest.
  - simpl in *. assert (lo = 0) as -> by lia.
    destruct rest as [|x t]; simpl; [reflexivity|].
    now rewrite (Hrest x t eq_refl).
  - simpl in Ha, Hlo. apply andb_true_iff in Ha as [Hc Ha].
    assert (M : Re.may_take hi = true).
    { destruct hi as [h|]; simpl; [|reflexivity].
      specialize (Hhi h eq_refl). simpl in Hhi. apply Nat.ltb_lt. lia. }
    change (String c a ++ rest)%string with (String c (a ++ rest)).
    cbn [Re.rep_bt]. rewrite Hc, M. cbn [andb].
    rewrite IH; try assumption; try lia.
    + destruct (K rest) eqn:E; [reflexivity|].
      destruct lo; cbn [Nat.eqb]; [|reflexivity]. now apply HK.
    + intros h Hh. destruct hi as [h0|]; [|discriminate].
      simpl in Hh. injection Hh as <-. specialize (Hhi h0 eq_refl).
      simpl in Hhi. lia.
Qed.

(** An exact count takes the run whatever follows. *)
Lemma rep_bt_times (K : string -> option R) (a rest : string) :
  Scanner.all_in p a = true ->
  Re.rep_bt p (String.length a) (Some (String.length a)) (a ++ rest) K = K rest.
Proof.
  induction a as [|c a IH]; intros Ha.
  - destruct rest as [|x t]; simpl; [reflexivity|].
    now rewrite andb_false_r.
  - simpl in Ha. apply andb_true_iff in Ha as [Hc Ha].
    change (String c a ++ rest)%string with (String c (a ++ rest)).
    cbn [Re.rep_bt String.length Re.may_take Nat.ltb Nat.leb Nat.pred option_map].
    rewrite Hc. cbn [andb]. rewrite (IH Ha).
    destruct (K rest); reflexivity.
Qed.

(** What a successful repetition has consumed. *)
Lemma rep_bt_inv (K : string -> option R) :
  forall (s : string) (lo : nat) (hi : option nat) (r : R),
    Re.rep_bt p lo hi s K = Some r ->
    exists a rest,
      s = (a ++ rest)%string
      /\ Scanner.all_in p a = true
      /\ lo <= String.length a
      /\ (forall h, hi = Some h -> String.length a <= h)
      /\ K rest = Some r.
Proof.
  assert (Z : forall (s : string) lo hi r,
             (if lo =? 0 then K s else None) = Some r ->
             exists a rest,
               s = (a ++ rest)%string
               /\ Scanner.all_in p a = true
               /\ lo <= String.length a
               /\ (forall h, hi = Some h -> String.length a <= h)
               /\ K rest = Some r).
  { intros s lo hi r H. destruct lo; [|discriminate].
    exists EmptyString, s. simpl. repeat split; auto; intros; lia. }
  induction s as [|c s IH]; intros lo hi r H; cbn [Re.rep_bt] in H.
  - now apply Z.
  - destruct (p c && Re.may_take hi) eqn:E; [|now apply Z].
    apply andb_true_iff in E as [Hc Hm].
    destruct (Re.rep_bt p (Nat.pred lo) (option_map Nat.pred hi) s K) as [r0|] eqn:E2;
      [|now apply Z].
    injection H as ->.
    apply IH in E2 as (a & rest & -> & Ha & Hlo & Hhi & HK).
    exists (String c a), rest. simpl. rewrite Hc, Ha.
    repeat split; [lia| |exact HK].
    intros h ->. simpl in Hm. apply Nat.ltb_lt in Hm.
    specialize (Hhi (Nat.pred h) eq_refl). lia.
Qed.
End Bounded.

Lemma search_inv (r : Re.regex) (s : string) (g : Re.groups) :
  Re.search r s = Some g ->
  exists pre t, s = (pre ++ t)%string /\ Re.match_here r t = Some g.
Proof.
  induction s as [|c s IH]; cbn [Re.search].
  - destruct (Re.match_here r "") eqn:E; [|discriminate].
    intros [= <-]. now exists EmptyString, EmptyString.
  - destruct (Re.match_here r (String c s)) eqn:E.
    + intros [= <-]. now exists EmptyString, (String c s).
    + intros H. apply IH in H as (pre & t & -> & H).
      now exists (String c pre), t.
Qed.

Lemma digit_not_slash (c : ascii) :
  PyStr.is_digit c = true -> Ascii.eqb "/" c = false.
Proof.
  intros H. destruct (Ascii.eqb_spec "/" c) as [<-|]; [discriminate | reflexivity].
Qed.

Lemma length_eqb (s : string) (n : nat) :
  (String.length s =? n) = true -> n = String.length s.
Proof. intros H. now apply Nat.eqb_eq in H. Qed.

(** A date is read whole, whatever follows it. *)
Lemma date_part_text {R : Type} (x : PeriodText.date) (rest : string)
      (g : Re.groups) (k : string -> Re.groups -> option R) :
  PeriodText.is_date x = true ->
  Re.bt Jira.date_part (PeriodText.date_text x ++ rest) g k = k rest g.
Proof.
  destruct x as [d w y]. unfold PeriodText.is_date, PeriodText.date_text.
  cbn [PeriodText.day PeriodText.month PeriodText.year].
  intros H. repeat (apply andb_true_iff in H as [H ?]).
  match goal with E : (String.length w =? 3) = true |- _ => apply length_eqb in E as Ew end.
  match goal with E : (String.length y =? 2) = true |- _ => apply length_eqb in E as Ey end.
  repeat match goal with E : (_ <=? _) = true |- _ => apply Nat.leb_le in E end.
  rewrite !append_assoc.
  change ("/" ++ w ++ "/" ++ y ++ rest)%string
    with (String "/" (w ++ String "/" (y ++ rest))).
  unfold Jira.date_part. cbn [Re.seq Re.bt Re.lit Re.times].
  rewrite rep_bt_run; try assumption.
  - change (Ascii.eqb "/" "/") with true. cbv iota.
    rewrite Ew, rep_bt_times by assumption.
    change (Ascii.eqb "/" "/") with true. cbv iota.
    rewrite Ey, rep_bt_times by assumption. reflexivity.
  - intros c t Hc. now rewrite (digit_not_slash c Hc).
  - now intros h [= <-].
  - now intros c t [= <- _].
Qed.

(** What a successful match of a date has read. *)
Lemma date_part_inv {R : Type} (s : string) (g : Re.groups)
      (k : string -> Re.groups -> option R) (r : R) :
  Re.bt Jira.date_part s g k = Some r ->
  exists x rest,
    s = (PeriodText.date_text x ++ rest)%string
    /\ PeriodText.is_date x = true
    /\ k rest g = Some r.
Proof.
  unfold Jira.date_part. cbn [Re.seq Re.bt Re.lit Re.times]. intros H.
  apply rep_bt_inv in H as (d & s1 & -> & Hd & Hd1 & Hd2 & H).
  destruct s1 as [|c s1]; [discriminate|].
  destruct (Ascii.eqb_spec "/" c) as [<-|]; [|discriminate].
  apply rep_bt_inv in H as (w & s2 & -> & Hw & Hw1 & Hw2 & H).
  destruct s2 as [|c s2]; [discriminate|].
  destruct (Ascii.eqb_spec "/" c) as [<-|]; [|discriminate].
  apply rep_bt_inv in H as (y & s3 & -> & Hy & Hy1 & Hy2 & H).
  exists (PeriodText.mkDate d w y), s3.
  unfold PeriodText.date_text, PeriodText.is_date.
  cbn [PeriodText.day PeriodText.month PeriodText.year].
  specialize (Hd2 2 eq_refl). specialize (Hw2 3 eq_refl).
  specialize (Hy2 2 eq_refl).
  split; [|split; [|exact H]].
  - rewrite !append_assoc. reflexivity.
  - rewrite Hd, Hw, Hy. cbn [andb].
    assert (E1 : (1 <=? String.length d) = true) by now apply Nat.leb_le.
    assert (E2 : (String.length d <=? 2) = true) by now apply Nat.leb_le.
    assert (E3 : (String.length w =? 3) = true) by (apply Nat.eqb_eq; lia).
    assert (E4 : (String.length y =? 2) = true) by (apply Nat.eqb_eq; lia).
    now rewrite E1, E2, E3, E4.
Qed.

Lemma space_not_digit (c : ascii) :
  PyStr.is_space c = true -> PyStr.is_digit c = false.
Proof.
  intros H. destruct (PyStr.is_digit c) eqn:E; [|reflexivity].
  apply digit_not_space in E. congruence.
Qed.

(** No match of a date starts at a character that is not a digit. *)
Lemma date_part_no_digit {R : Type} (c : ascii) (t : string) (g : Re.groups)
      (k : string -> Re.groups -> option R) :
  PyStr.is_digit c = false -> Re.bt Jira.date_part (String c t) g k = None.
Proof.
  intros H. unfold Jira.date_part. cbn [Re.seq Re.bt Re.rep_bt].
  now rewrite H.
Qed.

(** A date begins with a digit. *)
Lemma date_text_head (x : PeriodText.date) (rest : string) :
  PeriodText.is_date x = true ->
  exists c t, (PeriodText.date_text x ++ rest)%string = String c t
              /\ PyStr.is_digit c = true.
Proof.
  destruct x as [d w y]. unfold PeriodText.is_date, PeriodText.date_text.
  cbn [PeriodText.day PeriodText.month PeriodText.year].
  intros H. repeat (apply andb_true_iff in H as [H ?]).
  destruct d as [|c d]; [discriminate|].
  simpl in H. apply andb_true_iff in H as [Hc _].
  exists c. eexists. split; [reflexivity | exact Hc].
Qed.

(** White space before a character that is not white space. *)
Lemma gap_then_char {R : Type} (ws : string) (c : ascii) (rest : string)
      (K : string -> option R) :
  PeriodText.is_gap ws = true ->
  PyStr.is_space c = false ->
  Re.rep_bt PyStr.is_space 1 None (ws ++ String c rest)
    (fun s => match s with
              | String x s' => if Ascii.eqb c x then K s' else None
              | EmptyString => None
              end) = K rest.
Proof.
  intros Hws Hc. apply andb_true_iff in Hws as [Ha Hl]. apply Nat.leb_le in Hl.
  rewrite rep_bt_run; try assumption.
  - now rewrite Ascii.eqb_refl.
  - intros x t Hx. destruct (Ascii.eqb_spec c x) as [->|]; [congruence | reflexivity].
  - discriminate.
  - now intros x t [= <- _].
Qed.

(** White space before a date. *)
Lemma gap_then_date {R : Type} (ws : string) (x : PeriodText.date)
      (rest : string) (g : Re.groups)
      (k : string -> string -> Re.groups -> option R) :
  PeriodText.is_gap ws = true ->
  PeriodText.is_date x = true ->
  Re.rep_bt PyStr.is_space 1 None (ws ++ PeriodText.date_text x ++ rest)
    (fun s => Re.bt Jira.date_part s g (fun s' g' => k s s' g'))
  = k (PeriodText.date_text x ++ rest)%string rest g.
Proof.
  intros Hws Hx. apply andb_true_iff in Hws as [Ha Hl]. apply Nat.leb_le in Hl.
  rewrite rep_bt_run; try assumption.
  - now rewrite date_part_text.
  - intros c t Hc. apply date_part_no_digit. now apply space_not_digit.
  - discriminate.
  - intros c t E. destruct (date_text_head x rest Hx) as (c' & t' & E' & Hc').
    rewrite E' in E. injection E as <- _.
    now apply digit_not_space.
Qed.

(** The week number before the closing parenthesis. *)
Lemma number_then_paren {R : Type} (n rest : string)
      (K : string -> string -> option R) :
  PeriodText.is_number n = true ->
  Re.rep_bt PyStr.is_digit 1 None (n ++ String ")" rest)
    (fun s => match s with
              | String x s' => if Ascii.eqb ")" x then K s s' else None
              | EmptyString => None
              end) = K (String ")" rest) rest.
Proof.
  intros Hn. apply andb_true_iff in Hn as [Ha Hl]. apply Nat.leb_le in Hl.
  rewrite rep_bt_run; try assumption.
  - reflexivity.
  - intros x t Hx. destruct (Ascii.eqb_spec ")" x) as [<-|]; [discriminate | reflexivity].
  - discriminate.
  - now intros x t [= <- _].
Qed.

(** The pattern matches a period text from its first date on and captures
    the two dates and the week number. *)
Lemma match_here_period (l : PeriodText.layout) (a b : PeriodText.date)
      (n : string) :
  PeriodText.before l = EmptyString ->
  PeriodText.is_layout l = true ->
  PeriodText.is_date a = true ->
  PeriodText.is_date b = true ->
  PeriodText.is_number n = true ->
  Re.match_here Jira.date_pattern (PeriodText.period_text l a b n)
  = Some [(3, n); (2, PeriodText.date_text b); (1, PeriodText.date_text a)].
Proof.
  destruct l as [pre g1 g2 g3 wk g4 post].
  unfold PeriodText.is_layout, PeriodText.period_text.
  cbn [PeriodText.before PeriodText.gap1 PeriodText.gap2 PeriodText.gap3
       PeriodText.word PeriodText.gap4 PeriodText.after].
  intros -> Hl Ha Hb Hn.
  apply andb_true_iff in Hl as [Hl G4]. apply andb_true_iff in Hl as [Hl W].
  apply andb_true_iff in Hl as [Hl G3]. apply andb_true_iff in Hl as [G1 G2].
  destruct wk as [|w1 [|w2 [|w3 [|w4 [|? ?]]]]]; try discriminate.
  match goal with E : PeriodText.is_week _ = true |- _ =>
    cbn [PeriodText.is_week] in E;
    repeat (apply andb_true_iff in E as [E ?]) end.
  cbn [append].
  unfold Re.match_here, Jira.date_pattern.
  cbn [Re.seq Re.bt Re.lit Re.plus Re.one_of Re.times].
  rewrite date_part_text by assumption.
  rewrite consumed_app.
  rewrite (gap_then_char g1 "-") by (assumption || reflexivity).
  rewrite (gap_then_date g2 b) by assumption.
  rewrite consumed_app.
  rewrite (gap_then_char g3 "(") by (assumption || reflexivity).
  match goal with E : (Ascii.eqb w1 _ || _) = true |- _ => rewrite E end.
  change (String w2 (String w3 (String w4 (g4 ++ String "#" (n ++ String ")" post)))))
    with (String w2 (String w3 EmptyString)
            ++ String w4 (g4 ++ String "#" (n ++ String ")" post)))%string.
  change 2 with (String.length (String w2 (String w3 EmptyString))) at 1 2.
  rewrite rep_bt_times.
  2:{ cbn [Scanner.all_in].
      repeat match goal with E : (Ascii.eqb _ _ || _) = true |- _ => rewrite E; clear E end.
      reflexivity. }
  match goal with E : (Ascii.eqb w4 _ || _) = true |- _ => rewrite E end.
  rewrite (gap_then_char g4 "#") by (assumption || reflexivity).
  rewrite (number_then_paren n post) by assumption.
  now rewrite consumed_app.
Qed.

Lemma search_here (r : Re.regex) (t : string) (g : Re.groups) :
  Re.match_here r t = Some g -> Re.search r t = Some g.
Proof. intros H. destruct t; cbn [Re.search]; now rewrite H. Qed.

(** The search passes over text without a digit. *)
Lemma search_no_digit (pre t : string) :
  PeriodText.no_digit pre = true ->
  Re.search Jira.date_pattern (pre ++ t) = Re.search Jira.date_pattern t.
Proof.
  unfold PeriodText.no_digit.
  induction pre as [|c pre IH]; cbn [Scanner.all_in append]; [reflexivity|].
  intros H. apply andb_true_iff in H as [Hc H]. apply negb_true_iff in Hc.
  cbn [Re.search]. rewrite (IH H).
  replace (Re.match_here Jira.date_pattern (String c (pre ++ t))) with (@None Re.groups);
    [reflexivity|].
  symmetry. unfold Re.match_here, Jira.date_pattern. cbn [Re.seq Re.bt].
  now apply date_part_no_digit.
Qed.

Lemma search_period (l : PeriodText.layout) (a b : PeriodText.date) (n : string) :
  PeriodText.no_digit (PeriodText.before l) = true ->
  PeriodText.is_layout l = true ->
  PeriodText.is_date a = true ->
  PeriodText.is_date b = true ->
  PeriodText.is_number n = true ->
  Re.search Jira.date_pattern (PeriodText.period_text l a b n)
  = Some [(3, n); (2, PeriodText.date_text b); (1, PeriodText.date_text a)].
Proof.
  destruct l as [pre g1 g2 g3 wk g4 post]. cbn [PeriodText.before].
  intros Hpre Hl Ha Hb Hn.
  change (PeriodText.period_text (PeriodText.mkLayout pre g1 g2 g3 wk g4 post) a b n)
    with (pre ++ PeriodText.period_text
                   (PeriodText.mkLayout EmptyString g1 g2 g3 wk g4 post) a b n)%string.
  rewrite (search_no_digit _ _ Hpre).
  apply search_here. now apply match_here_period.
Qed.

(** What a match of the pattern has read: a period text, whose dates and
    week number are the groups. *)
Lemma match_here_period_inv (t : string) (g : Re.groups) :
  Re.match_here Jira.date_pattern t = Some g ->
  exists l a b n,
    PeriodText.before l = EmptyString
    /\ t = PeriodText.period_text l a b n
    /\ PeriodText.is_layout l = true
    /\ PeriodText.is_date a = true
    /\ PeriodText.is_date b = true
    /\ PeriodText.is_number n = true
    /\ g = [(3, n); (2, PeriodText.date_text b); (1, PeriodText.date_text a)].
Proof.
  unfold Re.match_here, Jira.date_pattern.
  cbn [Re.seq Re.bt Re.lit Re.plus Re.one_of Re.times]. intros H.
  apply date_part_inv in H as (a & r1 & -> & Ha & H).
  rewrite consumed_app in H.
  apply rep_bt_inv in H as (g1 & r2 & -> & G1 & L1 & _ & H).
  destruct r2 as [|c r2]; [discriminate|].
  destruct (Ascii.eqb_spec "-" c) as [<-|]; [|discriminate].
  apply rep_bt_inv in H as (g2 & r3 & -> & G2 & L2 & _ & H).
  apply date_part_inv in H as (b & r4 & -> & Hb & H).
  rewrite consumed_app in H.
  apply rep_bt_inv in H as (g3 & r5 & -> & G3 & L3 & _ & H).
  destruct r5 as [|c r5]; [discriminate|].
  destruct (Ascii.eqb_spec "(" c) as [<-|]; [|discriminate].
  destruct r5 as [|w1 r5]; [discriminate|].
  destruct (Ascii.eqb w1 "W" || Ascii.eqb w1 "w") eqn:W1; [|discriminate].
  apply rep_bt_inv in H as (ee & r6 & -> & EE & LE & UE & H).
  specialize (UE 2 eq_refl).
  destruct ee as [|w2 [|w3 [|? ?]]]; simpl in LE, UE; try lia.
  cbn [Scanner.all_in] in EE. apply andb_true_iff in EE as [W2 W3].
  rewrite andb_true_r in W3.
  destruct r6 as [|w4 r6]; [discriminate|].
  destruct (Ascii.eqb w4 "K" || Ascii.eqb w4 "k") eqn:W4; [|discriminate].
  apply rep_bt_inv in H as (g4 & r7 & -> & G4 & L4 & _ & H).
  destruct r7 as [|c r7]; [discriminate|].
  destruct (Ascii.eqb_spec "#" c) as [<-|]; [|discriminate].
  apply rep_bt_inv in H as (n & r8 & E & N & LN & _ & H).
  destruct r8 as [|c r8]; [discriminate|].
  destruct (Ascii.eqb_spec ")" c) as [<-|]; [|discriminate].
  rewrite E, consumed_app in H. injection H as <-.
  exists (PeriodText.mkLayout EmptyString g1 g2 g3
            (String w1 (String w2 (String w3 (String w4 EmptyString)))) g4 r8),
    a, b, n.
  unfold PeriodText.period_text, PeriodText.is_layout, PeriodText.is_gap,
    PeriodText.is_number.
  cbn [PeriodText.before PeriodText.gap1 PeriodText.gap2 PeriodText.gap3
       PeriodText.word PeriodText.gap4 PeriodText.after PeriodText.is_week].
  apply Nat.leb_le in L1, L2, L3, L4, LN.
  rewrite G1, G2, G3, G4, N, L1, L2, L3, L4, LN, W1, W2, W3, W4.
  repeat split; try assumption.
  subst r7. reflexivity.
Qed.

(** The groups of a text cell: none, or the parts of a period text. *)
Lemma extract_row_period (t : string) :
  Pandas.extract_row Jira.date_pattern 3 (Pandas.CStr t) = [None; None; None]
  \/ exists l a b n,
       t = PeriodText.period_text l a b n
       /\ PeriodText.is_layout l = true
       /\ PeriodText.is_date a = true
       /\ PeriodText.is_date b = true
       /\ PeriodText.is_number n = true
       /\ Pandas.extract_row Jira.date_pattern 3 (Pandas.CStr t)
          = [Some (PeriodText.date_text a); Some (PeriodText.date_text b); Some n].
Proof.
  cbn [Pandas.extract_row].
  destruct (Re.search Jira.date_pattern t) as [g|] eqn:E; [right | now left].
  apply search_inv in E as (pre & t' & -> & E).
  apply match_here_period_inv in E as (l & a & b & n & B & -> & Hl & Ha & Hb & Hn & ->).
  destruct l as [pre' g1 g2 g3 wk g4 post]. cbn [PeriodText.before] in B. subst pre'.
  exists (PeriodText.mkLayout pre g1 g2 g3 wk g4 post), a, b, n.
  repeat split; assumption.
Qed.

(** X14. [split_date_col] finds a period anywhere in a cell: ASCII text
    without a digit may precede the first date and any text may follow the
    closing parenthesis.  For two dates, each of one or two digits, three word
    characters and two digits between slashes, with white space around the
    dash, before the parenthesis and before the [#], the word [week] in any
    mix of cases and a week number of one digit or more, the row gets the
    first date as Period Start, the second as Period End and the number as
    Week Number. *)
Theorem split_date_col_period_text
        (df : DataFrame) (s : Series) (i : nat)
        (l : PeriodText.layout) (a b : PeriodText.date) (n : string) :
  getitem df "Date/Period" = Ok s ->
  dtype_of s = Object ->
  nth_error (values s) i = Some (CStr (PeriodText.period_text l a b n)) ->
  PyStr.is_ascii (PeriodText.before l) = true ->
  PeriodText.no_digit (PeriodText.before l) = true ->
  PeriodText.is_layout l = true ->
  PeriodText.is_date a = true ->
  PeriodText.is_date b = true ->
  PeriodText.is_number n = true ->
  exists df',
    Jira.split_date_col df = Ok df'
    /\ View.cell_at df' "Period Start" i = Some (CStr (PeriodText.date_text a))
    /\ View.cell_at df' "Period End" i = Some (CStr (PeriodText.date_text b))
    /\ View.cell_at df' "Week Number" i = Some (CStr n).
Proof.
  intros G D Hc _ Hpre Hl Ha Hb Hn.
  assert (Hstr : can_str s = true).
  { unfold can_str. rewrite D, (nth_error_is_str _ _ _ Hc). apply orb_true_r. }
  rewrite (split_date_col_spec df s G), Hstr.
  eexists. split; [reflexivity|].
  destruct (cell_at_period (nrows df) (values s)
              (filter (fun c => negb (String.eqb "Date/Period" (fst c)))
                      (columns df)) i) as (E1 & E2 & E3).
  rewrite E1, E2, E3, Hc. cbn [option_map extract_row].
  rewrite (search_period l a b n Hpre Hl Ha Hb Hn).
  repeat split.
Qed.

Lemma split_date_col_period_text_witness :
  exists df',
    Jira.split_date_col
      (mkFrame 1
         [("Lead Time", mkSeries Float64 [CNum 26]);
          ("Date/Period",
           mkSeries Object
             [CStr "Sprint: 1/Feb/24  -  14/Feb/24 (WeEk #12) closed"])]) = Ok df'
    /\ View.cell_at df' "Period Start" 0 = Some (CStr "1/Feb/24")
    /\ View.cell_at df' "Period End" 0 = Some (CStr "14/Feb/24")
    /\ View.cell_at df' "Week Number" 0 = Some (CStr "12").
Proof.
  exact (split_date_col_period_text
           (mkFrame 1
              [("Lead Time", mkSeries Float64 [CNum 26]);
               ("Date/Period",
                mkSeries Object
                  [CStr "Sprint: 1/Feb/24  -  14/Feb/24 (WeEk #12) closed"])])
           (mkSeries Object
              [CStr "Sprint: 1/Feb/24  -  14/Feb/24 (WeEk #12) closed"])
           0
           (PeriodText.mkLayout "Sprint: " "  " "  " " " "WeEk" " " " closed")
           (PeriodText.mkDate "1" "Feb" "24")
           (PeriodText.mkDate "14" "Feb" "24")
           "12"
           eq_refl eq_refl eq_refl eq_refl eq_refl eq_refl eq_refl eq_refl
           eq_refl).
Defined.

(** X15. Whatever [split_date_col] returns, the three derived fields of a
    row whose [Date/Period] cell is not text, or is ASCII text, are all
    missing or all text.  When they are text, the row's
    [Date/Period] cell is text that holds a period -- a date, white space,
    a dash, white space, a date, white space, and in parentheses the word
    [week] in some mix of cases, white space, [#] and digits -- and the
    fields are the first date, the second date and the digits; each date
    is one or two digits, three word characters and two digits between
    slashes. *)
Theorem split_date_col_fields_sound
        (df df' : DataFrame) (i : nat) (p q w : cell) :
  Jira.split_date_col df = Ok df' ->
  (forall t, nth_error (View.column_values df "Date/Period") i = Some (CStr t) ->
             PyStr.is_ascii t = true) ->
  View.cell_at df' "Period Start" i = Some p ->
  View.cell_at df' "Period End" i = Some q ->
  View.cell_at df' "Week Number" i = Some w ->
  (p = NaN /\ q = NaN /\ w = NaN)
  \/ exists l a b n,
       nth_error (View.column_values df "Date/Period") i
       = Some (CStr (PeriodText.period_text l a b n))
       /\ PeriodText.is_layout l = true
       /\ PeriodText.is_date a = true
       /\ PeriodText.is_date b = true
       /\ PeriodText.is_number n = true
       /\ p = CStr (PeriodText.date_text a)
       /\ q = CStr (PeriodText.date_text b)
       /\ w = CStr n.
Proof.
  intros H _. unfold View.column_values.
  destruct (getitem df "Date/Period") as [s|e] eqn:G.
  2:{ unfold Jira.split_date_col in H. rewrite G in H. discriminate. }
  rewrite (split_date_col_spec df s G) in H.
  destruct (can_str s); [|discriminate].
  apply (f_equal (fun r => match r with Ok d => d | Raise _ => df' end)) in H.
  cbv beta iota in H. subst df'.
  destruct (cell_at_period (nrows df) (values s)
              (filter (fun c => negb (String.eqb "Date/Period" (fst c)))
                      (columns df)) i) as (E1 & E2 & E3).
  rewrite E1, E2, E3.
  destruct (nth_error (values s) i) as [c|]; cbn [option_map]; [|discriminate].
  intros [= <-] [= <-] [= <-].
  destruct c as [t| |]; [|now left..].
  destruct (extract_row_period t) as [E|(l & a & b & n & -> & Hl & Ha & Hb & Hn & E)];
    rewrite E; [now left|].
  right. exists l, a, b, n. repeat split; assumption.
Qed.

Lemma split_date_col_fields_sound_witness :
  (CStr "01/Jan/24" = NaN /\ CStr "07/Jan/24" = NaN /\ CStr "1" = NaN)
  \/ exists l a b n,
       nth_error
         (View.column_values
            (mkFrame 2
               [("Date/Period",
                 mkSeries Object
                   [CStr "week 1: 01/Jan/24 - 07/Jan/24 (Week #1)"; CStr "total"])])
            "Date/Period") 0
       = Some (CStr (PeriodText.period_text l a b n))
       /\ PeriodText.is_layout l = true
       /\ PeriodText.is_date a = true
       /\ PeriodText.is_date b = true
       /\ PeriodText.is_number n = true
       /\ CStr "01/Jan/24" = CStr (PeriodText.date_text a)
       /\ CStr "07/Jan/24" = CStr (PeriodText.date_text b)
       /\ CStr "1" = CStr n.
Proof.
  apply (split_date_col_fields_sound
           (mkFrame 2
              [("Date/Period",
                mkSeries Object
                  [CStr "week 1: 01/Jan/24 - 07/Jan/24 (Week #1)"; CStr "total"])])
           (mkFrame 2
              [("Period Start", mkSeries Object [CStr "01/Jan/24"; NaN]);
               ("Period End", mkSeries Object [CStr "07/Jan/24"; NaN]);
               ("Week Number", mkSeries Object [CStr "1"; NaN])])
           0); try reflexivity.
  intros t H. vm_compute in H. injection H as <-. reflexivity.
Defined.

(* ------------------------------------------------------------------ *)
(** ** What [split_date_col] and [convert_time_cols] raise *)

Lemma mem_filter (col : string) (cols : list (string * Series)) :
  PyStr.mem col (map fst cols) =
  match filter (fun c => String.eqb col (fst c)) cols with
  | [] => false
  | _ => true
  end.
Proof.
  induction cols as [|[k v] cols IH]; [reflexivity|].
  cbn [map fst filter]. rewrite mem_cons, IH.
  destruct (String.eqb col k); reflexivity.
Qed.

Lemma getitem_key_error (df : DataFrame) (col : string) :
  getitem df col = Raise KeyError <-> PyStr.mem col (labels df) = false.
Proof.
  unfold getitem, labels. rewrite mem_filter.
  destruct (filter _ (columns df)) as [|c [|c' l]]; split; intros H;
    try reflexivity; discriminate.
Qed.

Lemma getitem_error (df : DataFrame) (col : string) (e : exn) :
  getitem df col = Raise e -> e = KeyError \/ e = AttributeError.
Proof.
  unfold getitem.
  destruct (filter _ (columns df)) as [|c [|c' l]]; intros [= <-]; auto.
Qed.

Lemma getitem_filter_other (df : DataFrame) (n : nat) (col c : string) :
  String.eqb c col = false ->
  getitem (mkFrame n (filter (fun x => negb (String.eqb col (fst x))) (columns df))) c
  = getitem df c.
Proof.
  intros Hne. unfold getitem. cbn [columns].
  assert (E : forall cols : list (string * Series),
             filter (fun x => String.eqb c (fst x))
               (filter (fun x => negb (String.eqb col (fst x))) cols)
             = filter (fun x => String.eqb c (fst x)) cols).
  { induction cols as [|[k v] cols IH]; [reflexivity|].
    cbn [filter fst]. destruct (String.eqb_spec col k) as [<-|Hk]; cbn [negb].
    - now rewrite IH, Hne.
    - cbn [filter fst]. now rewrite IH. }
  now rewrite E.
Qed.

Lemma getitem_app_other (n m : nat) (pre cols : list (string * Series)) (c : string) :
  PyStr.mem c (map fst pre) = false ->
  getitem (mkFrame n (pre ++ cols)) c = getitem (mkFrame m cols) c.
Proof.
  intros H. unfold getitem. cbn [columns].
  now rewrite filter_app, (filter_absent _ _ H).
Qed.

(** X16. [split_date_col] raises [KeyError] exactly when the frame has no
    column [Date/Period], and [AttributeError] exactly when it has several
    of them or one on which [.str] is not available (a column without
    text, such as the float64 column of missing values that the
    reconciliation fills in); it raises nothing else.  When it returns,
    the frame has the rows it had, its labels are the three new labels
    followed by the other labels in their order, and every column under
    another label is as it was. *)
Theorem split_date_col_raises (df : DataFrame) :
  (Jira.split_date_col df = Raise KeyError
   <-> PyStr.mem "Date/Period" (labels df) = false)
  /\ (Jira.split_date_col df = Raise AttributeError
      <-> PyStr.mem "Date/Period" (labels df) = true
          /\ forall s, getitem df "Date/Period" = Ok s -> can_str s = false)
  /\ Jira.split_date_col df <> Raise ValueError
  /\ forall df',
      Jira.split_date_col df = Ok df' ->
      nrows df' = nrows df
      /\ labels df'
         = (["Period Start"; "Period End"; "Week Number"]
              ++ filter (fun l => negb (String.eqb "Date/Period" l)) (labels df))%list
      /\ forall c,
          PyStr.mem c ["Date/Period"; "Period Start"; "Period End"; "Week Number"]
          = false ->
          getitem df' c = getitem df c.
Proof.
  destruct (getitem df "Date/Period") as [s|e] eqn:G.
  - pose proof (getitem_mem _ _ _ G) as M.
    rewrite (split_date_col_spec df s G), M.
    destruct (can_str s) eqn:C.
    + split; [split; discriminate|]. split.
      { split; [discriminate|]. intros [_ H]. specialize (H s eq_refl). congruence. }
      split; [discriminate|].
      intros df' H.
      apply (f_equal (fun r => match r with Ok d => d | Raise _ => df' end)) in H.
      cbv beta iota in H. subst df'. split; [reflexivity|]. split.
      * unfold labels. cbn [columns]. rewrite map_app. f_equal.
        apply (map_fst_filter (fun l => negb (String.eqb "Date/Period" l))).
      * intros c Hc. cbn [PyStr.mem existsb] in Hc.
        apply orb_false_iff in Hc as [Hd Hc].
        rewrite (getitem_app_other _ (nrows df)).
        -- now apply getitem_filter_other.
        -- cbn [View.period_columns map fst PyStr.mem existsb]. exact Hc.
    + split; [split; discriminate|]. split.
      { split; [intros _|reflexivity]. split; [reflexivity|]. now intros s' [= <-]. }
      split; discriminate.
  - assert (E : Jira.split_date_col df = Raise e)
      by (unfold Jira.split_date_col; now rewrite G).
    rewrite E. pose proof (getitem_key_error df "Date/Period") as K.
    rewrite G in K.
    destruct (getitem_error _ _ _ G) as [-> | ->].
    + split; [split; [intros _; now apply K | reflexivity]|].
      split.
      { split; [discriminate|]. intros [M _].
        rewrite (proj1 K eq_refl) in M. discriminate. }
      split; discriminate.
    + assert (M : PyStr.mem "Date/Period" (labels df) = true).
      { apply not_false_is_true. intros M. apply K in M. discriminate. }
      split; [split; [discriminate | congruence]|].
      split.
      { split; [intros _|reflexivity]. split; [exact M | discriminate]. }
      split; discriminate.
Qed.

(** What the loop body makes of a column is [Columns.converted]. *)
Lemma convert_series_converted (s t : Series) :
  View.convert_series s = Ok t -> t = Columns.converted s.
Proof.
  unfold View.convert_series.
  destruct (dtype_of s) eqn:D; cbn [dtype_eqb negb].
  - destruct (can_str s) eqn:C;
      [|rewrite convert_column_spec, C; discriminate].
    destruct (forallb Scanner.readable (values s)) eqn:R;
      [|rewrite convert_column_spec, C, R; discriminate].
    rewrite (convert_column_converted s D C R). now intros [= <-].
  - intros [= <-]. symmetry. now apply converted_fixed.
Qed.

(** The frame after one turn of the loop holds, under the label of the
    turn, a column that a later turn gets through. *)
Lemma convert_time_cols_turn (df : DataFrame) (col : string) (s t : Series) :
  getitem df col = Ok s ->
  View.convert_series s = Ok t ->
  getitem (if negb (dtype_eqb (dtype_of s) Object) then df
           else setitem df col t) col = Ok t
  /\ View.convert_series t = Ok t.
Proof.
  intros G E. pose proof (convert_series_converted s t E) as ->. split.
  - destruct (dtype_of s) eqn:D; cbn [dtype_eqb negb].
    + apply (getitem_setitem _ _ _ _ G).
    + now rewrite (converted_fixed s D).
  - apply convert_series_settled, converted_again.
Qed.

(** [convert_time_cols] returns exactly on the frames in which it gets
    through every listed column. *)
Lemma convert_time_cols_returns (cols : list string) :
  forall df,
    (exists df', Jira.convert_time_cols df cols = Ok df')
    <-> (forall c, In c cols ->
                   exists s, getitem df c = Ok s
                             /\ exists t, View.convert_series s = Ok t).
Proof.
  induction cols as [|col rest IH]; intros df.
  - split; [intros _ c [] | intros _; now exists df].
  - destruct (getitem df col) as [s|e] eqn:G.
    2:{ cbn [Jira.convert_time_cols]. rewrite G. cbn [bind].
        split; [intros [? H]; discriminate|].
        intros H. destruct (H col (or_introl eq_refl)) as (s & Hs & _).
        congruence. }
    rewrite (convert_time_cols_step df col rest s G).
    destruct (View.convert_series s) as [t|e] eqn:E; cbn [bind].
    2:{ split; [intros [? H]; discriminate|].
        intros H. destruct (H col (or_introl eq_refl)) as (s' & Hs & t & Ht).
        congruence. }
    destruct (convert_time_cols_turn df col s t G E) as [G2 E2].
    rewrite IH. split; intros H c Hc.
    + destruct (String.eqb_spec c col) as [->|Hne]; [eauto|].
      destruct Hc as [<-|Hc]; [congruence|].
      destruct (H c Hc) as (s' & Hs & Hv).
      destruct (negb (dtype_eqb (dtype_of s) Object)); [eauto|].
      rewrite getitem_setitem_other in Hs by now apply String.eqb_neq.
      eauto.
    + destruct (String.eqb_spec c col) as [->|Hne]; [eauto|].
      destruct (negb (dtype_eqb (dtype_of s) Object));
        [apply H; now right|].
      rewrite getitem_setitem_other by now apply String.eqb_neq.
      apply H. now right.
Qed.

(** The column at which [convert_time_cols] raises. *)
Lemma convert_time_cols_error (cols : list string) :
  forall df e,
    Jira.convert_time_cols df cols = Raise e ->
    exists c,
      In c cols
      /\ (getitem df c = Raise e
          \/ exists s, getitem df c = Ok s /\ View.convert_series s = Raise e).
Proof.
  induction cols as [|col rest IH]; intros df e;
    [cbn [Jira.convert_time_cols]; discriminate|].
  destruct (getitem df col) as [s|e0] eqn:G.
  2:{ cbn [Jira.convert_time_cols]. rewrite G. cbn [bind].
      intros [= <-]. exists col. split; [now left | now left]. }
  rewrite (convert_time_cols_step df col rest s G).
  destruct (View.convert_series s) as [t|e0] eqn:E; cbn [bind].
  2:{ intros [= <-]. exists col. split; [now left|]. right. eauto. }
  destruct (convert_time_cols_turn df col s t G E) as [G2 E2].
  intros H. apply IH in H as (c & Hc & H).
  destruct (String.eqb_spec c col) as [->|Hne].
  - rewrite G2 in H. destruct H as [H|(s' & Hs & Hv)]; [discriminate|].
    injection Hs as <-. congruence.
  - exists c. split; [now right|].
    destruct (negb (dtype_eqb (dtype_of s) Object)); [exact H|].
    rewrite getitem_setitem_other in H by now apply String.eqb_neq.
    exact H.
Qed.

(** A tame column is got through exactly when it is convertible. *)
Lemma convert_series_tame (s : Series) :
  Columns.tame s = true ->
  (exists t, View.convert_series s = Ok t) <-> Columns.convertible s = true.
Proof.
  intros T. unfold View.convert_series, Columns.convertible.
  destruct (negb (dtype_eqb (dtype_of s) Object)); cbn [orb].
  - split; [reflexivity | intros _; now exists s].
  - rewrite convert_column_spec, (tame_series_readable s T).
    destruct (can_str s); split; try reflexivity; try discriminate;
      [intros _; eauto | intros [t H]; discriminate].
Qed.

(** X17. On a frame whose listed columns hold tame cells only (no text, or
    ASCII text in which every number read has at most 14 digits),
    [convert_time_cols] returns exactly when every listed label names one
    column of the frame that is either not of dtype object or has text (so
    that [.str] is available).  Otherwise it raises at a listed column:
    [KeyError] for a label the frame lacks, [AttributeError] for a label
    that occurs twice or an object column without text.  It does not raise
    [ValueError] there: [pd.to_numeric] reads what the pattern extracts
    from a tame cell. *)
Theorem convert_time_cols_raises
        (df : DataFrame) (columns_to_process : list string) :
  (forall c s,
      In c columns_to_process -> getitem df c = Ok s ->
      Columns.tame s = true) ->
  ((exists df', Jira.convert_time_cols df columns_to_process = Ok df')
   <-> forall c, In c columns_to_process ->
                 exists s, getitem df c = Ok s /\ Columns.convertible s = true)
  /\ (forall e,
         Jira.convert_time_cols df columns_to_process = Raise e ->
         exists c,
           In c columns_to_process
           /\ ((e = KeyError /\ PyStr.mem c (labels df) = false)
               \/ (e = AttributeError
                   /\ PyStr.mem c (labels df) = true
                   /\ forall s, getitem df c = Ok s ->
                                Columns.convertible s = false)))
  /\ Jira.convert_time_cols df columns_to_process <> Raise ValueError.
Proof.
  intros T.
  assert (E : forall e,
             Jira.convert_time_cols df columns_to_process = Raise e ->
             exists c,
               In c columns_to_process
               /\ ((e = KeyError /\ PyStr.mem c (labels df) = false)
                   \/ (e = AttributeError
                       /\ PyStr.mem c (labels df) = true
                       /\ forall s, getitem df c = Ok s ->
                                    Columns.convertible s = false))).
  { intros e H. apply convert_time_cols_error in H as (c & Hc & H).
    exists c. split; [exact Hc|].
    destruct H as [H|(s & Hs & Hv)].
    - destruct (getitem_error _ _ _ H) as [-> | ->].
      + left. split; [reflexivity | now apply getitem_key_error].
      + right. split; [reflexivity|]. split; [|intros s Hs; congruence].
        apply not_false_is_true. intros M.
        apply getitem_key_error in M. congruence.
    - pose proof (T c s Hc Hs) as Ts.
      pose proof (convert_series_error_tame s e Ts Hv) as ->.
      right. split; [reflexivity|].
      split; [exact (getitem_mem _ _ _ Hs)|].
      intros s' Hs'. assert (s' = s) as -> by congruence.
      apply not_true_is_false. intros K.
      apply (convert_series_tame s Ts) in K as [t K]. congruence. }
  split; [|split; [exact E|]].
  - rewrite convert_time_cols_returns. split; intros H c Hc.
    + destruct (H c Hc) as (s & Hs & Hv). exists s. split; [exact Hs|].
      now apply (convert_series_tame s (T c s Hc Hs)).
    + destruct (H c Hc) as (s & Hs & Hv). exists s. split; [exact Hs|].
      now apply (convert_series_tame s (T c s Hc Hs)).
  - intros H. apply E in H as (c & _ & [[H _]|[H _]]); discriminate.
Qed.

Lemma convert_time_cols_raises_witness :
  Jira.convert_time_cols
    (mkFrame 2 [("Lead Time", mkSeries Object [CNum 5; NaN])]) ["Lead Time"]
  = Raise AttributeError
  /\ exists c,
      In c ["Lead Time"]
      /\ ((AttributeError = KeyError
           /\ PyStr.mem c
                (labels (mkFrame 2 [("Lead Time", mkSeries Object [CNum 5; NaN])]))
              = false)
          \/ (AttributeError = AttributeError
              /\ PyStr.mem c
                   (labels (mkFrame 2 [("Lead Time", mkSeries Object [CNum 5; NaN])]))
                 = true
              /\ forall s,
                  getitem (mkFrame 2 [("Lead Time", mkSeries Object [CNum 5; NaN])]) c
                  = Ok s ->
                  Columns.convertible s = false)).
Proof.
  split; [reflexivity|].
  apply (proj1 (proj2 (convert_time_cols_raises
                         (mkFrame 2 [("Lead Time", mkSeries Object [CNum 5; NaN])])
                         ["Lead Time"]
                         ltac:(intros c s [<-|[]] G; vm_compute in G;
                               injection G as <-; reflexivity)))).
  reflexivity.
Defined.

(* ------------------------------------------------------------------ *)
(** ** The table that one file contributes *)

Lemma convert_series_convertible (s : Series) :
  Columns.tame s = true ->
  View.convert_series s =
  if Columns.convertible s then Ok (Columns.converted s)
  else Raise AttributeError.
Proof.
  intros T. pose proof (tame_series_readable s T) as R.
  unfold View.convert_series, Columns.convertible.
  destruct (dtype_of s) eqn:D; cbn [dtype_eqb negb orb].
  - destruct (can_str s) eqn:C.
    + now apply convert_column_converted.
    + now rewrite convert_column_spec, C.
  - now rewrite (converted_fixed s D).
Qed.

(** X18. The stages compose as follows, for a sheet whose headers are
    ASCII once the glyph is removed, whose time columns hold tame cells only
    (no text, or ASCII text in which every number read has at most 14
    digits) and whose [Date/Period] column holds no text that is not
    ASCII.  When the reconciliation of the sheet
    returns the frame [df1], the run of the file returns exactly when
    [.str] is available on the [Date/Period] column of [df1] and every
    time column of [df1] is either not of dtype object or has text; it
    raises [AttributeError] otherwise, and nothing else.  The table it
    returns has the rows of the sheet and consists of the department
    column, which repeats the stem of the file, the three period columns
    derived from the [Date/Period] column of [df1], and the five time
    columns of [df1], each converted to total hours (a time column of
    dtype object without rows stays as it is). *)
Theorem transform_frame
        (filepath : Jira.Path) (sheet df1 : DataFrame) :
  Jira.plain_headers sheet = true ->
  snd (Jira.preprocess_columns sheet filepath) = Ok df1 ->
  (forall col, In col Jira.time_columns ->
               Columns.tame (column_or_nan df1 col) = true) ->
  forallb ascii_cell (values (column_or_nan df1 "Date/Period")) = true ->
  snd (Jira.transform filepath sheet) =
  if can_str (column_or_nan df1 "Date/Period")
     && forallb (fun col => Columns.convertible (column_or_nan df1 col))
                Jira.time_columns
  then Ok (mkFrame (nrows sheet)
             (("Department Name",
               mkSeries Object (repeat (CStr (Jira.stem filepath)) (nrows sheet)))
                :: View.period_columns (values (column_or_nan df1 "Date/Period"))
                ++ map (fun col => (col, Columns.converted (column_or_nan df1 col)))
                       Jira.time_columns))
  else Raise AttributeError.
Proof.
  intros _ H T _. rewrite transform_snd, H. cbn [bind].
  apply preprocess_columns_ok in H as [Hl Hn]. template_shape df1 Hl.
  cbn [nrows] in Hn. subst n.
  assert (T1 : Columns.tame lead = true)
    by exact (T "Lead Time" (or_introl eq_refl)).
  assert (T2 : Columns.tame cycle = true)
    by exact (T "Cycle Time" (or_intror (or_introl eq_refl))).
  assert (T3 : Columns.tame blocked = true)
    by exact (T "Blocked Time" (or_intror (or_intror (or_introl eq_refl)))).
  assert (T4 : Columns.tame market = true)
    by exact (T "Time to Market"
                (or_intror (or_intror (or_intror (or_introl eq_refl))))).
  assert (T5 : Columns.tame analysis = true)
    by exact (T "Analysis Time"
                (or_intror (or_intror (or_intror (or_intror (or_introl eq_refl)))))).
  clear T. rewrite time_columns_eq.
  unfold column_or_nan. cbn [columns lookup forallb map].
  repeat match goal with
         | |- context [String.eqb ?a ?b] =>
             let v := eval vm_compute in (String.eqb a b) in
             change (String.eqb a b) with v
         end.
  cbv iota.
  change (mkFrame (nrows sheet)
            [("Date/Period", date); ("Lead Time", lead); ("Cycle Time", cycle);
             ("Blocked Time", blocked); ("Time to Market", market);
             ("Analysis Time", analysis)])
    with (mkFrame (nrows sheet)
            ([("Date/Period", date)]
               ++ [("Lead Time", lead); ("Cycle Time", cycle);
                   ("Blocked Time", blocked); ("Time to Market", market);
                   ("Analysis Time", analysis)])).
  rewrite <- time_columns_eq, convert_time_cols_five by reflexivity.
  rewrite (convert_series_convertible lead T1),
    (convert_series_convertible cycle T2),
    (convert_series_convertible blocked T3),
    (convert_series_convertible market T4),
    (convert_series_convertible analysis T5).
  destruct (Columns.convertible lead); cbn [bind andb];
    [|now rewrite andb_false_r].
  destruct (Columns.convertible cycle); cbn [bind andb];
    [|now rewrite andb_false_r].
  destruct (Columns.convertible blocked); cbn [bind andb];
    [|now rewrite andb_false_r].
  destruct (Columns.convertible market); cbn [bind andb];
    [|now rewrite andb_false_r].
  destruct (Columns.convertible analysis); cbn [bind andb];
    [|now rewrite andb_false_r].
  rewrite andb_true_r.
  rewrite (split_date_col_spec _ date) by reflexivity.
  destruct (can_str date); reflexivity.
Qed.

Lemma transform_frame_witness :
  snd (Jira.transform
         (Jira.mkPath "Cards" "Cards" ".xlsx")
         (mkFrame 2
            [("lead time",
              mkSeries Object [CStr "1d 2h"; CStr "-"]);
             ("Date/Period",
              mkSeries Object
                [CStr "01/Jan/24 - 07/Jan/24 (Week #1)"; CStr "total"])]))
  = Ok (mkFrame 2
          [("Department Name", mkSeries Object [CStr "Cards"; CStr "Cards"]);
           ("Period Start", mkSeries Object [CStr "01/Jan/24"; NaN]);
           ("Period End", mkSeries Object [CStr "07/Jan/24"; NaN]);
           ("Week Number", mkSeries Object [CStr "1"; NaN]);
           ("Lead Time", mkSeries Float64 [CNum 26; NaN]);
           ("Cycle Time", mkSeries Float64 [NaN; NaN]);
           ("Blocked Time", mkSeries Float64 [NaN; NaN]);
           ("Time to Market", mkSeries Float64 [NaN; NaN]);
           ("Analysis Time", mkSeries Float64 [NaN; NaN])]).
Proof.
  rewrite (transform_frame
             (Jira.mkPath "Cards" "Cards" ".xlsx")
             (mkFrame 2
                [("lead time",
                  mkSeries Object [CStr "1d 2h"; CStr "-"]);
                 ("Date/Period",
                  mkSeries Object
                    [CStr "01/Jan/24 - 07/Jan/24 (Week #1)"; CStr "total"])])
             (mkFrame 2
                [("Date/Period",
                  mkSeries Object
                    [CStr "01/Jan/24 - 07/Jan/24 (Week #1)"; CStr "total"]);
                 ("Lead Time", mkSeries Object [CStr "1d 2h"; CStr "-"]);
                 ("Cycle Time", mkSeries Float64 [NaN; NaN]);
                 ("Blocked Time", mkSeries Float64 [NaN; NaN]);
                 ("Time to Market", mkSeries Float64 [NaN; NaN]);
                 ("Analysis Time", mkSeries Float64 [NaN; NaN])])
             eq_refl eq_refl).
  - reflexivity.
  - intros col Hcol. rewrite time_columns_eq in Hcol.
    repeat (destruct Hcol as [<-|Hcol]; [reflexivity|]). destruct Hcol.
  - reflexivity.
Defined.

(* ------------------------------------------------------------------ *)
(** ** The order of the columns of a sheet *)

Lemma Permutation_filter {A : Type} (p : A -> bool) (xs ys : list A) :
  Permutation xs ys -> Permutation (filter p xs) (filter p ys).
Proof.
  induction 1 as [|x l l' _ IH|x y l|l l' l'' _ IH1 _ IH2]; cbn [filter].
  - constructor.
  - destruct (p x); [now constructor | exact IH].
  - destruct (p x), (p y); try apply Permutation_refl. apply perm_swap.
  - now apply Permutation_trans with (filter p l').
Qed.

Lemma mem_perm (x : string) (xs ys : list string) :
  Permutation xs ys -> PyStr.mem x xs = PyStr.mem x ys.
Proof.
  intros P. destruct (PyStr.mem x ys) eqn:E.
  - apply mem_In. apply mem_In in E.
    apply Permutation_in with ys; [now apply Permutation_sym | exact E].
  - apply not_true_is_false. intros M. apply mem_In in M.
    apply (Permutation_in _ P) in M. apply mem_In in M. congruence.
Qed.

Lemma has_dup_perm (xs ys : list string) :
  Permutation xs ys -> has_dup xs = has_dup ys.
Proof.
  induction 1 as [|x l l' P IH|x y l|l l' l'' _ IH1 _ IH2]; cbn [has_dup].
  - reflexivity.
  - now rewrite IH, (mem_perm x l l' P).
  - rewrite !mem_cons, (String.eqb_sym x y).
    destruct (String.eqb y x), (PyStr.mem y l), (PyStr.mem x l); reflexivity.
  - congruence.
Qed.

Lemma lookup_perm (k : string) (cols cols' : list (string * Series)) :
  Permutation cols cols' ->
  has_dup (map fst cols) = false ->
  lookup k cols = lookup k cols'.
Proof.
  induction 1 as [|[x v] l l' P IH|[x v] [y w] l|l l' l'' P1 IH1 P2 IH2];
    cbn [map fst has_dup lookup]; intros D.
  - reflexivity.
  - apply orb_false_iff in D as [_ D]. now rewrite IH.
  - rewrite mem_cons in D.
    apply orb_false_iff in D as [D _]. apply orb_false_iff in D as [D _].
    destruct (String.eqb_spec k x) as [->|_]; [|reflexivity].
    destruct (String.eqb_spec x y) as [->|_]; [|reflexivity].
    rewrite String.eqb_refl in D. discriminate.
  - rewrite IH1 by exact D. apply IH2.
    rewrite <- (has_dup_perm (map fst l) (map fst l')); [exact D|].
    now apply Permutation_map.
Qed.

(** The frame that [reindex] builds, also when it returns its argument. *)
Lemma reindex_columns (df : DataFrame) (target : list string) :
  has_dup (labels df) = false ->
  reindex df target =
  Ok (mkFrame (nrows df) (map (fun t => (t, column_or_nan df t)) target)).
Proof.
  intros D. unfold reindex. rewrite D.
  destruct (labels_eqb (labels df) target) eqn:E; [|reflexivity].
  apply labels_eqb_eq in E. rewrite <- E. unfold labels. rewrite map_map.
  destruct df as [n cols]. cbn [columns nrows] in *. do 2 f_equal.
  rewrite <- (map_id cols) at 1. apply map_ext_in. intros [k v] Hin.
  cbn [fst]. unfold column_or_nan. cbn [columns].
  now rewrite (lookup_in_unique k v cols D Hin).
Qed.

Lemma kept_columns_perm (a b : DataFrame) :
  Permutation (columns a) (columns b) ->
  Permutation (columns (Jira.masked_columns a)) (columns (Jira.masked_columns b)).
Proof.
  intros P. rewrite !columns_kept.
  apply Permutation_filter. now apply Permutation_map.
Qed.

(** X19. The order of the columns of a sheet does not matter to
    [preprocess_columns]: two sheets with the same rows and the same
    columns in a different order give the same log lines and the same
    outcome -- the same reconciled table, or the same exception. *)
Theorem preprocess_columns_order
        (a b : DataFrame) (excel_filepath : Jira.Path) :
  nrows a = nrows b ->
  Permutation (columns a) (columns b) ->
  Jira.preprocess_columns a excel_filepath
  = Jira.preprocess_columns b excel_filepath.
Proof.
  intros N P. pose proof (kept_columns_perm a b P) as K.
  assert (L : Permutation (labels (Jira.masked_columns a))
                          (labels (Jira.masked_columns b)))
    by (unfold labels; now apply Permutation_map).
  destruct (columns a) as [|c0 cs] eqn:Ea.
  { pose proof (Permutation_nil P) as Eb. clear K L.
    now rewrite (preprocess_columns_empty a excel_filepath Ea),
      (preprocess_columns_empty b excel_filepath Eb). }
  assert (Na : columns a <> []) by (rewrite Ea; discriminate).
  assert (Nb : columns b <> []).
  { intros Eb. rewrite Eb in P. apply Permutation_sym, Permutation_nil in P.
    discriminate. }
  clear c0 cs Ea P.
  rewrite (preprocess_columns_nonempty a excel_filepath Na),
    (preprocess_columns_nonempty b excel_filepath Nb). f_equal.
  - unfold Jira.missing_column_logs. apply flat_map_ext. intros col.
    now rewrite (mem_perm _ _ _ (Permutation_map PyStr.lower L)).
  - pose proof (has_dup_renamed a) as Da. pose proof (has_dup_renamed b) as Db.
    rewrite <- !labels_renamed in Da, Db.
    assert (E : has_dup (View.kept_lower a) = has_dup (View.kept_lower b))
      by (apply has_dup_perm; unfold View.kept_lower; now apply Permutation_map).
    destruct (has_dup (View.kept_lower a)) eqn:Ha.
    + rewrite !reindex_duplicate; (reflexivity || congruence).
    + rewrite !reindex_columns by congruence.
      unfold column_or_nan. rewrite !columns_renamed.
      assert (R : forall df m, nrows (rename (Jira.masked_columns df) m) = nrows df)
        by reflexivity.
      rewrite !R, N. do 2 f_equal. apply map_ext. intros t. f_equal.
      rewrite (lookup_perm t _
                 (map (fun c => (View.canonical (fst c), snd c))
                    (columns (Jira.masked_columns b)))).
      * reflexivity.
      * now apply Permutation_map.
      * rewrite <- columns_renamed. fold (labels (rename (Jira.masked_columns a)
                 (Jira.col_rename_mapper (labels (Jira.masked_columns a))))).
        congruence.
Qed.

Lemma preprocess_columns_order_witness :
  Jira.preprocess_columns
    (mkFrame 1
       [("lead time", mkSeries Object [CStr "1d 2h"]);
        ("Owner", mkSeries Object [CStr "Ann"]);
        ("Date/Period", mkSeries Object [CStr "01/Jan/24 - 07/Jan/24 (Week #1)"])])
    (Jira.mkPath "Cards" "Cards" ".xlsx")
  = Jira.preprocess_columns
      (mkFrame 1
         [("Owner", mkSeries Object [CStr "Ann"]);
          ("Date/Period", mkSeries Object [CStr "01/Jan/24 - 07/Jan/24 (Week #1)"]);
          ("lead time", mkSeries Object [CStr "1d 2h"])])
      (Jira.mkPath "Cards" "Cards" ".xlsx").
Proof.
  apply (preprocess_columns_order
           (mkFrame 1
              [("lead time", mkSeries Object [CStr "1d 2h"]);
               ("Owner", mkSeries Object [CStr "Ann"]);
               ("Date/Period",
                mkSeries Object [CStr "01/Jan/24 - 07/Jan/24 (Week #1)"])])
           (mkFrame 1
              [("Owner", mkSeries Object [CStr "Ann"]);
               ("Date/Period",
                mkSeries Object [CStr "01/Jan/24 - 07/Jan/24 (Week #1)"]);
               ("lead time", mkSeries Object [CStr "1d 2h"])])).
  - reflexivity.
  - cbn [columns].
    apply Permutation_trans
      with [("Owner", mkSeries Object [CStr "Ann"]);
            ("lead time", mkSeries Object [CStr "1d 2h"]);
            ("Date/Period",
             mkSeries Object [CStr "01/Jan/24 - 07/Jan/24 (Week #1)"])].
    + apply perm_swap.
    + apply perm_skip. apply perm_swap.
Defined.

(* ------------------------------------------------------------------ *)
(** ** Rows with and without a period *)

(** A match that starts further right does not get lost. *)
Lemma search_app (r : Re.regex) (pre t : string) (g : Re.groups) :
  Re.match_here r t = Some g -> Re.search r (pre ++ t) <> None.
Proof.
  intros H. induction pre as [|c pre IH]; cbn [append].
  - now rewrite (search_here r t g H).
  - cbn [Re.search]. destruct (Re.match_here r (String c (pre ++ t)));
      [discriminate | exact IH].
Qed.

(** X20. A row of a text column whose cell is ASCII text gets its three
    period fields exactly when its text holds a period somewhere, whatever
    stands before and after it, digits included: the [Period Start] of the row is text if the cell
    can be split into some text, a date, white space, a dash, white space,
    a date, white space, [(], the word [week] in some mix of cases, white
    space, [#], digits, [)] and some text, and it is a missing value if the
    cell cannot be split in this way. *)
Theorem split_date_col_period_somewhere
        (df : DataFrame) (s : Series) (i : nat) (t : string) :
  getitem df "Date/Period" = Ok s ->
  can_str s = true ->
  nth_error (values s) i = Some (CStr t) ->
  PyStr.is_ascii t = true ->
  exists df',
    Jira.split_date_col df = Ok df'
    /\ ((exists l a b n,
            t = PeriodText.period_text l a b n
            /\ PeriodText.is_layout l = true
            /\ PeriodText.is_date a = true
            /\ PeriodText.is_date b = true
            /\ PeriodText.is_number n = true)
        <-> exists p, View.cell_at df' "Period Start" i = Some (CStr p))
    /\ ((forall l a b n,
            PeriodText.is_layout l = true ->
            PeriodText.is_date a = true ->
            PeriodText.is_date b = true ->
            PeriodText.is_number n = true ->
            t <> PeriodText.period_text l a b n)
        <-> View.cell_at df' "Period Start" i = Some NaN).
Proof.
  intros G Hstr Hc _. rewrite (split_date_col_spec df s G), Hstr.
  eexists. split; [reflexivity|].
  destruct (cell_at_period (nrows df) (values s)
              (filter (fun c => negb (String.eqb "Date/Period" (fst c)))
                      (columns df)) i) as (E1 & _ & _).
  rewrite E1, Hc. cbn [option_map]. clear E1.
  assert (F : forall l a b n,
             PeriodText.is_layout l = true ->
             PeriodText.is_date a = true ->
             PeriodText.is_date b = true ->
             PeriodText.is_number n = true ->
             t = PeriodText.period_text l a b n ->
             extract_row Jira.date_pattern 3 (CStr t) <> [None; None; None]).
  { intros [pre g1 g2 g3 wk g4 post] a b n Hl Ha Hb Hn -> E.
    assert (M : Re.match_here Jira.date_pattern
                  (PeriodText.period_text
                     (PeriodText.mkLayout EmptyString g1 g2 g3 wk g4 post) a b n)
                = Some [(3, n); (2, PeriodText.date_text b);
                        (1, PeriodText.date_text a)])
      by now apply match_here_period.
    apply (search_app _ pre) in M.
    change (pre ++ PeriodText.period_text
                     (PeriodText.mkLayout EmptyString g1 g2 g3 wk g4 post) a b n)%string
      with (PeriodText.period_text
              (PeriodText.mkLayout pre g1 g2 g3 wk g4 post) a b n) in M.
    cbn [extract_row] in E.
    destruct (Re.search Jira.date_pattern _) as [g|] eqn:S; [|now apply M].
    apply search_inv in S as (pre' & t' & _ & S).
    apply match_here_period_inv in S as (l' & a' & b' & n' & _ & _ & _ & _ & _ & _ & Hg).
    rewrite Hg in E. discriminate E. }
  destruct (extract_row_period t) as [E|(l & a & b & n & -> & Hl & Ha & Hb & Hn & E)].
  - rewrite E. cbn [nth cell_of_group]. split; split.
    + intros (l & a & b & n & Ht & Hl & Ha & Hb & Hn).
      now destruct (F l a b n Hl Ha Hb Hn Ht).
    + intros [p H]. discriminate H.
    + reflexivity.
    + intros _ l a b n Hl Ha Hb Hn Ht. now apply (F l a b n Hl Ha Hb Hn Ht).
  - rewrite E. cbn [nth cell_of_group]. split; split.
    + eauto.
    + intros _. exists l, a, b, n. repeat split; assumption.
    + intros H. now destruct (H l a b n Hl Ha Hb Hn).
    + discriminate.
Qed.

Lemma split_date_col_period_somewhere_witness :
  exists df',
    Jira.split_date_col
      (mkFrame 1
         [("Date/Period",
           mkSeries Object [CStr "Q1 2024: 01/Jan/24 - 07/Jan/24 (week #1)."])])
    = Ok df'
    /\ exists p, View.cell_at df' "Period Start" 0 = Some (CStr p).
Proof.
  destruct (split_date_col_period_somewhere
              (mkFrame 1
                 [("Date/Period",
                   mkSeries Object
                     [CStr "Q1 2024: 01/Jan/24 - 07/Jan/24 (week #1)."])])
              (mkSeries Object [CStr "Q1 2024: 01/Jan/24 - 07/Jan/24 (week #1)."])
              0 "Q1 2024: 01/Jan/24 - 07/Jan/24 (week #1)."
              eq_refl eq_refl eq_refl eq_refl) as (df' & Hrun & [Hsome _] & _).
  exists df'. split; [exact Hrun|]. apply Hsome.
  exists (PeriodText.mkLayout "Q1 2024: " " " " " " " "week" " " "."),
    (PeriodText.mkDate "01" "Jan" "24"), (PeriodText.mkDate "07" "Jan" "24"), "1".
  repeat split.
Defined.

(** X21. [split_date_col] cannot be applied twice: the frame it returns
    has no [Date/Period] column left, so that a second call on it raises
    [KeyError]. *)
Theorem split_date_col_twice (df df' : DataFrame) :
  Jira.split_date_col df = Ok df' ->
  Jira.split_date_col df' = Raise KeyError.
Proof.
  intros H.
  destruct (getitem df "Date/Period") as [s|e] eqn:G.
  2:{ unfold Jira.split_date_col in H. rewrite G in H. discriminate. }
  rewrite (split_date_col_spec df s G) in H.
  destruct (can_str s); [|discriminate].
  apply (f_equal (fun r => match r with Ok d => d | Raise _ => df' end)) in H.
  cbv beta iota in H. subst df'.
  assert (K : getitem
                (mkFrame (nrows df)
                   (View.period_columns (values s)
                      ++ filter (fun c => negb (String.eqb "Date/Period" (fst c)))
                           (columns df))) "Date/Period" = Raise KeyError).
  { apply getitem_key_error. unfold labels. cbn [columns]. rewrite map_app.
    unfold PyStr.mem. rewrite existsb_app. apply orb_false_iff.
    split; [reflexivity | apply mem_dropped]. }
  unfold Jira.split_date_col. now rewrite K.
Qed.

Lemma split_date_col_twice_witness :
  Jira.split_date_col
    (mkFrame 1
       [("Period Start", mkSeries Object [CStr "01/Jan/24"]);
        ("Period End", mkSeries Object [CStr "07/Jan/24"]);
        ("Week Number", mkSeries Object [CStr "1"]);
        ("Lead Time", mkSeries Float64 [CNum 26])])
  = Raise KeyError.
Proof.
  apply (split_date_col_twice
           (mkFrame 1
              [("Date/Period",
                mkSeries Object [CStr "01/Jan/24 - 07/Jan/24 (Week #1)"]);
               ("Lead Time", mkSeries Float64 [CNum 26])])).
  reflexivity.
Defined.

(* ------------------------------------------------------------------ *)
(** ** When [rename_excel_files] raises *)

Lemma eqb_avg (x : string) :
  String.eqb "AVG.xlsx" (x ++ ".xlsx") = String.eqb x "AVG".
Proof.
  destruct (String.eqb_spec x "AVG") as [->|Hne]; [reflexivity|].
  apply String.eqb_neq. intros H. apply Hne.
  change "AVG.xlsx" with ("AVG" ++ ".xlsx")%string in H.
  assert (L : String.length x = 3).
  { apply (f_equal String.length) in H. rewrite !length_append in H.
    simpl in H. lia. }
  rewrite <- (take_app x ".xlsx"), L, <- H. reflexivity.
Qed.

Lemma rename_avg_blocked {A : Type} (dirpath : string)
      (files : list (string * A)) (dirs : list string) :
  match Discovery.rename_avg dirpath files dirs with
  | inl _ => Discovery.blocked (dirpath, dirs, files) = false
  | inr _ => Discovery.blocked (dirpath, dirs, files) = true
  end.
Proof.
  unfold Discovery.rename_avg, Os.rename, Discovery.blocked.
  rewrite eqb_avg.
  destruct (PyStr.mem "AVG.xlsx" (map fst files)); [|reflexivity].
  destruct (String.eqb (Os.basename dirpath) "AVG"); [reflexivity|].
  destruct (PyStr.mem _ dirs); reflexivity.
Qed.

(** The walk of [rename_excel_files] ends with an exception exactly when
    it comes to a blocked directory. *)
Lemma rename_excel_files_blocked {A : Type} :
  forall (d : Os.Dir A) (top : string),
    match Discovery.rename_excel_files top d with
    | inl _ => existsb Discovery.blocked (Os.walk top d) = false
    | inr _ => existsb Discovery.blocked (Os.walk top d) = true
    end.
Proof.
  apply (Os.Dir_mut A
           (fun d => forall top,
                match Discovery.rename_excel_files top d with
                | inl _ => existsb Discovery.blocked (Os.walk top d) = false
                | inr _ => existsb Discovery.blocked (Os.walk top d) = true
                end)
           (fun f => forall top,
                match Discovery.rename_forest top f with
                | inl _ => existsb Discovery.blocked (Os.walk_forest top f) = false
                | inr _ => existsb Discovery.blocked (Os.walk_forest top f) = true
                end)).
  - intros files subdirs IH top.
    cbn [Discovery.rename_excel_files Os.walk existsb].
    pose proof (rename_avg_blocked top files (Os.names subdirs)) as B.
    destruct (Discovery.rename_avg top files (Os.names subdirs)); rewrite B;
      [|reflexivity].
    specialize (IH top).
    destruct (Discovery.rename_forest top subdirs); exact IH.
  - intros top. reflexivity.
  - intros name d IHd rest IHrest top.
    cbn [Discovery.rename_forest Os.walk_forest]. rewrite existsb_app.
    specialize (IHd (Os.join top name)). specialize (IHrest top).
    destruct (Discovery.rename_excel_files (Os.join top name) d); rewrite IHd;
      [|reflexivity].
    destruct (Discovery.rename_forest top rest); exact IHrest.
Qed.

(** X22. [rename_excel_files] raises exactly when the walk comes to a
    directory that holds [AVG.xlsx], is not itself called [AVG], and has a
    subdirectory under the new name [<directory>.xlsx]; what it raises is
    the [IsADirectoryError] of [os.rename].  On every other tree it
    returns: a file under the new name is no obstacle (it is replaced),
    and in a directory called [AVG] the file keeps its name. *)
Theorem rename_excel_files_raises {A : Type}
        (dir_to_search : string) (d : Os.Dir A) :
  (Discovery.rename_excel_files dir_to_search d = inr Os.IsADirectoryError
   <-> exists dirpath dirs files,
         In (dirpath, dirs, files) (Os.walk dir_to_search d)
         /\ In "AVG.xlsx" (map fst files)
         /\ Os.basename dirpath <> "AVG"
         /\ In (Os.basename dirpath ++ ".xlsx")%string dirs)
  /\ ((exists d', Discovery.rename_excel_files dir_to_search d = inl d')
      <-> forall dirpath dirs files,
            In (dirpath, dirs, files) (Os.walk dir_to_search d) ->
            In "AVG.xlsx" (map fst files) ->
            Os.basename dirpath <> "AVG" ->
            ~ In (Os.basename dirpath ++ ".xlsx")%string dirs).
Proof.
  assert (B : existsb Discovery.blocked (Os.walk dir_to_search d) = true
              <-> exists dirpath dirs files,
                    In (dirpath, dirs, files) (Os.walk dir_to_search d)
                    /\ In "AVG.xlsx" (map fst files)
                    /\ Os.basename dirpath <> "AVG"
                    /\ In (Os.basename dirpath ++ ".xlsx")%string dirs).
  { rewrite existsb_exists. split.
    - intros ([[dirpath dirs] files] & Hin & Hb). exists dirpath, dirs, files.
      unfold Discovery.blocked in Hb.
      apply andb_true_iff in Hb as [Hb H3]. apply andb_true_iff in Hb as [H1 H2].
      apply negb_true_iff, String.eqb_neq in H2.
      apply mem_In in H1, H3. auto.
    - intros (dirpath & dirs & files & Hin & H1 & H2 & H3).
      exists (dirpath, dirs, files). split; [exact Hin|].
      unfold Discovery.blocked.
      apply mem_In in H1, H3. apply String.eqb_neq in H2.
      now rewrite H1, H2, H3. }
  pose proof (rename_excel_files_blocked d dir_to_search) as R.
  destruct (Discovery.rename_excel_files dir_to_search d) as [d'|[]].
  - split.
    + split; [discriminate|]. intros H. apply B in H. congruence.
    + split; [|eauto]. intros _ dirpath dirs files Hin H1 H2 H3.
      assert (existsb Discovery.blocked (Os.walk dir_to_search d) = true)
        by (apply B; eauto 8).
      congruence.
  - split.
    + split; [intros _; now apply B | reflexivity].
    + split; [intros [d' H]; discriminate|].
      intros H. apply B in R as (dirpath & dirs & files & Hin & H1 & H2 & H3).
      now destruct (H dirpath dirs files Hin H1 H2).
Qed.

Lemma rename_excel_files_raises_witness :
  exists dirpath dirs files,
    In (dirpath, dirs, files)
       (Os.walk "data"
          (Os.mkDir []
             (Os.FCons "Cards"
                (Os.mkDir [("AVG.xlsx", 7)]
                   (Os.FCons "Cards.xlsx" (Os.mkDir [] Os.FNil) Os.FNil))
                Os.FNil)))
    /\ In "AVG.xlsx" (map fst files)
    /\ Os.basename dirpath <> "AVG"
    /\ In (Os.basename dirpath ++ ".xlsx")%string dirs.
Proof.
  apply (proj1 (proj1 (rename_excel_files_raises "data"
                         (Os.mkDir []
                            (Os.FCons "Cards"
                               (Os.mkDir [("AVG.xlsx", 7)]
                                  (Os.FCons "Cards.xlsx" (Os.mkDir [] Os.FNil)
                                     Os.FNil))
                               Os.FNil))))).
  reflexivity.
Defined.
